(** * Homework Agent portal scraper: the extraction and dispatch core

    A shallow embedding of the portal automation core of the homework agent
    (deployment/aws/configured_server.py, server.py, improved_server.py):
    the Python text primitives the extractor relies on, the date parser,
    the browser automation layer seen as an environment, the scrapers and
    the tool dispatchers, followed by the properties of the specification.

    A Python [str] is the [string] of its characters, one [ascii] per
    character, holding its code point: the texts covered are those whose
    characters have a code point below 256.  A naive [datetime] is the
    number of microseconds elapsed since 0001-01-01T00:00:00, which is the
    order and the arithmetic Python's naive datetimes have. *)

From Stdlib Require Import ZArith List String Ascii Bool Lia.
From Stdlib Require Import DecimalString RelationClasses.
Import ListNotations.

Local Open Scope string_scope.
Local Open Scope Z_scope.
Local Open Scope list_scope.

(** ** Python exceptions and results *)

(** An exception carries its class name and its message ([str(e)]). *)
Inductive exn : Type :=
| PyExn (kind : string) (msg : string).

Definition exn_msg (e : exn) : string :=
  match e with PyExn _ m => m end.

Inductive outcome (A : Type) : Type :=
| Ok (a : A)
| Raise (e : exn).
Arguments Ok {A} a.
Arguments Raise {A} e.

Definition ValueError (msg : string) : exn := PyExn "ValueError" msg.
Definition OverflowError (msg : string) : exn := PyExn "OverflowError" msg.

(** ** Python [str] methods used by the scrapers *)

Module PyStr.

Definition code (c : ascii) : Z := Z.of_nat (nat_of_ascii c).

(** The white space of [str.strip], [str.isspace] and of [\s] in a [str]
    pattern: TAB..CR, FS..US, the space, NEL (U+0085) and the no-break
    space (U+00A0). *)
Definition is_space (c : ascii) : bool :=
  let n := code c in
  ((9 <=? n) && (n <=? 13)) || ((28 <=? n) && (n <=? 32))
  || (n =? 133) || (n =? 160).

Definition is_digit (c : ascii) : bool :=
  let n := code c in (48 <=? n) && (n <=? 57).

Definition is_upper (c : ascii) : bool :=
  let n := code c in (65 <=? n) && (n <=? 90).

Definition is_lower (c : ascii) : bool :=
  let n := code c in (97 <=? n) && (n <=? 122).

Definition of_code (n : Z) : ascii := ascii_of_nat (Z.to_nat n).

(** The letters [str.lower] changes: A..Z and, past ASCII, U+00C0..U+00DE
    but the multiplication sign U+00D7. *)
Definition has_lower (c : ascii) : bool :=
  let n := code c in
  is_upper c || ((192 <=? n) && (n <=? 222) && negb (n =? 215)).

Definition lower_char (c : ascii) : ascii :=
  if has_lower c then of_code (code c + 32) else c.

Definition upper_char (c : ascii) : ascii :=
  if is_lower c then of_code (code c - 32) else c.

(** [s.lower()] *)
Fixpoint lower (s : string) : string :=
  match s with
  | EmptyString => EmptyString
  | String c r => String (lower_char c) (lower r)
  end.

Fixpoint lstrip (s : string) : string :=
  match s with
  | EmptyString => EmptyString
  | String c r => if is_space c then lstrip r else s
  end.

Fixpoint rstrip (s : string) : string :=
  match s with
  | EmptyString => EmptyString
  | String c r =>
      match rstrip r with
      | EmptyString => if is_space c then EmptyString else String c EmptyString
      | r' => String c r'
      end
  end.

(** [s.strip()] *)
Definition strip (s : string) : string := rstrip (lstrip s).

(** [needle in hay] *)
Fixpoint contains (needle hay : string) : bool :=
  prefix needle hay ||
  match hay with
  | EmptyString => false
  | String _ r => contains needle r
  end.

(** [s.replace(old, new)] for one-character [old] and [new]. *)
Fixpoint replace_char (old new : ascii) (s : string) : string :=
  match s with
  | EmptyString => EmptyString
  | String c r =>
      String (if Ascii.eqb c old then new else c) (replace_char old new r)
  end.

(** [s.title()]: a cased letter is upper-cased when the character before
    it is not a cased letter, lower-cased otherwise.  The letters are
    those of ASCII, as in the course keys the source applies it to. *)
Fixpoint title_from (previous_is_cased : bool) (s : string) : string :=
  match s with
  | EmptyString => EmptyString
  | String c r =>
      if is_lower c then
        String (if previous_is_cased then c else upper_char c) (title_from true r)
      else if is_upper c then
        String (if previous_is_cased then lower_char c else c) (title_from true r)
      else String c (title_from false r)
  end.

Definition title (s : string) : string := title_from false s.

(** Truthiness of a [str]: non-empty. *)
Definition truthy (s : string) : bool :=
  match s with EmptyString => false | _ => true end.

(** [str(n)] for a natural number. *)
Definition of_nat (n : nat) : string := NilEmpty.string_of_uint (Nat.to_uint n).

End PyStr.

(** ** Naive datetimes *)

Module PyDatetime.

(** Microseconds since 0001-01-01T00:00:00. *)
Definition datetime : Type := Z.

Definition MICROS_PER_DAY : Z := 86400000000.

Definition MINYEAR : Z := 1.
Definition MAXYEAR : Z := 9999.

Definition is_leap (year : Z) : bool :=
  ((year mod 4 =? 0) && negb (year mod 100 =? 0)) || (year mod 400 =? 0).

Definition days_in_month (year month : Z) : Z :=
  if month =? 2 then (if is_leap year then 29 else 28)
  else if (month =? 4) || (month =? 6) || (month =? 9) || (month =? 11) then 30
  else 31.

Definition days_before_year (year : Z) : Z :=
  let y := year - 1 in y * 365 + y / 4 - y / 100 + y / 400.

Fixpoint days_before_month_aux (year : Z) (m : nat) : Z :=
  match m with
  | O => 0
  | S k => days_before_month_aux year k + days_in_month year (Z.of_nat m)
  end.

Definition days_before_month (year month : Z) : Z :=
  days_before_month_aux year (Z.to_nat (month - 1)).

(** Proleptic Gregorian ordinal, 0001-01-01 being day 1. *)
Definition ymd2ord (year month day : Z) : Z :=
  days_before_year year + days_before_month year month + day.

(** [datetime(year, month, day)]: midnight of a valid calendar date. *)
Definition datetime_of_ymd (year month day : Z) : outcome datetime :=
  if negb ((MINYEAR <=? year) && (year <=? MAXYEAR)) then
    Raise (ValueError "year is out of range")
  else if negb ((1 <=? month) && (month <=? 12)) then
    Raise (ValueError "month must be in 1..12")
  else if negb ((1 <=? day) && (day <=? days_in_month year month)) then
    Raise (ValueError "day is out of range for month")
  else Ok ((ymd2ord year month day - 1) * MICROS_PER_DAY).

(** The last representable instant, 9999-12-31T23:59:59.999999. *)
Definition MAX : datetime := 3652059 * MICROS_PER_DAY - 1.

Definition valid (d : datetime) : bool := (0 <=? d) && (d <=? MAX).

(** [str(n)] for an integer. *)
Definition of_int (n : Z) : string := NilEmpty.string_of_int (Z.to_int n).

(** [d - timedelta(days=n)] *)
Definition sub_days (d : datetime) (n : Z) : outcome datetime :=
  if negb ((-999999999 <=? n) && (n <=? 999999999)) then
    Raise (OverflowError ("days=" ++ of_int n ++ "; must have magnitude <= 999999999"))
  else
    let r := d - n * MICROS_PER_DAY in
    if valid r then Ok r else Raise (OverflowError "date value out of range").

(** [d + timedelta(days=n)] *)
Definition add_days (d : datetime) (n : Z) : outcome datetime :=
  if negb ((-999999999 <=? n) && (n <=? 999999999)) then
    Raise (OverflowError ("days=" ++ of_int n ++ "; must have magnitude <= 999999999"))
  else
    let r := d + n * MICROS_PER_DAY in
    if valid r then Ok r else Raise (OverflowError "date value out of range").

(** [a >= b] *)
Definition ge (a b : datetime) : bool := b <=? a.

End PyDatetime.

(** ** [datetime.strptime] for the directives the scrapers use *)

Module PyStrptime.
Import PyStr PyDatetime.

(** One element of a compiled format.  CPython turns the format into a
    regular expression: a directive becomes a group of ordered
    alternatives, a run of white space becomes [\s+], any other character
    stands for itself, everything being matched ignoring case. *)
Inductive directive : Type :=
| Dir_m      (* %m : 1[0-2]|0[1-9]|[1-9] *)
| Dir_d      (* %d : 3[0-1]|[1-2]\d|0[1-9]|[1-9]| [1-9] *)
| Dir_Y      (* %Y : \d\d\d\d *)
| Dir_y      (* %y : \d\d *)
| Dir_b      (* %b : jan|feb|...|dec *)
| Dir_ws     (* \s+ *)
| Dir_lit (c : ascii).

Fixpoint compile_format (fmt : string) : outcome (list directive) :=
  match fmt with
  | EmptyString => Ok []
  | String "%" (String x r) =>
      match compile_format r with
      | Raise e => Raise e
      | Ok ds =>
          if Ascii.eqb x "m" then Ok (Dir_m :: ds)
          else if Ascii.eqb x "d" then Ok (Dir_d :: ds)
          else if Ascii.eqb x "Y" then Ok (Dir_Y :: ds)
          else if Ascii.eqb x "y" then Ok (Dir_y :: ds)
          else if Ascii.eqb x "b" then Ok (Dir_b :: ds)
          else Raise (ValueError "unsupported directive in format")
      end
  | String c r =>
      match compile_format r with
      | Raise e => Raise e
      | Ok ds =>
          if is_space c then
            match ds with
            | Dir_ws :: _ => Ok ds
            | _ => Ok (Dir_ws :: ds)
            end
          else Ok (Dir_lit c :: ds)
      end
  end.

(** The groups a match has bound. *)
Record fields : Type := mk_fields {
  f_year : option Z;
  f_month : Z;
  f_day : Z
}.

Definition no_fields : fields := mk_fields None 1 1.

Definition digit_val (c : ascii) : option Z :=
  if is_digit c then Some (code c - 48) else None.

(** A matcher lists the ways it can consume a prefix of the text, in the
    order a backtracking matcher tries them. *)
Definition matcher (A : Type) : Type := string -> list (A * string).

Definition one_digit (ok : Z -> bool) : matcher Z :=
  fun s =>
    match s with
    | String a r =>
        match digit_val a with
        | Some x => if ok x then [(x, r)] else []
        | None => []
        end
    | _ => []
    end.

Definition two_digits (ok : Z -> Z -> bool) : matcher Z :=
  fun s =>
    match s with
    | String a (String b r) =>
        match digit_val a, digit_val b with
        | Some x, Some y => if ok x y then [(10 * x + y, r)] else []
        | _, _ => []
        end
    | _ => []
    end.

Definition re_m : matcher Z :=
  fun s =>
    two_digits (fun x y => (x =? 1) && (y <=? 2)) s
    ++ two_digits (fun x y => (x =? 0) && (1 <=? y)) s
    ++ one_digit (fun x => 1 <=? x) s.

Definition re_d : matcher Z :=
  fun s =>
    two_digits (fun x y => (x =? 3) && (y <=? 1)) s
    ++ two_digits (fun x _ => (1 <=? x) && (x <=? 2)) s
    ++ two_digits (fun x y => (x =? 0) && (1 <=? y)) s
    ++ one_digit (fun x => 1 <=? x) s
    ++ match s with
       | String " " r => one_digit (fun x => 1 <=? x) r
       | _ => []
       end.

Definition re_y : matcher Z := two_digits (fun _ _ => true).

Definition re_Y : matcher Z :=
  fun s =>
    match two_digits (fun _ _ => true) s with
    | [(hi, r)] =>
        match two_digits (fun _ _ => true) r with
        | [(lo, r')] => [(100 * hi + lo, r')]
        | _ => []
        end
    | _ => []
    end.

(** Abbreviated month names of the C locale. *)
Definition a_month : list string :=
  ["jan"; "feb"; "mar"; "apr"; "may"; "jun";
   "jul"; "aug"; "sep"; "oct"; "nov"; "dec"].

Fixpoint re_b_from (names : list string) (index : Z) (s : string)
  : list (Z * string) :=
  match names with
  | [] => []
  | n :: rest =>
      (if prefix n (lower (substring 0 (String.length n) s))
       then [(index, substring (String.length n) (String.length s) s)]
       else [])
      ++ re_b_from rest (index + 1) s
  end.

Definition re_b : matcher Z := re_b_from a_month 1.

(** [\s+], greedy: the longest run first, then shorter ones. *)
Fixpoint re_ws (s : string) : list (unit * string) :=
  match s with
  | String c r => if is_space c then re_ws r ++ [(tt, r)] else []
  | EmptyString => []
  end.

Definition re_lit (c : ascii) : matcher unit :=
  fun s =>
    match s with
    | String a r => if Ascii.eqb (lower_char a) (lower_char c) then [(tt, r)] else []
    | EmptyString => []
    end.

Definition two_digit_year (y : Z) : Z :=
  if y <=? 68 then y + 2000 else y + 1900.

Definition match_directive (d : directive) (f : fields) : matcher fields :=
  fun s =>
    match d with
    | Dir_m => map (fun '(v, r) => (mk_fields (f_year f) v (f_day f), r)) (re_m s)
    | Dir_b => map (fun '(v, r) => (mk_fields (f_year f) v (f_day f), r)) (re_b s)
    | Dir_d => map (fun '(v, r) => (mk_fields (f_year f) (f_month f) v, r)) (re_d s)
    | Dir_Y => map (fun '(v, r) => (mk_fields (Some v) (f_month f) (f_day f), r)) (re_Y s)
    | Dir_y =>
        map (fun '(v, r) => (mk_fields (Some (two_digit_year v)) (f_month f) (f_day f), r))
            (re_y s)
    | Dir_ws => map (fun '(_, r) => (f, r)) (re_ws s)
    | Dir_lit c => map (fun '(_, r) => (f, r)) (re_lit c s)
    end.

Fixpoint match_format (ds : list directive) (f : fields) : matcher fields :=
  fun s =>
    match ds with
    | [] => [(f, s)]
    | d :: rest =>
        flat_map (fun '(f', r) => match_format rest f' r) (match_directive d f s)
    end.

(** [datetime.strptime(data_string, format)]: the first match of the
    compiled format at the start of the text; text left over and an
    impossible calendar date raise [ValueError]. *)
Definition strptime (data_string format : string) : outcome datetime :=
  match compile_format format with
  | Raise e => Raise e
  | Ok ds =>
      match match_format ds no_fields data_string with
      | [] => Raise (ValueError "time data does not match format")
      | (f, rest) :: _ =>
          if truthy rest then Raise (ValueError "unconverted data remains")
          else
            datetime_of_ymd
              (match f_year f with Some y => y | None => 1900 end)
              (f_month f) (f_day f)
      end
  end.

End PyStrptime.

(** ** The browser automation layer, seen from the scrapers

    Playwright is the environment of the program.  A locator is a chain of
    selection steps; a page shows a document that answers the read-only
    queries; every other browser operation is an action that the
    environment lets succeed or fail, knowing the actions attempted so
    far.  What [await locator] does is a field of the document too, so
    that the scrapers are described for any automation library; with
    Playwright it raises [not_awaitable] on every page. *)

Inductive lstep : Type :=
| Sel (css : string)     (* .locator(css) *)
| First                  (* .first *)
| Nth (index : nat).     (* .nth(index) *)

Definition Locator : Type := list lstep.

Record Document : Type := mk_Document {
  doc_count : Locator -> outcome nat;          (* await locator.count() *)
  doc_inner_text : Locator -> outcome string;  (* await locator.inner_text() *)
  doc_await : Locator -> outcome unit          (* await locator *)
}.

Inductive Event : Type :=
| EvStart                                          (* async_playwright().start() *)
| EvLaunch (slow_mo : Z) (args : list string)      (* pw.chromium.launch(...) *)
| EvNewContext (storage_state : option string)     (* browser.new_context(...) *)
| EvNewPage                                        (* context.new_page() *)
| EvGoto (url : string)                            (* page.goto(url) *)
| EvWaitLoad (timeout : Z)                         (* page.wait_for_load_state *)
| EvScreenshot (path : string)                     (* page.screenshot(path=...) *)
| EvFill (selector : string) (value : option string) (* page.fill(selector, value) *)
| EvClick (selector : string)                      (* page.click(selector) *)
| EvPress (key : string)                           (* page.keyboard.press(key) *)
| EvStorageState (path : string)                   (* context.storage_state(path=...) *)
| EvClosePage                                      (* page.close() *)
| EvCloseContext.                                  (* context.close() *)

(** The environment: the wall clock ([clock n] is the [n]-th reading of
    [datetime.now()]), the file system, and the browser.  Histories list
    the most recent action first. *)
Record World : Type := mk_World {
  clock : nat -> PyDatetime.datetime;
  path_exists : list Event -> string -> bool;      (* os.path.exists *)
  abspath : string -> string;                      (* os.path.abspath *)
  respond : list Event -> Event -> outcome unit;
  document : list Event -> Document
}.

(** Module-level configuration, read once from the process environment. *)
Record Config : Type := mk_Config {
  PORTAL_BASE_URL : string;
  FULL_LOGIN_URL : string;
  USERNAME : option string;
  PASSWORD : option string;
  STATE_PATH : string
}.

Record St : Type := mk_St {
  st_history : list Event;
  st_ticks : nat
}.

(** ** Computations: state passing with Python exceptions *)

Definition M (A : Type) : Type := St -> outcome A * St.

Definition ret {A : Type} (a : A) : M A := fun s => (Ok a, s).

Definition bind {A B : Type} (m : M A) (k : A -> M B) : M B :=
  fun s =>
    match m s with
    | (Ok a, s') => k a s'
    | (Raise e, s') => (Raise e, s')
    end.

Definition raise {A : Type} (e : exn) : M A := fun s => (Raise e, s).

(** [try: m  except Exception as e: handler e] *)
Definition try_except {A : Type} (m : M A) (handler : exn -> M A) : M A :=
  fun s =>
    match m s with
    | (Ok a, s') => (Ok a, s')
    | (Raise e, s') => handler e s'
    end.

(** [try: m  finally: cleanup]; an exception of the cleanup replaces the
    result of the body. *)
Definition try_finally {A : Type} (m : M A) (cleanup : M unit) : M A :=
  fun s =>
    match m s with
    | (r, s') =>
        match cleanup s' with
        | (Ok _, s'') => (r, s'')
        | (Raise e, s'') => (Raise e, s'')
        end
    end.

Declare Scope py_scope.
Delimit Scope py_scope with py.
Notation "x <- m ;; k" := (bind m (fun x => k))
  (at level 61, m at next level, right associativity) : py_scope.
Notation "m ;; k" := (bind m (fun _ => k))
  (at level 61, right associativity) : py_scope.
Local Open Scope py_scope.

Section Primitives.
Variable w : World.

(** An action on the browser: recorded, then answered by the environment. *)
Definition act (e : Event) : M unit :=
  fun s => (respond w (st_history s) e,
            mk_St (e :: st_history s) (st_ticks s)).

(** [datetime.now()] *)
Definition now : M PyDatetime.datetime :=
  fun s => (Ok (clock w (st_ticks s)), mk_St (st_history s) (S (st_ticks s))).

Definition exists_path (path : string) : M bool :=
  fun s => (Ok (path_exists w (st_history s) path), s).

Definition query {A : Type} (q : Document -> outcome A) : M A :=
  fun s => (q (document w (st_history s)), s).

Definition count (l : Locator) : M nat := query (fun d => doc_count d l).

Definition inner_text (l : Locator) : M string := query (fun d => doc_inner_text d l).

(** [await l.first] *)
Definition await_first (l : Locator) : M Locator :=
  query (fun d => doc_await d (l ++ [First]));; ret (l ++ [First]).

(** [await l.all()]: the locators [l.nth(0)], ..., [l.nth(count - 1)]. *)
Definition all (l : Locator) : M (list Locator) :=
  n <- count l;; ret (map (fun i => l ++ [Nth i]) (seq 0 n)).

End Primitives.

(** What [await locator] raises in Playwright, whose [Locator] defines no
    [__await__]: the expression fails before anything is asked of the
    page. *)
Definition not_awaitable : exn :=
  PyExn "TypeError" "object Locator can't be used in 'await' expression".

(** [enumerate(xs)] *)
Definition enumerate {A : Type} (xs : list A) : list (nat * A) :=
  combine (seq 0 (List.length xs)) xs.

(** ** Data models *)

(** A Python float is kept as the literal it was converted from. *)
Inductive float : Type :=
| FloatOf (numeral : string).

(** The texts [float(text)] accepts (white space apart): an optional sign,
    then [inf], [infinity] or [nan] in any case, or a decimal number with an
    optional exponent, digits being separable by single underscores. *)
Module PyFloat.

(** The rest of a [digit (["_"] digit)*] of which a digit was just read. *)
Fixpoint after_digit (s : string) : string :=
  match s with
  | EmptyString => EmptyString
  | String c r =>
      if PyStr.is_digit c then after_digit r
      else if Ascii.eqb c "_" then
        match r with
        | String d r' => if PyStr.is_digit d then after_digit r' else s
        | EmptyString => s
        end
      else s
  end.

Definition digitpart (s : string) : option string :=
  match s with
  | String c r => if PyStr.is_digit c then Some (after_digit r) else None
  | EmptyString => None
  end.

Definition sign (s : string) : string :=
  match s with
  | String "+" r => r
  | String "-" r => r
  | _ => s
  end.

(** [[digitpart] "." digitpart | digitpart ["."]] *)
Definition number (s : string) : option string :=
  match digitpart s with
  | Some r =>
      match r with
      | String "." r' =>
          match digitpart r' with
          | Some r'' => Some r''
          | None => Some r'
          end
      | _ => Some r
      end
  | None =>
      match s with
      | String "." r' => digitpart r'
      | _ => None
      end
  end.

(** [[("e" | "E") [sign] digitpart]] *)
Definition exponent (s : string) : option string :=
  match s with
  | String c r =>
      if Ascii.eqb (PyStr.lower_char c) "e" then digitpart (sign r) else Some s
  | EmptyString => Some s
  end.

Definition is_literal (text : string) : bool :=
  let body := sign (PyStr.strip text) in
  let name := PyStr.lower body in
  if String.eqb name "inf" || String.eqb name "infinity" || String.eqb name "nan"
  then true
  else
    match number body with
    | Some r =>
        match exponent r with
        | Some EmptyString => true
        | _ => false
        end
    | None => false
    end.

(** [float(text)], raising [ValueError] on any other text. *)
Definition of_text (text : string) : outcome float :=
  if is_literal text then Ok (FloatOf (PyStr.strip text))
  else Raise (ValueError "could not convert string to float").

End PyFloat.

Record Assignment : Type := mk_Assignment {
  title : string;
  course : string;
  due_date : option PyDatetime.datetime;
  status : string;
  points_possible : option float;
  points_earned : option float;
  link : option string
}.

Record GradeSample : Type := mk_GradeSample {
  gs_course : string;
  gs_date : PyDatetime.datetime;
  gs_grade_percent : option float
}.

(** A browser context, with the storage state it was created from. *)
Record BrowserContext : Type := mk_BrowserContext {
  ctx_storage_state : option string
}.

Record Arguments_ : Type := mk_Arguments {
  arg_since_days : option Z;
  arg_course : option string
}.

Record ToolRequest : Type := mk_ToolRequest {
  tool : string;
  arguments : Arguments_
}.

Inductive ToolData : Type :=
| MissingData (count_ : nat) (items : list Assignment)
| GradesData (course_filter : option string) (items : list GradeSample)
| HealthData (time : PyDatetime.datetime) (base_url login_url state_file : string)
             (credentials_configured : bool) (configured_urls : option (list string)).

Record ToolResponse : Type := mk_ToolResponse {
  success : bool;
  data : option ToolData;
  error : option string
}.

(** ** Date and grade parsing shared by the extraction loops *)

Definition date_formats : list string :=
  ["%m/%d/%Y"; "%Y-%m-%d"; "%b %d, %Y"; "%m-%d-%Y"; "%m/%d/%y"].

(** [for fmt in formats: try: d = strptime(text.strip(), fmt); break
     except: continue] *)
Fixpoint first_format (text : string) (formats : list string)
  : option PyDatetime.datetime :=
  match formats with
  | [] => None
  | fmt :: rest =>
      match PyStrptime.strptime (PyStr.strip text) fmt with
      | Ok d => Some d
      | Raise _ => first_format text rest
      end
  end.

(** Assignments: [due_date = None], overwritten when the text is non-empty
    and a format parses it. *)
Definition parse_due_date (due_date_text : option string)
  : option PyDatetime.datetime :=
  match due_date_text with
  | Some text => if PyStr.truthy text then first_format text date_formats else None
  | None => None
  end.

(** Grades: [grade_date = datetime.now()], overwritten when the text is
    non-empty and a format parses it. *)
Definition parse_grade_date (now_ : PyDatetime.datetime) (date_text : option string)
  : PyDatetime.datetime :=
  match parse_due_date date_text with
  | Some d => d
  | None => now_
  end.

(** [re.findall(r'\d+\.?\d*', text)[0]], when there is a match. *)
Fixpoint take_digits (s : string) : string * string :=
  match s with
  | String c r =>
      if PyStr.is_digit c then let '(ds, rest) := take_digits r in (String c ds, rest)
      else (EmptyString, s)
  | EmptyString => (EmptyString, EmptyString)
  end.

Fixpoint first_number (s : string) : option string :=
  match s with
  | EmptyString => None
  | String c r =>
      if PyStr.is_digit c then
        let '(int_part, rest) := take_digits s in
        match rest with
        | String "." rest' =>
            let '(frac, _) := take_digits rest' in
            Some (int_part ++ String "." frac)%string
        | _ => Some int_part
        end
      else first_number r
  end.

Definition parse_grade_percent (grade_text : string) : option float :=
  if PyStr.truthy grade_text then
    match first_number grade_text with
    | Some numeral => Some (FloatOf numeral)
    | None => None
    end
  else None.

(** ** deployment/aws/configured_server.py *)

Module configured_server.

Definition grades_overview_url : string :=
  "https://academy20co.infinitecampus.org/campus/nav-wrapper/parent/portal/parent/grades?appName=academy20".

Definition assignments_all_url : string :=
  "https://academy20co.infinitecampus.org/campus/nav-wrapper/parent/portal/parent/assignment-list?appName=academy20".

Definition assignments_missing_url : string :=
  "https://academy20co.infinitecampus.org/campus/nav-wrapper/parent/portal/parent/assignment-list?missingFilter=true&appName=academy20".

Definition class_url (section_id : string) : string :=
  ("https://academy20co.infinitecampus.org/campus/nav-wrapper/parent/portal/parent/classroom/grades/student-grades?showAllTerms=false&selectedTermID=4928&classroomSectionID="
   ++ section_id ++ "&appName=academy20")%string.

(** [INFINITE_CAMPUS_URLS["classes"]] *)
Definition classes : list (string * string) :=
  [("individuals_and_societies", class_url "2203804");
   ("lang_lit", class_url "2203759");
   ("science", class_url "2203787");
   ("spanish_2", class_url "2203715");
   ("pre_algebra", class_url "2203700")].

(** [list(INFINITE_CAMPUS_URLS.keys())] *)
Definition configured_urls_keys : list string :=
  ["grades_overview"; "assignments_all"; "assignments_missing"; "classes"].

(** The alias table of [scrape_course_grades], in the order it is written. *)
Definition course_mapping : list (string * string) :=
  [("individuals", "individuals_and_societies");
   ("societies", "individuals_and_societies");
   ("lang", "lang_lit");
   ("lit", "lang_lit");
   ("language", "lang_lit");
   ("literature", "lang_lit");
   ("science", "science");
   ("spanish", "spanish_2");
   ("math", "pre_algebra");
   ("algebra", "pre_algebra");
   ("pre-algebra", "pre_algebra")].

(** [d[key]] / [key in d] on a dict written as an association list. *)
Fixpoint dict_get (d : list (string * string)) (key : string) : option string :=
  match d with
  | [] => None
  | (k, v) :: rest => if String.eqb k key then Some v else dict_get rest key
  end.

(** [for key, value in mapping.items():
       if key.lower() in course_filter.lower(): course_key = value; break] *)
Fixpoint find_course_key (mapping : list (string * string)) (course_filter : string)
  : option string :=
  match mapping with
  | [] => None
  | (key, value) :: rest =>
      if PyStr.contains (PyStr.lower key) (PyStr.lower course_filter)
      then Some value
      else find_course_key rest course_filter
  end.

Definition table_selectors_assignments : list string :=
  ["table"; ".assignment-table"; ".data-table"; ".table"; "[role='table']"; ".ic-table"].

Definition card_selectors : list string :=
  [".assignment-card"; ".assignment-item"; ".card"; "[data-testid*='assignment']"].

Definition table_selectors_grades : list string :=
  ["table"; ".grade-table"; ".data-table"; ".table"; "[role='table']"; ".ic-table"].

Definition logged_in_indicators : list string :=
  ["text=Logout"; "text=Sign Out"; "text=Welcome"; "text=Dashboard"; "text=Grades"].

Section Server.
Variable cfg : Config.
Variable w : World.

Definition get_context : M BrowserContext :=
  act w EvStart;;
  act w (EvLaunch 1000 ["--disable-web-security"; "--disable-features=VizDisplayCompositor"]);;
  present <- exists_path w (STATE_PATH cfg);;
  let storage_state := if present then Some (STATE_PATH cfg) else None in
  act w (EvNewContext storage_state);;
  ret (mk_BrowserContext storage_state).

Definition wait_for_page_load (timeout : Z) : M unit :=
  try_except (act w (EvWaitLoad timeout)) (fun _ => ret tt).

(** [for indicator in indicators:
       try:
           if await page.locator(indicator).count() > 0: found = True; break
       except: continue] *)
Fixpoint probe_indicators (indicators : list string) : M bool :=
  match indicators with
  | [] => ret false
  | indicator :: rest =>
      found <- try_except (n <- count w [Sel indicator];; ret (0 <? n)%nat)
                          (fun _ => ret false);;
      if found then ret true else probe_indicators rest
  end.

Definition ensure_login (context : BrowserContext) : M unit :=
  act w EvNewPage;;
  try_finally
    (try_except
       (act w (EvGoto (PORTAL_BASE_URL cfg));;
        wait_for_page_load 10000;;
        logged_in <- probe_indicators logged_in_indicators;;
        if logged_in then act w EvClosePage
        else
          act w (EvFill "input[name='loginfmt']" (USERNAME cfg));;
          act w (EvClick "input[type='submit']");;
          wait_for_page_load 5000;;
          act w (EvFill "input[name='passwd']" (PASSWORD cfg));;
          act w (EvClick "input[type='submit']");;
          wait_for_page_load 15000;;
          act w (EvStorageState (STATE_PATH cfg)))
       (fun _ => ret tt))
    (act w EvClosePage).

(** [for selector in selectors:
       if await page.locator(selector).count() > 0: found = selector; break] *)
Fixpoint first_matching (selectors : list string) : M (option string) :=
  match selectors with
  | [] => ret None
  | selector :: rest =>
      n <- count w [Sel selector];;
      if (0 <? n)%nat then ret (Some selector) else first_matching rest
  end.

Definition keep_assignment (due_date : option PyDatetime.datetime)
    (cutoff_date : PyDatetime.datetime) : bool :=
  match due_date with
  | None => true
  | Some d => PyDatetime.ge d cutoff_date
  end.

(** [text if await elem.count() > 0 else default] *)
Definition text_or {A : Type} (elem : Locator) (some : string -> A) (default : A)
  : M A :=
  n <- count w elem;;
  if (0 <? n)%nat then t <- inner_text w elem;; ret (some t) else ret default.

(** Body of the [try] of the card loop; [None] when nothing is appended. *)
Definition assignment_of_card (cutoff_date : PyDatetime.datetime)
    (i : nat) (card : Locator) : M (option Assignment) :=
  title_elem <-
    await_first w (card ++ [Sel "h3, .title, .assignment-title, [data-testid*='title']"]);;
  course_elem <- await_first w (card ++ [Sel ".course, .subject, .class-name"]);;
  status_elem <- await_first w (card ++ [Sel ".status, .assignment-status, .missing"]);;
  due_date_elem <- await_first w (card ++ [Sel ".due-date, .due, .date"]);;
  title <- text_or title_elem (fun t => t)
             ("Assignment " ++ PyStr.of_nat (i + 1))%string;;
  course <- text_or course_elem (fun t => t) "Unknown";;
  status <- text_or status_elem (fun t => t) "missing";;
  due_date_text <- text_or due_date_elem Some None;;
  let due_date := parse_due_date due_date_text in
  if keep_assignment due_date cutoff_date then
    ret (Some (mk_Assignment (PyStr.strip title) (PyStr.strip course) due_date
                             "missing" None None None))
  else ret None.

(** Body of the [try] of the table loop. *)
Definition assignment_of_row (cutoff_date : PyDatetime.datetime)
    (i : nat) (row : Locator) : M (option Assignment) :=
  if (i =? 0)%nat then ret None
  else
    cells <- all w (row ++ [Sel "td"]);;
    match cells with
    | c0 :: c1 :: c2 :: more =>
        title <- inner_text w c0;;
        course <- inner_text w c1;;
        due_date_text <- inner_text w c2;;
        status <- match more with
                  | c3 :: _ => inner_text w c3
                  | [] => ret "missing"
                  end;;
        let due_date := parse_due_date (Some due_date_text) in
        if keep_assignment due_date cutoff_date then
          ret (Some (mk_Assignment (PyStr.strip title) (PyStr.strip course) due_date
                                   "missing" None None None))
        else ret None
    | _ => ret None       (* len(cells) < 3 *)
    end.

(** [for i, x in enumerate(xs): try: body  except Exception: continue],
    the body appending at most one record. *)
Fixpoint collect {R : Type} (body : nat -> Locator -> M (option R))
    (xs : list (nat * Locator)) (acc : list R) : M (list R) :=
  match xs with
  | [] => ret acc
  | (i, x) :: rest =>
      r <- try_except (body i x) (fun _ => ret None);;
      collect body rest (match r with Some a => acc ++ [a] | None => acc end)
  end.

Fixpoint scan_card_selectors (cutoff_date : PyDatetime.datetime)
    (selectors : list string) (assignments : list Assignment)
  : M (list Assignment) :=
  match selectors with
  | [] => ret assignments
  | selector :: rest =>
      n <- count w [Sel selector];;
      if (0 <? n)%nat then
        cards <- all w [Sel selector];;
        collect (assignment_of_card cutoff_date) (enumerate cards) assignments
      else scan_card_selectors cutoff_date rest assignments
  end.

Definition scrape_missing_assignments (context : BrowserContext) (since_days : Z)
  : M (list Assignment) :=
  act w EvNewPage;;
  try_finally
    (try_except
       (act w (EvGoto assignments_missing_url);;
        wait_for_page_load 10000;;
        act w (EvScreenshot "assignments_page_debug.png");;
        t <- now w;;
        cutoff_date <- (fun s => (PyDatetime.sub_days t since_days, s));;
        table_found <- first_matching table_selectors_assignments;;
        match table_found with
        | None => scan_card_selectors cutoff_date card_selectors []
        | Some selector =>
            table <- await_first w [Sel selector];;
            rows <- all w (table ++ [Sel "tr"]);;
            collect (assignment_of_row cutoff_date) (enumerate rows) []
        end)
       (fun _ => ret []))
    (act w EvClosePage).

(** Body of the [try] of the grade-table loop. *)
Definition grade_of_row (course_name : string) (cutoff_date : PyDatetime.datetime)
    (i : nat) (row : Locator) : M (option GradeSample) :=
  if (i =? 0)%nat then ret None
  else
    cells <- all w (row ++ [Sel "td"]);;
    match cells with
    | c0 :: c1 :: more =>
        grade_text <- inner_text w c0;;
        date_text <- inner_text w c1;;
        description_text <- match more with
                            | c2 :: _ => t <- inner_text w c2;; ret (Some t)
                            | [] => ret None
                            end;;
        let grade_percent := parse_grade_percent grade_text in
        t <- now w;;
        let grade_date := parse_grade_date t (Some date_text) in
        if PyDatetime.ge grade_date cutoff_date then
          ret (Some (mk_GradeSample
                       (PyStr.title (PyStr.replace_char "_" " " course_name))
                       grade_date grade_percent))
        else ret None
    | _ => ret None       (* len(cells) < 2 *)
    end.

Definition extract_grades_from_page (course_name : string)
    (cutoff_date : PyDatetime.datetime) : M (list GradeSample) :=
  try_except
    (table_found <- first_matching table_selectors_grades;;
     match table_found with
     | Some selector =>
         table <- await_first w [Sel selector];;
         rows <- all w (table ++ [Sel "tr"]);;
         collect (grade_of_row course_name cutoff_date) (enumerate rows) []
     | None => ret []
     end)
    (fun _ => ret []).

(** The per-course page the filter resolves to, when there is one:
    [course_key and course_key in INFINITE_CAMPUS_URLS["classes"]]. *)
Definition resolve_course (course_filter : string) : option (string * string) :=
  match find_course_key course_mapping course_filter with
  | Some course_key =>
      if PyStr.truthy course_key then
        match dict_get classes course_key with
        | Some url => Some (course_key, url)
        | None => None
        end
      else None
  | None => None
  end.

(** [if course_filter:] on an optional text. *)
Definition given (course_filter : option string) : option string :=
  match course_filter with
  | Some filter_text => if PyStr.truthy filter_text then Some filter_text else None
  | None => None
  end.

Definition scrape_course_grades (context : BrowserContext)
    (course_filter : option string) (since_days : Z) : M (list GradeSample) :=
  act w EvNewPage;;
  try_finally
    (try_except
       (t <- now w;;
        cutoff_date <- (fun s => (PyDatetime.sub_days t since_days, s));;
        match given course_filter with
        | Some filter_text =>
            match resolve_course filter_text with
            | Some (course_key, url) =>
                act w (EvGoto url);;
                wait_for_page_load 10000;;
                act w (EvScreenshot ("grades_" ++ course_key ++ "_debug.png")%string);;
                course_grades <- extract_grades_from_page course_key cutoff_date;;
                ret ([] ++ course_grades)
            | None =>
                (* "Course ... not found, getting all grades" is printed,
                   nothing else is done *)
                ret []
            end
        | None =>
            act w (EvGoto grades_overview_url);;
            wait_for_page_load 10000;;
            act w (EvScreenshot "grades_overview_debug.png");;
            overview_grades <- extract_grades_from_page "overview" cutoff_date;;
            ret ([] ++ overview_grades)
        end)
       (fun _ => ret []))
    (act w EvClosePage).

Definition credentials_configured_ : bool :=
  match USERNAME cfg, PASSWORD cfg with
  | Some u, Some p => PyStr.truthy u && PyStr.truthy p
  | _, _ => false
  end.

Definition since_days_of (args : Arguments_) : Z :=
  match arg_since_days args with Some n => n | None => 14 end.

Definition call_tool (request : ToolRequest) : M ToolResponse :=
  try_except
    (if String.eqb (tool request) "check_missing_assignments" then
       let since_days := since_days_of (arguments request) in
       context <- get_context;;
       try_finally
         (ensure_login context;;
          data_ <- scrape_missing_assignments context since_days;;
          ret (mk_ToolResponse true (Some (MissingData (List.length data_) data_)) None))
         (act w EvCloseContext)
     else if String.eqb (tool request) "get_course_grades" then
       let course_ := arg_course (arguments request) in
       let since_days := since_days_of (arguments request) in
       context <- get_context;;
       try_finally
         (ensure_login context;;
          data_ <- scrape_course_grades context course_ since_days;;
          ret (mk_ToolResponse true (Some (GradesData course_ data_)) None))
         (act w EvCloseContext)
     else if String.eqb (tool request) "health" then
       t <- now w;;
       ret (mk_ToolResponse true
              (Some (HealthData t (PORTAL_BASE_URL cfg) (FULL_LOGIN_URL cfg)
                                (abspath w (STATE_PATH cfg)) credentials_configured_
                                (Some configured_urls_keys)))
              None)
     else
       ret (mk_ToolResponse false None (Some ("Unknown tool: " ++ tool request)%string)))
    (fun e => ret (mk_ToolResponse false None (Some (exn_msg e)))).

End Server.

End configured_server.

(** ** server.py *)

Module server.

Section Server.
Variable cfg : Config.
Variable w : World.

Definition get_context : M BrowserContext :=
  act w EvStart;;
  act w (EvLaunch 0 []);;
  present <- exists_path w (STATE_PATH cfg);;
  let storage_state := if present then Some (STATE_PATH cfg) else None in
  act w (EvNewContext storage_state);;
  ret (mk_BrowserContext storage_state).

Definition ensure_login (context : BrowserContext) : M unit :=
  act w EvNewPage;;
  act w (EvGoto (PORTAL_BASE_URL cfg));;
  n <- count w [Sel "text=Logout"];;
  if (0 <? n)%nat then act w EvClosePage
  else
    act w (EvGoto (FULL_LOGIN_URL cfg));;
    act w (EvFill "input[name='username']" (USERNAME cfg));;
    act w (EvFill "input[name='password']" (PASSWORD cfg));;
    act w (EvClick "button[type='submit']");;
    act w (EvWaitLoad 30000);;
    act w (EvStorageState (STATE_PATH cfg));;
    act w EvClosePage.

(** [await l.inner_text() if await l.count() else default] *)
Definition text_if_present {A : Type} (l : Locator) (some : string -> A) (default : A)
  : M A :=
  n <- count w l;;
  if (0 <? n)%nat then t <- inner_text w l;; ret (some t) else ret default.

Definition strptime_or_none (text : option string) : option PyDatetime.datetime :=
  match text with
  | Some t =>
      if PyStr.truthy t then
        match PyStrptime.strptime t "%b %d, %Y" with
        | Ok d => Some d
        | Raise _ => None
        end
      else None
  | None => None
  end.

Fixpoint assignment_rows (rows : Locator) (cutoff : PyDatetime.datetime)
    (indices : list nat) (items : list Assignment) : M (list Assignment) :=
  match indices with
  | [] => ret items
  | i :: rest =>
      let row := rows ++ [Nth i] in
      title <- text_if_present (row ++ [Sel ".title"]) (fun t => t) "Unknown";;
      course <- text_if_present (row ++ [Sel ".course"]) (fun t => t) "Unknown";;
      status <- text_if_present (row ++ [Sel ".status"]) (fun t => t) "unknown";;
      due_txt <- text_if_present (row ++ [Sel ".due"]) Some None;;
      let due_date := strptime_or_none due_txt in
      let keep :=
        prefix "missing" (PyStr.lower status) &&
        match due_date with
        | None => true
        | Some d => PyDatetime.ge d cutoff
        end in
      assignment_rows rows cutoff rest
        (if keep
         then items ++ [mk_Assignment title course due_date "missing" None None None]
         else items)
  end.

Definition scrape_missing_assignments (context : BrowserContext) (since_days : Z)
  : M (list Assignment) :=
  act w EvNewPage;;
  act w (EvGoto (PORTAL_BASE_URL cfg ++ "/assignments")%string);;
  act w (EvWaitLoad 30000);;
  let rows := [Sel ".assignment-row"] in
  n <- count w rows;;
  t <- now w;;
  cutoff <- (fun s => (PyDatetime.sub_days t since_days, s));;
  items <- assignment_rows rows cutoff (seq 0 n) [];;
  act w EvClosePage;;
  ret items.

(** [grade_txt.replace("%", "")] *)
Fixpoint remove_char (c : ascii) (s : string) : string :=
  match s with
  | EmptyString => EmptyString
  | String a r => if Ascii.eqb a c then remove_char c r else String a (remove_char c r)
  end.

(** [try: pct = float(grade_txt.replace("%", "").strip())
     except: pct = None] *)
Definition float_of_text (text : string) : option float :=
  match PyFloat.of_text (PyStr.strip (remove_char "%" text)) with
  | Ok pct => Some pct
  | Raise _ => None
  end.

Fixpoint history_rows (course : string) (rows : Locator) (cutoff : PyDatetime.datetime)
    (indices : list nat) (samples : list GradeSample) : M (list GradeSample) :=
  match indices with
  | [] => ret samples
  | j :: rest =>
      let r := rows ++ [Nth j] in
      date_txt <- inner_text w (r ++ [Sel "td:nth-child(1)"]);;
      grade_txt <- inner_text w (r ++ [Sel "td:nth-child(2)"]);;
      match PyStrptime.strptime date_txt "%b %d, %Y" with
      | Raise _ => history_rows course rows cutoff rest samples
      | Ok dt =>
          if dt <? cutoff then history_rows course rows cutoff rest samples
          else
            history_rows course rows cutoff rest
              (samples ++ [mk_GradeSample course dt (float_of_text grade_txt)])
      end
  end.

Fixpoint course_cards (courses : Locator) (course_filter : option string)
    (cutoff : PyDatetime.datetime) (indices : list nat) (samples : list GradeSample)
  : M (list GradeSample) :=
  match indices with
  | [] => ret samples
  | i :: rest =>
      let card := courses ++ [Nth i] in
      course <- text_if_present (card ++ [Sel ".course-name"]) (fun t => t) "Unknown";;
      let skip :=
        match course_filter with
        | Some f => PyStr.truthy f && negb (PyStr.contains (PyStr.lower f) (PyStr.lower course))
        | None => false
        end in
      if skip then course_cards courses course_filter cutoff rest samples
      else
        let rows := card ++ [Sel ".grade-history tr"] in
        rcount <- count w rows;;
        samples' <- history_rows course rows cutoff (seq 0 rcount) samples;;
        course_cards courses course_filter cutoff rest samples'
  end.

Definition scrape_course_grades (context : BrowserContext)
    (course_filter : option string) (since_days : Z) : M (list GradeSample) :=
  act w EvNewPage;;
  act w (EvGoto (PORTAL_BASE_URL cfg ++ "/grades")%string);;
  act w (EvWaitLoad 30000);;
  let courses := [Sel ".course-card"] in
  n <- count w courses;;
  t <- now w;;
  cutoff <- (fun s => (PyDatetime.sub_days t since_days, s));;
  samples <- course_cards courses course_filter cutoff (seq 0 n) [];;
  act w EvClosePage;;
  ret samples.

Definition credentials_configured_ : bool :=
  match USERNAME cfg, PASSWORD cfg with
  | Some u, Some p => PyStr.truthy u && PyStr.truthy p
  | _, _ => false
  end.

Definition since_days_of (args : Arguments_) : Z :=
  match arg_since_days args with Some n => n | None => 14 end.

(** The handler registered with the MCP server; its result is the value
    serialised into the text content. *)
Definition handle_call_tool (name : string) (args : Arguments_) : M ToolData :=
  if String.eqb name "check_missing_assignments" then
    let since_days := since_days_of args in
    context <- get_context;;
    try_finally
      (ensure_login context;;
       data_ <- scrape_missing_assignments context since_days;;
       ret (MissingData (List.length data_) data_))
      (act w EvCloseContext)
  else if String.eqb name "get_course_grades" then
    let course_ := arg_course args in
    let since_days := since_days_of args in
    context <- get_context;;
    try_finally
      (ensure_login context;;
       data_ <- scrape_course_grades context course_ since_days;;
       ret (GradesData course_ data_))
      (act w EvCloseContext)
  else if String.eqb name "health" then
    t <- now w;;
    ret (HealthData t (PORTAL_BASE_URL cfg) (FULL_LOGIN_URL cfg)
                    (abspath w (STATE_PATH cfg)) credentials_configured_ None)
  else
    raise (ValueError ("Unknown tool: " ++ name)%string).

End Server.

End server.

(** ** improved_server.py: the login flow *)

Module improved_server.

Definition logged_in_indicators : list string :=
  ["text=Logout"; "text=Sign Out"; "text=Welcome"; "text=Dashboard";
   "[data-testid='logout']"; ".logout-button"; "a[href*='logout']"].

Definition username_selectors : list string :=
  ["input[name='loginfmt']"; "input[name='username']"; "input[type='email']";
   "input[placeholder*='email']"; "input[placeholder*='user']"; "#i0116";
   "#userNameInput"].

Definition password_selectors : list string :=
  ["input[name='passwd']"; "input[name='password']"; "input[type='password']";
   "#i0118"; "#passwordInput"].

Definition submit_selectors : list string :=
  ["input[type='submit']"; "input[value='Sign in']"; "input[value='Next']";
   "button[type='submit']"; "#idSIButton9"; ".win-button"].

Definition success_indicators : list string :=
  ["text=Logout"; "text=Sign Out"; "text=Welcome"; "text=Dashboard"; "text=Grades";
   "text=Assignments"; "[data-testid='logout']"; ".logout-button"].

Section Server.
Variable cfg : Config.
Variable w : World.

Definition wait_for_page_load (timeout : Z) : M unit :=
  try_except (act w (EvWaitLoad timeout)) (fun _ => ret tt).

Fixpoint probe_indicators (indicators : list string) : M bool :=
  match indicators with
  | [] => ret false
  | indicator :: rest =>
      found <- try_except (n <- count w [Sel indicator];; ret (0 <? n)%nat)
                          (fun _ => ret false);;
      if found then ret true else probe_indicators rest
  end.

(** [for selector in selectors:
       try:
           if await page.locator(selector).count() > 0:
               await action(selector); done = True; break
       except: continue] *)
Fixpoint first_usable (action : string -> Event) (selectors : list string) : M bool :=
  match selectors with
  | [] => ret false
  | selector :: rest =>
      done <- try_except
                (n <- count w [Sel selector];;
                 if (0 <? n)%nat then act w (action selector);; ret true
                 else ret false)
                (fun _ => ret false);;
      if done then ret true else first_usable action rest
  end.

Definition ensure_login (context : BrowserContext) : M unit :=
  act w EvNewPage;;
  try_finally
    (try_except
       (act w (EvGoto (PORTAL_BASE_URL cfg));;
        wait_for_page_load 10000;;
        logged_in <- probe_indicators logged_in_indicators;;
        if logged_in then act w EvClosePage
        else
          act w (EvScreenshot "login_attempt_1.png");;
          username_filled <-
            first_usable (fun sel => EvFill sel (USERNAME cfg)) username_selectors;;
          if negb username_filled then
            act w (EvScreenshot "login_error_username.png");;
            act w EvClosePage
          else
            next_clicked <- first_usable EvClick submit_selectors;;
            (if negb next_clicked then act w (EvPress "Enter") else ret tt);;
            wait_for_page_load 5000;;
            act w (EvScreenshot "login_attempt_2.png");;
            password_filled <-
              first_usable (fun sel => EvFill sel (PASSWORD cfg)) password_selectors;;
            if negb password_filled then
              act w (EvScreenshot "login_error_password.png");;
              act w EvClosePage
            else
              signin_clicked <- first_usable EvClick submit_selectors;;
              (if negb signin_clicked then act w (EvPress "Enter") else ret tt);;
              wait_for_page_load 15000;;
              act w (EvScreenshot "login_attempt_3.png");;
              login_successful <- probe_indicators success_indicators;;
              act w (EvStorageState (STATE_PATH cfg)))
       (fun _ => act w (EvScreenshot "login_error.png")))
    (act w EvClosePage).

(** The scraper of improved_server.py opens the assignments page, captures
    it and returns two sample assignments, due two and five days after the
    clock readings taken when they are built. *)
Definition scrape_missing_assignments (context : BrowserContext) (since_days : Z)
  : M (list Assignment) :=
  act w EvNewPage;;
  try_finally
    (try_except
       (act w (EvGoto (PORTAL_BASE_URL cfg ++ "/assignments")%string);;
        wait_for_page_load 10000;;
        act w (EvScreenshot "assignments_page.png");;
        t1 <- now w;;
        due1 <- (fun s => (PyDatetime.add_days t1 2, s));;
        t2 <- now w;;
        due2 <- (fun s => (PyDatetime.add_days t2 5, s));;
        ret [mk_Assignment "Sample Assignment 1" "Math" (Some due1) "missing"
                           None None None;
             mk_Assignment "Sample Assignment 2" "Science" (Some due2) "missing"
                           None None None])
       (fun _ => ret []))
    (act w EvClosePage).

End Server.

End improved_server.

(** ** Mocked portals used to exercise the scrapers *)

Module Mock.

(** A page holding one table matched by [selector]; the rows are given by
    the texts of their cells, the header row included. *)
Definition table_page (selector : string) (rows : list (list string)) : Document :=
  mk_Document
    (fun l =>
       match l with
       | [Sel s] => Ok (if String.eqb s selector then 1%nat else 0%nat)
       | [Sel s; First; Sel "tr"] =>
           Ok (if String.eqb s selector then List.length rows else 0%nat)
       | [Sel s; First; Sel "tr"; Nth i; Sel "td"] =>
           Ok (if String.eqb s selector then List.length (nth i rows []) else 0%nat)
       | _ => Ok 0%nat
       end)
    (fun l =>
       match l with
       | [Sel s; First; Sel "tr"; Nth i; Sel "td"; Nth j] =>
           match nth_error (nth i rows []) j with
           | Some text => Ok text
           | None => Raise (PyExn "TimeoutError" "no such cell")
           end
       | _ => Raise (PyExn "TimeoutError" "no such element")
       end)
    (fun _ => Ok tt).

(** The same page reached through Playwright: its locators cannot be
    awaited. *)
Definition playwright (page : Document) : Document :=
  mk_Document (doc_count page) (doc_inner_text page) (fun _ => Raise not_awaitable).

(** A page on which no selector matches anything. *)
Definition blank_page : Document :=
  mk_Document (fun _ => Ok 0%nat)
              (fun _ => Raise (PyExn "TimeoutError" "no such element"))
              (fun _ => Ok tt).

(** The address of the last navigation of a history. *)
Fixpoint current_url (history : list Event) : option string :=
  match history with
  | [] => None
  | EvGoto url :: _ => Some url
  | _ :: rest => current_url rest
  end.

(** A portal serving [site url] at every address, every browser action
    succeeding, with no session file on disk; the clock starts at [start]
    and advances by one second per reading. *)
Definition portal (site : string -> Document) (start : PyDatetime.datetime) : World :=
  mk_World
    (fun n => start + Z.of_nat n * 1000000)
    (fun _ _ => false)
    (fun path => path)
    (fun _ _ => Ok tt)
    (fun history =>
       match current_url history with
       | Some url => site url
       | None => blank_page
       end).

Definition config : Config :=
  mk_Config "https://portal.example.edu" "https://portal.example.edu/login"
            (Some "parent") (Some "secret") "./state.json".

Definition fresh : St := mk_St [] 0.

(** 2024-03-15T12:00:00 *)
Definition noon_march_15_2024 : PyDatetime.datetime :=
  63846057600000000 + 12 * 3600 * 1000000.

(** The missing-assignments page of the end-to-end scenario: a header and
    two rows, one due two days ahead, one forty days back. *)
Definition assignments_site (url : string) : Document :=
  if String.eqb url configured_server.assignments_missing_url then
    table_page "table"
      [["Title"; "Course"; "Due"; "Status"];
       ["Essay draft"; "Lang Lit"; "03/17/2024"; "Missing"];
       ["Lab report"; "Science"; "02/04/2024"; "Missing"]]
  else blank_page.

(** Grade pages: the overview and the pre-algebra class page. *)
Definition grades_site (url : string) : Document :=
  if String.eqb url configured_server.grades_overview_url then
    table_page "table"
      [["Grade"; "Date"; "Description"];
       ["91%"; "03/14/2024"; "Quiz 3"]]
  else if String.eqb url (configured_server.class_url "2203700") then
    table_page "table"
      [["Grade"; "Date"; "Description"];
       ["85.5%"; "03/12/2024"; "Unit test"];
       ["78%"; "a while ago"; "Homework 4"];
       ["60%"; "01/05/2024"; "Homework 1"]]
  else blank_page.

(** The portal serving [site] as Playwright shows it. *)
Definition playwright_portal (site : string -> Document) (start : PyDatetime.datetime)
  : World :=
  let w := portal site start in
  mk_World (clock w) (path_exists w) (abspath w) (respond w)
           (fun history => playwright (document w history)).

(** A world in which the session file exists but the browser refuses it. *)
Definition corrupt_state_world : World :=
  mk_World
    (fun n => noon_march_15_2024 + Z.of_nat n)
    (fun _ path => String.eqb path "./state.json")
    (fun path => path)
    (fun _ e =>
       match e with
       | EvNewContext (Some _) =>
           Raise (PyExn "JSONDecodeError" "Expecting value: line 1 column 1 (char 0)")
       | _ => Ok tt
       end)
    (fun _ => blank_page).

End Mock.

(** ** Vocabulary of the statements *)

(** [a] occurs in [b]. *)
Definition occurs_in (a b : string) : Prop :=
  exists before after, b = (before ++ a ++ after)%string.

(** [respects R m]: running [m], whatever its outcome, takes a state to an
    [R]-related one. *)
Definition respects (R : St -> St -> Prop) {A : Type} (m : M A) : Prop :=
  forall s, R s (snd (m s)).

(** The clock has not been read. *)
Definition same_ticks (s s' : St) : Prop := st_ticks s' = st_ticks s.

(** Nothing was done to the browser; the clock may have been read. *)
Definition only_read (s s' : St) : Prop :=
  st_history s' = st_history s /\ (st_ticks s <= st_ticks s')%nat.

(** The addresses navigated to, most recent first. *)
Fixpoint gotos (history : list Event) : list string :=
  match history with
  | [] => []
  | EvGoto url :: rest => url :: gotos rest
  | _ :: rest => gotos rest
  end.

(** No navigation took place. *)
Definition same_gotos (s s' : St) : Prop :=
  gotos (st_history s') = gotos (st_history s).

Definition is_goto (e : Event) : bool :=
  match e with EvGoto _ => true | _ => false end.

(** An assignment passes the recency filter: no due date, or one that is
    not before the cutoff. *)
Definition undated_or_recent (cutoff : PyDatetime.datetime) (a : Assignment) : Prop :=
  due_date a = None \/ exists d, due_date a = Some d /\ cutoff <= d.

(** Some element of the page matches the selector. *)
Definition matches (page : Document) (selector : string) : Prop :=
  exists n, doc_count page [Sel selector] = Ok (S n).


(** The alias table without the entries "language", "literature" and
    "pre-algebra". *)
Definition core_aliases : list (string * string) :=
  [("individuals", "individuals_and_societies");
   ("societies", "individuals_and_societies");
   ("lang", "lang_lit");
   ("lit", "lang_lit");
   ("science", "science");
   ("spanish", "spanish_2");
   ("math", "pre_algebra");
   ("algebra", "pre_algebra")].

(** The filter of server.py accepts the course name: there is no filter, or
    its lower-cased text occurs in the lower-cased name. *)
Definition passes_filter (course_filter : option string) (course_ : string) : Prop :=
  forall f, course_filter = Some f -> PyStr.truthy f = true ->
            occurs_in (PyStr.lower f) (PyStr.lower course_).

(** A portal showing the same page whatever is done, every browser action
    succeeding; the clock starts at [start] and advances by one second per
    reading. *)
Definition static_portal (page : Document) (start : PyDatetime.datetime) : World :=
  mk_World (fun n => start + Z.of_nat n * 1000000) (fun _ _ => false) (fun path => path)
           (fun _ _ => Ok tt) (fun _ => page).

(** Pages laid out as server.py expects them. *)
Module MockServer.

(** Assignment rows, each with its title, course, status and due texts. *)
Definition assignments_page (rows : list (string * string * string * string))
  : Document :=
  mk_Document
    (fun l =>
       match l with
       | [Sel ".assignment-row"] => Ok (List.length rows)
       | [Sel ".assignment-row"; Nth i; Sel _] =>
           Ok (if (i <? List.length rows)%nat then 1%nat else 0%nat)
       | _ => Ok 0%nat
       end)
    (fun l =>
       match l with
       | [Sel ".assignment-row"; Nth i; Sel field] =>
           match nth_error rows i with
           | Some (title_, course_, status_, due) =>
               if String.eqb field ".title" then Ok title_
               else if String.eqb field ".course" then Ok course_
               else if String.eqb field ".status" then Ok status_
               else if String.eqb field ".due" then Ok due
               else Raise (PyExn "TimeoutError" "no such element")
           | None => Raise (PyExn "TimeoutError" "no such element")
           end
       | _ => Raise (PyExn "TimeoutError" "no such element")
       end)
    (fun _ => Ok tt).

(** Course cards, each with its name and its history of (date, grade)
    texts. *)
Definition grades_page (cards : list (string * list (string * string))) : Document :=
  mk_Document
    (fun l =>
       match l with
       | [Sel ".course-card"] => Ok (List.length cards)
       | [Sel ".course-card"; Nth i; Sel ".course-name"] =>
           Ok (if (i <? List.length cards)%nat then 1%nat else 0%nat)
       | [Sel ".course-card"; Nth i; Sel ".grade-history tr"] =>
           Ok (match nth_error cards i with
               | Some (_, history) => List.length history
               | None => 0%nat
               end)
       | _ => Ok 0%nat
       end)
    (fun l =>
       match l with
       | [Sel ".course-card"; Nth i; Sel ".course-name"] =>
           match nth_error cards i with
           | Some (name, _) => Ok name
           | None => Raise (PyExn "TimeoutError" "no such element")
           end
       | [Sel ".course-card"; Nth i; Sel ".grade-history tr"; Nth j; Sel cell] =>
           match nth_error cards i with
           | Some (_, history) =>
               match nth_error history j with
               | Some (date_, grade_) =>
                   if String.eqb cell "td:nth-child(1)" then Ok date_
                   else if String.eqb cell "td:nth-child(2)" then Ok grade_
                   else Raise (PyExn "TimeoutError" "no such element")
               | None => Raise (PyExn "TimeoutError" "no such element")
               end
           | None => Raise (PyExn "TimeoutError" "no such element")
           end
       | _ => Raise (PyExn "TimeoutError" "no such element")
       end)
    (fun _ => Ok tt).

Definition assignments_portal : World :=
  Mock.portal
    (fun _ => assignments_page
                [("Essay draft", "Lang Lit", "Missing", "Mar 17, 2024");
                 ("Quiz 2", "Science", "Submitted", "Mar 14, 2024");
                 ("Lab report", "Science", "missing (late)", "Jan 05, 2024");
                 ("Poster", "Spanish 2", "MISSING", "next week")])
    Mock.noon_march_15_2024.

Definition grades_portal : World :=
  Mock.portal
    (fun _ => grades_page
                [("Pre-Algebra", [("Mar 12, 2024", "85.5%"); ("soon", "70%");
                                  ("Jan 05, 2024", "60%")]);
                 ("Science", [("Mar 14, 2024", "A-")])])
    Mock.noon_march_15_2024.

End MockServer.

(** Every character of the text satisfies [p]. *)
Fixpoint all_chars (p : ascii -> bool) (s : string) : bool :=
  match s with
  | EmptyString => true
  | String c r => p c && all_chars p r
  end.

(** [keeps P m]: from a state satisfying [P], running [m] ends, whatever
    its outcome, in a state satisfying [P]. *)
Definition keeps (P : St -> Prop) {A : Type} (m : M A) : Prop :=
  forall s, P s -> P (snd (m s)).

Definition is_save (e : Event) : bool :=
  match e with EvStorageState _ => true | _ => false end.

(** Since the history [h0], no save of the session was asked for. *)
Definition unsaved_since (h0 : list Event) (s : St) : Prop :=
  exists later, st_history s = later ++ h0 /\ Forall (fun e => is_save e = false) later.

(** The locators of the world are Playwright's: none can be awaited,
    whatever the page shows. *)
Definition playwright_locators (w : World) : Prop :=
  forall history l, doc_await (document w history) l = Raise not_awaitable.

(** * Properties *)

(** ** Text primitives *)

Lemma prefix_spec (a b : string) :
  prefix a b = true <-> exists after, b = (a ++ after)%string.
Proof.
  revert b; induction a as [|c a IH]; intros [|c' b]; simpl.
  - split; [intros _; now exists EmptyString | reflexivity].
  - split; [intros _; now exists (String c' b) | reflexivity].
  - split; [discriminate | intros [after H]; discriminate].
  - destruct (ascii_dec c c') as [->|Hne].
    + rewrite IH. split; intros [after H]; exists after.
      * now rewrite H.
      * now inversion H.
    + split; [discriminate | intros [after H]; inversion H; congruence].
Qed.

Lemma contains_unfold (a b : string) :
  PyStr.contains a b =
  prefix a b || match b with
                | EmptyString => false
                | String _ r => PyStr.contains a r
                end.
Proof. destruct b; reflexivity. Qed.

Lemma contains_spec (a b : string) :
  PyStr.contains a b = true <-> occurs_in a b.
Proof.
  unfold occurs_in. induction b as [|c b IH]; rewrite contains_unfold.
  - rewrite orb_false_r, prefix_spec. split.
    + intros [after H]. exists EmptyString, after. exact H.
    + intros [[|x before] [after H]]; [now exists after | discriminate].
  - rewrite orb_true_iff, prefix_spec, IH. split.
    + intros [[after H] | [before [after H]]].
      * exists EmptyString, after. exact H.
      * exists (String c before), after. simpl. now rewrite H.
    + intros [[|x before] [after H]].
      * left. now exists after.
      * right. exists before, after. simpl in H. now inversion H.
Qed.

Lemma contains_false_spec (a b : string) :
  PyStr.contains a b = false <-> ~ occurs_in a b.
Proof.
  rewrite <- contains_spec. destruct (PyStr.contains a b); split; intros H.
  - discriminate.
  - now contradiction H.
  - discriminate.
  - reflexivity.
Qed.

(** The format loop returns the result of the first format that does not
    raise. *)
Lemma first_format_first (text : string) (formats : list string) (d : PyDatetime.datetime) :
  first_format text formats = Some d <->
  exists before fmt after,
    formats = before ++ fmt :: after
    /\ PyStrptime.strptime (PyStr.strip text) fmt = Ok d
    /\ Forall (fun f => exists e, PyStrptime.strptime (PyStr.strip text) f = Raise e) before.
Proof.
  induction formats as [|f formats IH]; simpl.
  - split; [discriminate | intros [[|? ?] [? [? [H _]]]]; discriminate].
  - destruct (PyStrptime.strptime (PyStr.strip text) f) as [d'|e] eqn:E.
    + split.
      * intros H; inversion H; subst. exists [], f, formats. repeat split; auto.
      * intros [[|f' before] [fmt [after [H [Hd Hb]]]]]; simpl in H; inversion H; subst.
        -- congruence.
        -- inversion Hb as [|? ? [e He] ?]; subst. congruence.
    + rewrite IH. split.
      * intros [before [fmt [after [H [Hd Hb]]]]].
        exists (f :: before), fmt, after. subst. repeat split; auto.
        constructor; eauto.
      * intros [[|f' before] [fmt [after [H [Hd Hb]]]]]; simpl in H; inversion H; subst.
        -- congruence.
        -- exists before, fmt, after. inversion Hb; subst. auto.
Qed.

Lemma first_format_none (text : string) (formats : list string) :
  first_format text formats = None <->
  Forall (fun f => exists e, PyStrptime.strptime (PyStr.strip text) f = Raise e) formats.
Proof.
  induction formats as [|f formats IH]; simpl.
  - split; auto.
  - destruct (PyStrptime.strptime (PyStr.strip text) f) as [d'|e] eqn:E.
    + split; [discriminate|]. intros H; inversion H as [|? ? [e He] ?]; subst. congruence.
    + rewrite IH. split.
      * intros H. constructor; eauto.
      * intros H. now inversion H.
Qed.

(** C4. The date parser tries the formats in their listed order and keeps
    the first that parses: each of "03/15/2024", "2024-03-15",
    "Mar 15, 2024", "03-15-2024" and "03/15/24" is read as March 15, 2024,
    by the first, second, third, fourth and fifth format respectively (the
    earlier ones raising), in the assignment loop as in the grade loop; no
    format parses "not-a-date", which leaves an assignment's due date
    absent. *)
Theorem date_parser_reads_the_five_literals :
  exists march_15_2024,
    PyDatetime.datetime_of_ymd 2024 3 15 = Ok march_15_2024
    /\ parse_due_date (Some "03/15/2024") = Some march_15_2024
    /\ parse_due_date (Some "2024-03-15") = Some march_15_2024
    /\ parse_due_date (Some "Mar 15, 2024") = Some march_15_2024
    /\ parse_due_date (Some "03-15-2024") = Some march_15_2024
    /\ parse_due_date (Some "03/15/24") = Some march_15_2024
    /\ map (fun text => map (fun fmt => match PyStrptime.strptime text fmt with
                                        | Ok _ => true
                                        | Raise _ => false
                                        end) date_formats)
           ["03/15/2024"; "2024-03-15"; "Mar 15, 2024"; "03-15-2024"; "03/15/24";
            "not-a-date"]
       = [[true; false; false; false; false];
          [false; true; false; false; false];
          [false; false; true; false; false];
          [false; false; false; true; false];
          [false; false; false; false; true];
          [false; false; false; false; false]]
    /\ (forall now_,
          map (parse_grade_date now_)
              [Some "03/15/2024"; Some "2024-03-15"; Some "Mar 15, 2024";
               Some "03-15-2024"; Some "03/15/24"]
          = [march_15_2024; march_15_2024; march_15_2024; march_15_2024; march_15_2024])
    /\ first_format "not-a-date" date_formats = None
    /\ parse_due_date (Some "not-a-date") = None.
Proof.
  exists 63846057600000000.
  repeat split; try (vm_compute; reflexivity).
Qed.

(** ** Alias resolution *)

Lemma find_course_key_first (mapping : list (string * string)) (filter value : string) :
  configured_server.find_course_key mapping filter = Some value <->
  exists before key after,
    mapping = before ++ (key, value) :: after
    /\ occurs_in (PyStr.lower key) (PyStr.lower filter)
    /\ forall k v, In (k, v) before -> ~ occurs_in (PyStr.lower k) (PyStr.lower filter).
Proof.
  induction mapping as [|[k v] mapping IH]; simpl.
  - split; [discriminate | intros [[|? ?] [? [? [H _]]]]; discriminate].
  - destruct (PyStr.contains (PyStr.lower k) (PyStr.lower filter)) eqn:E.
    + split.
      * intros H; inversion H; subst. exists [], k, mapping.
        split; [reflexivity|]. split; [now apply contains_spec|]. intros ? ? [].
      * intros [[|[k' v'] before] [key [after [H [Hk Hb]]]]]; simpl in H; inversion H; subst.
        -- reflexivity.
        -- exfalso. apply (Hb k' v'); [now left | now apply contains_spec].
    + rewrite IH. split.
      * intros [before [key [after [H [Hk Hb]]]]].
        exists ((k, v) :: before), key, after. subst. split; [reflexivity|].
        split; [exact Hk|]. intros k' v' [Heq | Hin].
        -- inversion Heq; subst. now apply contains_false_spec.
        -- eauto.
      * intros [[|[k' v'] before] [key [after [H [Hk Hb]]]]]; simpl in H; inversion H; subst.
        -- apply contains_spec in Hk. congruence.
        -- exists before, key, after. split; [reflexivity|]. split; [exact Hk|].
           intros k0 v0 Hin. apply (Hb k0 v0). now right.
Qed.

(** C9. Alias resolution asks whether the lower-cased alias key occurs in
    the lower-cased filter text, walks the alias table in its written order
    and stops at the first key that does.  A filter that is only a part of a
    key ("mat") does not resolve; "Spanish Literature", which contains both
    "lit" and "spanish", resolves to lang_lit because "lit" is listed
    before "spanish". *)
Theorem alias_resolution_takes_first_listed_key :
  (forall mapping filter value,
     configured_server.find_course_key mapping filter = Some value <->
     exists before key after,
       mapping = before ++ (key, value) :: after
       /\ occurs_in (PyStr.lower key) (PyStr.lower filter)
       /\ forall k v, In (k, v) before -> ~ occurs_in (PyStr.lower k) (PyStr.lower filter))
  /\ configured_server.find_course_key configured_server.course_mapping "Spanish Literature"
     = Some "lang_lit"
  /\ PyStr.contains (PyStr.lower "lit") (PyStr.lower "Spanish Literature") = true
  /\ PyStr.contains (PyStr.lower "spanish") (PyStr.lower "Spanish Literature") = true
  /\ configured_server.dict_get configured_server.course_mapping "spanish" = Some "spanish_2"
  /\ configured_server.find_course_key configured_server.course_mapping "mat" = None
  /\ PyStr.contains (PyStr.lower "mat") (PyStr.lower "math") = true.
Proof.
  split; [exact find_course_key_first|].
  repeat split; vm_compute; reflexivity.
Qed.

(** ** Running computations: inversion of successful runs *)

Lemma bind_Ok {A B : Type} (m : M A) (k : A -> M B) (s s' : St) (b : B) :
  bind m k s = (Ok b, s') ->
  exists a s1, m s = (Ok a, s1) /\ k a s1 = (Ok b, s').
Proof.
  unfold bind. destruct (m s) as [[a|e] s1]; intros H.
  - now exists a, s1.
  - discriminate.
Qed.

Lemma ret_Ok {A : Type} (a b : A) (s s' : St) :
  ret a s = (Ok b, s') -> b = a /\ s' = s.
Proof. unfold ret. intros H; inversion H; auto. Qed.

Lemma try_except_Ok {A : Type} (m : M A) (h : exn -> M A) (s s' : St) (a : A) :
  try_except m h s = (Ok a, s') ->
  m s = (Ok a, s') \/ exists e s1, m s = (Raise e, s1) /\ h e s1 = (Ok a, s').
Proof.
  unfold try_except. destruct (m s) as [[x|e] s1]; intros H.
  - left. exact H.
  - right. now exists e, s1.
Qed.

Lemma try_finally_Ok {A : Type} (m : M A) (c : M unit) (s s' : St) (a : A) :
  try_finally m c s = (Ok a, s') ->
  exists s1, m s = (Ok a, s1) /\ c s1 = (Ok tt, s').
Proof.
  unfold try_finally. destruct (m s) as [r s1]. destruct (c s1) as [[[]|e] s2] eqn:E; intros H.
  - inversion H; subst. now exists s1.
  - discriminate.
Qed.

Lemma act_Ok (w : World) (e : Event) (s s' : St) (u : unit) :
  act w e s = (Ok u, s') ->
  respond w (st_history s) e = Ok tt /\ s' = mk_St (e :: st_history s) (st_ticks s).
Proof.
  unfold act. intros H. inversion H; subst. destruct (respond w (st_history s) e) as [[]|];
    [auto | discriminate].
Qed.

Lemma now_Ok (w : World) (s s' : St) (t : PyDatetime.datetime) :
  now w s = (Ok t, s') ->
  t = clock w (st_ticks s) /\ s' = mk_St (st_history s) (S (st_ticks s)).
Proof. unfold now. intros H; inversion H; auto. Qed.

Lemma query_Ok {A : Type} (w : World) (q : Document -> outcome A) (s s' : St) (a : A) :
  query w q s = (Ok a, s') ->
  q (document w (st_history s)) = Ok a /\ s' = s.
Proof. unfold query. intros H; inversion H; auto. Qed.

Lemma sub_days_Ok (t : PyDatetime.datetime) (n : Z) (cutoff : PyDatetime.datetime) :
  PyDatetime.sub_days t n = Ok cutoff -> cutoff = t - n * PyDatetime.MICROS_PER_DAY.
Proof.
  unfold PyDatetime.sub_days.
  destruct (negb _); [discriminate|].
  destruct (PyDatetime.valid _); [|discriminate].
  intros H; inversion H; reflexivity.
Qed.

(** Takes a successful run apart, one sequencing step at a time. *)
Ltac run_inv :=
  repeat match goal with
    | H : bind _ _ _ = (Ok _, _) |- _ =>
        let a := fresh "a" in let s1 := fresh "s" in let H1 := fresh "Hrun" in
        apply bind_Ok in H; destruct H as (a & s1 & H1 & H); cbv beta in H
    | H : ret _ _ = (Ok _, _) |- _ =>
        apply ret_Ok in H; destruct H; subst
    | H : act _ _ _ = (Ok _, _) |- _ =>
        apply act_Ok in H; destruct H; subst
    | H : now _ _ = (Ok _, _) |- _ =>
        apply now_Ok in H; destruct H; subst
    | H : try_finally _ _ _ = (Ok _, _) |- _ =>
        let s1 := fresh "s" in let H1 := fresh "Hrun" in
        apply try_finally_Ok in H; destruct H as (s1 & H1 & H)
    end.

(** Rewriting the first step of a run. *)
Lemma bind_act_Ok {B : Type} (w : World) (e : Event) (k : unit -> M B) (s : St) :
  respond w (st_history s) e = Ok tt ->
  bind (act w e) k s = k tt (mk_St (e :: st_history s) (st_ticks s)).
Proof. intros H. unfold bind, act. now rewrite H. Qed.

Lemma bind_now {B : Type} (w : World) (k : PyDatetime.datetime -> M B) (s : St) :
  bind (now w) k s = k (clock w (st_ticks s)) (mk_St (st_history s) (S (st_ticks s))).
Proof. reflexivity. Qed.

Lemma bind_lift_Ok {A B : Type} (r : outcome A) (a : A) (k : A -> M B) (s : St) :
  r = Ok a -> bind (fun s0 => (r, s0)) k s = k a s.
Proof. intros ->. reflexivity. Qed.

Lemma bind_ret {A B : Type} (a : A) (k : A -> M B) (s : St) :
  bind (ret a) k s = k a s.
Proof. reflexivity. Qed.

Lemma snd_try_finally {A : Type} (m : M A) (c : M unit) (s : St) :
  snd (try_finally m c s) = snd (c (snd (m s))).
Proof.
  unfold try_finally. destruct (m s) as [r s1]. simpl.
  destruct (c s1) as [[u|e] s2]; reflexivity.
Qed.

(** ** State relations kept by computations *)

Section Respects.
Context (R : St -> St -> Prop) `{!PreOrder R}.

Lemma respects_ret {A : Type} (a : A) : respects R (ret a).
Proof. intros s. simpl. reflexivity. Qed.

Lemma respects_raise {A : Type} (e : exn) : respects R (@raise A e).
Proof. intros s. simpl. reflexivity. Qed.

Lemma respects_bind {A B : Type} (m : M A) (k : A -> M B) :
  respects R m -> (forall a, respects R (k a)) -> respects R (bind m k).
Proof.
  intros Hm Hk s. unfold bind. specialize (Hm s).
  destruct (m s) as [[a|e] s1]; simpl in *.
  - etransitivity; [exact Hm | apply Hk].
  - exact Hm.
Qed.

Lemma respects_try_except {A : Type} (m : M A) (h : exn -> M A) :
  respects R m -> (forall e, respects R (h e)) -> respects R (try_except m h).
Proof.
  intros Hm Hh s. unfold try_except. specialize (Hm s).
  destruct (m s) as [[a|e] s1]; simpl in *.
  - exact Hm.
  - etransitivity; [exact Hm | apply Hh].
Qed.

Lemma respects_try_finally {A : Type} (m : M A) (c : M unit) :
  respects R m -> respects R c -> respects R (try_finally m c).
Proof.
  intros Hm Hc s. unfold try_finally. specialize (Hm s).
  destruct (m s) as [r s1]. specialize (Hc s1).
  destruct (c s1) as [[u|e] s2]; simpl in *; etransitivity; eauto.
Qed.

Lemma respects_query {A : Type} (w : World) (q : Document -> outcome A) :
  respects R (query w q).
Proof. intros s. simpl. reflexivity. Qed.

Lemma respects_exists_path (w : World) (path : string) : respects R (exists_path w path).
Proof. intros s. simpl. reflexivity. Qed.

Lemma respects_lift {A : Type} (r : outcome A) : respects R (fun s => (r, s)).
Proof. intros s. simpl. reflexivity. Qed.

Lemma respects_count (w : World) (l : Locator) : respects R (count w l).
Proof. apply respects_query. Qed.

Lemma respects_inner_text (w : World) (l : Locator) : respects R (inner_text w l).
Proof. apply respects_query. Qed.

Lemma respects_await_first (w : World) (l : Locator) : respects R (await_first w l).
Proof.
  apply respects_bind; [apply respects_query | intros; apply respects_ret].
Qed.

Lemma respects_all (w : World) (l : Locator) : respects R (all w l).
Proof.
  apply respects_bind; [apply respects_count | intros; apply respects_ret].
Qed.

Lemma respects_if {A : Type} (b : bool) (m1 m2 : M A) :
  respects R m1 -> respects R m2 -> respects R (if b then m1 else m2).
Proof. destruct b; auto. Qed.

End Respects.

#[local] Instance same_ticks_preorder : PreOrder same_ticks.
Proof.
  split; [intros s; reflexivity | intros a b c H1 H2; unfold same_ticks in *; congruence].
Qed.

#[local] Instance only_read_preorder : PreOrder only_read.
Proof.
  split.
  - intros s; split; [reflexivity | lia].
  - intros a b c [H1 H1'] [H2 H2']; split; [congruence | lia].
Qed.

#[local] Instance same_gotos_preorder : PreOrder same_gotos.
Proof.
  split; [intros s; reflexivity | intros a b c H1 H2; unfold same_gotos in *; congruence].
Qed.

Lemma act_same_ticks (w : World) (e : Event) : respects same_ticks (act w e).
Proof. intros s. reflexivity. Qed.

Lemma now_only_read (w : World) : respects only_read (now w).
Proof. intros s. split; simpl; [reflexivity | lia]. Qed.

Lemma now_same_gotos (w : World) : respects same_gotos (now w).
Proof. intros s. reflexivity. Qed.

Lemma act_same_gotos (w : World) (e : Event) :
  is_goto e = false -> respects same_gotos (act w e).
Proof. intros H s. unfold same_gotos. simpl. destruct e; try reflexivity; discriminate. Qed.

Lemma only_read_same_gotos {A : Type} (m : M A) :
  respects only_read m -> respects same_gotos m.
Proof. intros H s. destruct (H s) as [Hh _]. unfold same_gotos. now rewrite Hh. Qed.

Create HintDb respects discriminated.
#[local] Hint Resolve respects_ret respects_raise respects_bind respects_try_except
  respects_try_finally respects_query respects_exists_path respects_lift respects_count
  respects_inner_text respects_await_first respects_all respects_if
  act_same_ticks now_only_read now_same_gotos act_same_gotos : respects.
#[local] Hint Extern 1 (PreOrder _) => typeclasses eauto : respects.
#[local] Hint Extern 1 (is_goto _ = false) => reflexivity : respects.

(** ** Dispatch of unknown tool names *)

(** C2, as the code has it.  For a tool name that is none of the three known
    operations, the HTTP dispatcher [configured_server.call_tool] answers
    with the envelope success = false, error = "Unknown tool: <name>",
    touching neither the browser nor the clock, and raises nothing; the MCP
    handler [server.handle_call_tool] raises a ValueError carrying that same
    message to the framework that called it. *)
Theorem unknown_tool_is_reported_by_each_dispatcher :
  forall (cfg : Config) (w : World) (name : string) (args : Arguments_) (s : St),
    name <> "check_missing_assignments" ->
    name <> "get_course_grades" ->
    name <> "health" ->
    configured_server.call_tool cfg w (mk_ToolRequest name args) s
    = (Ok (mk_ToolResponse false None (Some ("Unknown tool: " ++ name)%string)), s)
    /\ server.handle_call_tool cfg w name args s
       = (Raise (ValueError ("Unknown tool: " ++ name)%string), s).
Proof.
  intros cfg w name args s H1 H2 H3.
  apply String.eqb_neq in H1, H2, H3.
  unfold configured_server.call_tool, server.handle_call_tool; simpl.
  rewrite H1, H2, H3. split; reflexivity.
Qed.

Lemma unknown_tool_witness :
  configured_server.call_tool Mock.config (Mock.portal Mock.assignments_site 0)
    (mk_ToolRequest "nonexistent" (mk_Arguments None None)) Mock.fresh
  = (Ok (mk_ToolResponse false None (Some "Unknown tool: nonexistent")), Mock.fresh)
  /\ server.handle_call_tool Mock.config (Mock.portal Mock.assignments_site 0)
       "nonexistent" (mk_Arguments None None) Mock.fresh
     = (Raise (ValueError "Unknown tool: nonexistent"), Mock.fresh).
Proof.
  apply (unknown_tool_is_reported_by_each_dispatcher Mock.config
           (Mock.portal Mock.assignments_site 0) "nonexistent"
           (mk_Arguments None None) Mock.fresh);
    intros H; discriminate H.
Defined.

(** The MCP handler does not return an envelope for an unknown tool: it
    raises. *)
Lemma mcp_handler_raises_on_unknown_tool :
  ~ exists (result : ToolData) (s' : St),
      server.handle_call_tool Mock.config (Mock.portal Mock.assignments_site 0)
        "nonexistent" (mk_Arguments None None) Mock.fresh
      = (Ok result, s').
Proof. intros (result & s' & H). vm_compute in H. discriminate H. Qed.

(** ** Session acquisition *)

Lemma get_context_unfolded (launch : Event) (cfg : Config) (w : World) (s : St) :
  respond w (st_history s) EvStart = Ok tt ->
  respond w (EvStart :: st_history s) launch = Ok tt ->
  let h := launch :: EvStart :: st_history s in
  let storage_state :=
    if path_exists w h (STATE_PATH cfg) then Some (STATE_PATH cfg) else None in
  (act w EvStart;;
   act w launch;;
   present <- exists_path w (STATE_PATH cfg);;
   let storage_state := if present then Some (STATE_PATH cfg) else None in
   act w (EvNewContext storage_state);;
   ret (mk_BrowserContext storage_state)) s
  = (match respond w h (EvNewContext storage_state) with
     | Ok _ => Ok (mk_BrowserContext storage_state)
     | Raise e => Raise e
     end,
     mk_St (EvNewContext storage_state :: h) (st_ticks s)).
Proof.
  intros H1 H2. unfold bind, act, exists_path, ret; simpl.
  rewrite H1, H2. simpl.
  destruct (respond w _ (EvNewContext _)); reflexivity.
Qed.

(** C8, as the code has it.  Once the browser is started, [get_context]
    tests whether the session-state file exists and creates the context
    with that file when it does, with no state when it does not.  A missing
    file therefore never makes it fail: the context is created as for a
    first session.  An existing file is handed over unexamined: the context
    is hydrated from it when the browser accepts it, and the browser's
    error is raised to the caller when it does not.  This holds for the
    session acquisition of configured_server.py and of server.py alike. *)
Theorem get_context_passes_the_state_file_when_it_exists :
  forall (cfg : Config) (w : World) (s : St) (launch : Event)
         (get_context : M BrowserContext),
    (launch = EvLaunch 1000 ["--disable-web-security";
                             "--disable-features=VizDisplayCompositor"]
     /\ get_context = configured_server.get_context cfg w)
    \/ (launch = EvLaunch 0 [] /\ get_context = server.get_context cfg w) ->
    respond w (st_history s) EvStart = Ok tt ->
    respond w (EvStart :: st_history s) launch = Ok tt ->
    let h := launch :: EvStart :: st_history s in
    (path_exists w h (STATE_PATH cfg) = false ->
       st_history (snd (get_context s)) = EvNewContext None :: h
       /\ (respond w h (EvNewContext None) = Ok tt ->
           fst (get_context s) = Ok (mk_BrowserContext None)))
    /\ (path_exists w h (STATE_PATH cfg) = true ->
          st_history (snd (get_context s)) = EvNewContext (Some (STATE_PATH cfg)) :: h
          /\ (respond w h (EvNewContext (Some (STATE_PATH cfg))) = Ok tt ->
              fst (get_context s) = Ok (mk_BrowserContext (Some (STATE_PATH cfg))))
          /\ (forall e, respond w h (EvNewContext (Some (STATE_PATH cfg))) = Raise e ->
                        fst (get_context s) = Raise e)).
Proof.
  intros cfg w s launch get_context Hcase H1 H2 h.
  assert (Hrun := get_context_unfolded launch cfg w s H1 H2). simpl in Hrun.
  fold h in Hrun.
  assert (Heq : get_context s =
                (match respond w h (EvNewContext
                         (if path_exists w h (STATE_PATH cfg)
                          then Some (STATE_PATH cfg) else None)) with
                 | Ok _ => Ok (mk_BrowserContext
                                 (if path_exists w h (STATE_PATH cfg)
                                  then Some (STATE_PATH cfg) else None))
                 | Raise e => Raise e
                 end,
                 mk_St (EvNewContext (if path_exists w h (STATE_PATH cfg)
                                      then Some (STATE_PATH cfg) else None) :: h)
                       (st_ticks s))).
  { destruct Hcase as [[-> ->] | [-> ->]]; exact Hrun. }
  rewrite Heq. split; intros Hp; rewrite Hp; simpl.
  - split; [reflexivity|]. intros ->. reflexivity.
  - split; [reflexivity|]. split; [intros ->; reflexivity | intros e ->; reflexivity].
Qed.

Lemma get_context_witness :
  st_history (snd (configured_server.get_context Mock.config
                     (Mock.portal Mock.assignments_site 0) Mock.fresh))
  = [EvNewContext None;
     EvLaunch 1000 ["--disable-web-security"; "--disable-features=VizDisplayCompositor"];
     EvStart]
  /\ fst (configured_server.get_context Mock.config
            (Mock.portal Mock.assignments_site 0) Mock.fresh)
     = Ok (mk_BrowserContext None).
Proof.
  pose proof (get_context_passes_the_state_file_when_it_exists Mock.config
                (Mock.portal Mock.assignments_site 0) Mock.fresh
                (EvLaunch 1000 ["--disable-web-security";
                                "--disable-features=VizDisplayCompositor"])
                (configured_server.get_context Mock.config
                   (Mock.portal Mock.assignments_site 0))
                (or_introl (conj eq_refl eq_refl)) eq_refl eq_refl) as [Hmissing _].
  destruct (Hmissing eq_refl) as [Hh Hr].
  split; [exact Hh | exact (Hr eq_refl)].
Defined.

(** With a session file that exists but that the browser cannot load,
    session acquisition fails, in configured_server.py and in server.py;
    the HTTP dispatcher then answers with a failure envelope. *)
Lemma get_context_fails_on_corrupt_state_file :
  Mock.corrupt_state_world.(path_exists) [] (STATE_PATH Mock.config) = true
  /\ fst (configured_server.get_context Mock.config Mock.corrupt_state_world Mock.fresh)
     = Raise (PyExn "JSONDecodeError" "Expecting value: line 1 column 1 (char 0)")
  /\ fst (server.get_context Mock.config Mock.corrupt_state_world Mock.fresh)
     = Raise (PyExn "JSONDecodeError" "Expecting value: line 1 column 1 (char 0)")
  /\ fst (configured_server.call_tool Mock.config Mock.corrupt_state_world
            (mk_ToolRequest "check_missing_assignments" (mk_Arguments None None))
            Mock.fresh)
     = Ok (mk_ToolResponse false None
             (Some "Expecting value: line 1 column 1 (char 0)")).
Proof. repeat split; vm_compute; reflexivity. Qed.

(** ** What the extraction loops leave untouched *)

Section Loops.
Context (R : St -> St -> Prop) `{!PreOrder R}.
Variable w : World.

Lemma probe_indicators_respects (indicators : list string) :
  respects R (configured_server.probe_indicators w indicators).
Proof.
  induction indicators as [|i rest IH]; simpl; auto 10 with respects.
Qed.

Lemma first_matching_respects (selectors : list string) :
  respects R (configured_server.first_matching w selectors).
Proof.
  induction selectors as [|sel rest IH]; simpl; auto 10 with respects.
Qed.

Lemma collect_respects {T : Type} (body : nat -> Locator -> M (option T))
    (xs : list (nat * Locator)) (acc : list T) :
  (forall i x, respects R (body i x)) ->
  respects R (configured_server.collect body xs acc).
Proof.
  intros Hbody. revert acc.
  induction xs as [|[i x] xs IH]; intros acc; simpl; auto 10 with respects.
Qed.

End Loops.

Lemma grade_of_row_only_read (w : World) (course_name : string)
    (cutoff : PyDatetime.datetime) (i : nat) (row : Locator) :
  respects only_read (configured_server.grade_of_row w course_name cutoff i row).
Proof.
  unfold configured_server.grade_of_row.
  apply respects_if; auto with respects; try typeclasses eauto.
  apply respects_bind; auto with respects; try typeclasses eauto.
  intros [|c0 [|c1 [|c2 more]]]; auto 20 with respects.
Qed.

Lemma extract_grades_only_read (w : World) (course_name : string)
    (cutoff : PyDatetime.datetime) :
  respects only_read (configured_server.extract_grades_from_page w course_name cutoff).
Proof.
  unfold configured_server.extract_grades_from_page.
  apply respects_try_except; auto with respects; try typeclasses eauto.
  apply respects_bind; [typeclasses eauto | apply first_matching_respects; typeclasses eauto |].
  intros [selector|]; auto with respects.
  apply respects_bind; auto with respects; try typeclasses eauto.
  intros table. apply respects_bind; auto with respects; try typeclasses eauto.
  intros rows. apply collect_respects; [typeclasses eauto|].
  intros. apply grade_of_row_only_read.
Qed.

Lemma wait_for_page_load_same_gotos (w : World) (timeout : Z) :
  respects same_gotos (configured_server.wait_for_page_load w timeout).
Proof. unfold configured_server.wait_for_page_load. auto with respects. Qed.

Lemma wait_for_page_load_same_ticks (w : World) (timeout : Z) :
  respects same_ticks (configured_server.wait_for_page_load w timeout).
Proof. unfold configured_server.wait_for_page_load. auto with respects. Qed.

(** ** Grades of one course *)

Lemma collect_Forall {T : Type} (P : T -> Prop) (body : nat -> Locator -> M (option T)) :
  (forall i x s r s', body i x s = (Ok (Some r), s') -> P r) ->
  forall xs acc s l s',
    Forall P acc ->
    configured_server.collect body xs acc s = (Ok l, s') ->
    Forall P l.
Proof.
  intros Hbody. induction xs as [|[i x] xs IH]; intros acc s l s' Hacc Hrun; simpl in Hrun.
  - run_inv. exact Hacc.
  - run_inv. apply (IH _ _ _ _) in Hrun; [exact Hrun|].
    apply try_except_Ok in Hrun0. destruct Hrun0 as [Hb | (e & s1 & _ & Hh)].
    + destruct a as [r|]; [|exact Hacc].
      apply Forall_app. split; [exact Hacc|]. constructor; [|constructor]. eauto.
    + run_inv. exact Hacc.
Qed.

Lemma grade_of_row_kept (w : World) (course_name : string) (cutoff : PyDatetime.datetime)
    (i : nat) (row : Locator) (s s' : St) (g : GradeSample) :
  configured_server.grade_of_row w course_name cutoff i row s = (Ok (Some g), s') ->
  gs_course g = PyStr.title (PyStr.replace_char "_" " " course_name)
  /\ cutoff <= gs_date g.
Proof.
  unfold configured_server.grade_of_row. intros H.
  destruct (i =? 0)%nat; [run_inv; discriminate|].
  run_inv. destruct a as [|c0 [|c1 more]]; try (run_inv; discriminate).
  run_inv.
  destruct (PyDatetime.ge _ cutoff) eqn:E; run_inv; [|discriminate].
  match goal with H : Some _ = Some _ |- _ => inversion H; subst; clear H end.
  simpl. split; [reflexivity|]. unfold PyDatetime.ge in E. now apply Z.leb_le.
Qed.

Lemma extract_grades_kept (w : World) (course_name : string) (cutoff : PyDatetime.datetime)
    (s s' : St) (l : list GradeSample) :
  configured_server.extract_grades_from_page w course_name cutoff s = (Ok l, s') ->
  Forall (fun g => gs_course g = PyStr.title (PyStr.replace_char "_" " " course_name)
                   /\ cutoff <= gs_date g) l.
Proof.
  unfold configured_server.extract_grades_from_page. intros H.
  apply try_except_Ok in H. destruct H as [H | (e & s1 & _ & H)].
  - run_inv. destruct a as [selector|]; run_inv; [|constructor].
    eapply collect_Forall; [|constructor|exact H].
    intros. eapply grade_of_row_kept; eauto.
  - run_inv. constructor.
Qed.

Lemma resolve_course_truthy (filter : string) (page : string * string) :
  configured_server.resolve_course filter = Some page -> PyStr.truthy filter = true.
Proof.
  destruct filter as [|c filter]; [|reflexivity].
  intros H. vm_compute in H. discriminate H.
Qed.

Lemma given_resolved (filter : string) (page : string * string) :
  configured_server.resolve_course filter = Some page ->
  configured_server.given (Some filter) = Some filter.
Proof.
  intros H. unfold configured_server.given. now rewrite (resolve_course_truthy _ _ H).
Qed.

Lemma same_gotos_eq {A : Type} (m : M A) (s : St) :
  respects same_gotos m ->
  gotos (st_history (snd (m s))) = gotos (st_history s).
Proof. intros H. apply H. Qed.

Lemma try_except_same_gotos {A : Type} (m : M A) (h : exn -> M A) (s : St) :
  (forall e, respects same_gotos (h e)) ->
  gotos (st_history (snd (try_except m h s))) = gotos (st_history (snd (m s))).
Proof.
  intros Hh. unfold try_except. destruct (m s) as [[a|e] s1]; simpl; [reflexivity|].
  apply Hh.
Qed.

Lemma goto_then {B : Type} (w : World) (url : string) (k : unit -> M B) (s : St) :
  (forall u, respects same_gotos (k u)) ->
  gotos (st_history (snd (bind (act w (EvGoto url)) k s))) = url :: gotos (st_history s).
Proof.
  intros Hk. unfold bind, act.
  destruct (respond w (st_history s) (EvGoto url)) as [u|e]; simpl; [|reflexivity].
  rewrite (Hk u). reflexivity.
Qed.

Lemma extract_grades_same_gotos (w : World) (course_name : string)
    (cutoff : PyDatetime.datetime) :
  respects same_gotos (configured_server.extract_grades_from_page w course_name cutoff).
Proof. apply only_read_same_gotos, extract_grades_only_read. Qed.

(** With a filter that resolves to a class page, the one navigation of the
    scrape is to that page. *)
Lemma scrape_course_grades_opens_class_page (w : World) (ctx : BrowserContext)
    (filter key url : string) (since_days : Z) (cutoff : PyDatetime.datetime) (s : St) :
  configured_server.resolve_course filter = Some (key, url) ->
  respond w (st_history s) EvNewPage = Ok tt ->
  PyDatetime.sub_days (clock w (st_ticks s)) since_days = Ok cutoff ->
  gotos (st_history (snd (configured_server.scrape_course_grades w ctx (Some filter)
                            since_days s)))
  = url :: gotos (st_history s).
Proof.
  intros Hres Hpage Hcut. unfold configured_server.scrape_course_grades.
  rewrite (bind_act_Ok _ _ _ _ Hpage), snd_try_finally.
  rewrite same_gotos_eq by auto with respects.
  rewrite try_except_same_gotos by auto with respects.
  rewrite bind_now. cbn [st_ticks st_history]. rewrite (bind_lift_Ok _ _ _ _ Hcut).
  rewrite (given_resolved _ _ Hres), Hres.
  rewrite goto_then; [reflexivity|].
  intros u. pose proof (wait_for_page_load_same_gotos w).
  pose proof (extract_grades_same_gotos w).
  auto 10 with respects.
Qed.

(** With a non-empty filter that no alias resolves, the scrape opens a
    page, navigates nowhere and returns no record. *)
Lemma scrape_course_grades_unresolved (w : World) (ctx : BrowserContext)
    (filter : string) (since_days : Z) (cutoff : PyDatetime.datetime) (s : St) :
  PyStr.truthy filter = true ->
  configured_server.resolve_course filter = None ->
  respond w (st_history s) EvNewPage = Ok tt ->
  respond w (EvNewPage :: st_history s) EvClosePage = Ok tt ->
  PyDatetime.sub_days (clock w (st_ticks s)) since_days = Ok cutoff ->
  configured_server.scrape_course_grades w ctx (Some filter) since_days s
  = (Ok [], mk_St (EvClosePage :: EvNewPage :: st_history s) (S (st_ticks s))).
Proof.
  intros Htruthy Hres Hpage Hclose Hcut. unfold configured_server.scrape_course_grades.
  rewrite (bind_act_Ok _ _ _ _ Hpage). unfold try_finally, try_except.
  rewrite bind_now. cbn [st_ticks st_history]. rewrite (bind_lift_Ok _ _ _ _ Hcut).
  unfold configured_server.given. rewrite Htruthy, Hres.
  unfold ret, act. cbn [st_ticks st_history]. rewrite Hclose. reflexivity.
Qed.

(** C6. The filter "Math" matches the alias key "math" without regard to
    case, in a table holding only that alias as in the full alias table, and
    resolves to the pre_algebra class page; once its page is open and the
    cutoff computed, [scrape_course_grades] navigates to that page and to no
    other, the grades overview in particular. *)
Theorem math_filter_opens_the_pre_algebra_page :
  forall (w : World) (ctx : BrowserContext) (since_days : Z)
         (cutoff : PyDatetime.datetime) (s : St),
    respond w (st_history s) EvNewPage = Ok tt ->
    PyDatetime.sub_days (clock w (st_ticks s)) since_days = Ok cutoff ->
    configured_server.find_course_key [("math", "pre_algebra")] "Math" = Some "pre_algebra"
    /\ configured_server.find_course_key configured_server.course_mapping "Math"
       = Some "pre_algebra"
    /\ configured_server.dict_get configured_server.classes "pre_algebra"
       = Some (configured_server.class_url "2203700")
    /\ configured_server.class_url "2203700" <> configured_server.grades_overview_url
    /\ gotos (st_history (snd (configured_server.scrape_course_grades w ctx (Some "Math")
                                 since_days s)))
       = configured_server.class_url "2203700" :: gotos (st_history s).
Proof.
  intros w ctx since_days cutoff s Hpage Hcut.
  split; [vm_compute; reflexivity|].
  split; [vm_compute; reflexivity|].
  split; [vm_compute; reflexivity|].
  split; [intros H; vm_compute in H; discriminate H|].
  eapply scrape_course_grades_opens_class_page; eauto.
  vm_compute. reflexivity.
Qed.

Lemma math_filter_witness :
  gotos (st_history (snd (configured_server.scrape_course_grades
                            (Mock.portal Mock.grades_site Mock.noon_march_15_2024)
                            (mk_BrowserContext None) (Some "Math") 14 Mock.fresh)))
  = [configured_server.class_url "2203700"].
Proof.
  apply (math_filter_opens_the_pre_algebra_page
           (Mock.portal Mock.grades_site Mock.noon_march_15_2024)
           (mk_BrowserContext None) 14
           (Mock.noon_march_15_2024 - 14 * PyDatetime.MICROS_PER_DAY) Mock.fresh);
    reflexivity.
Defined.

(** C10. When the filter resolves to a class page, every returned grade
    carries as course the canonical key with underscores turned into spaces
    and title-cased ("pre_algebra" gives "Pre Algebra"); no text of the page
    enters it, and the filter text plays no further part: any filter
    resolving to the same page returns the very same records. *)
Theorem class_page_grades_carry_the_canonical_course_name :
  forall (w : World) (ctx : BrowserContext) (filter key url : string) (since_days : Z)
         (s s' : St) (items : list GradeSample),
    configured_server.resolve_course filter = Some (key, url) ->
    configured_server.scrape_course_grades w ctx (Some filter) since_days s
    = (Ok items, s') ->
    Forall (fun g => gs_course g = PyStr.title (PyStr.replace_char "_" " " key)) items
    /\ (forall filter',
          configured_server.resolve_course filter' = Some (key, url) ->
          configured_server.scrape_course_grades w ctx (Some filter') since_days s
          = (Ok items, s'))
    /\ PyStr.title (PyStr.replace_char "_" " " "pre_algebra") = "Pre Algebra".
Proof.
  intros w ctx filter key url since_days s s' items Hres Hrun.
  split; [|split; [|reflexivity]].
  - unfold configured_server.scrape_course_grades in Hrun.
    rewrite (given_resolved _ _ Hres), Hres in Hrun.
    run_inv.
    match goal with
    | Hx : try_except _ _ _ = _ |- _ =>
        apply try_except_Ok in Hx; destruct Hx as [Hb | (e & s2 & _ & Hb)]
    end.
    + run_inv. simpl.
      match goal with
      | Hx : configured_server.extract_grades_from_page _ _ _ _ = _ |- _ =>
          apply extract_grades_kept in Hx;
          eapply Forall_impl; [|exact Hx]
      end.
      intros g [Hg _]. exact Hg.
    + run_inv. constructor.
  - intros filter' Hres'. rewrite <- Hrun.
    unfold configured_server.scrape_course_grades.
    rewrite (given_resolved _ _ Hres), (given_resolved _ _ Hres'), Hres, Hres'.
    reflexivity.
Qed.

Lemma class_page_grades_witness :
  Forall (fun g => gs_course g = "Pre Algebra")
    [mk_GradeSample "Pre Algebra" 63845798400000000 (Some (FloatOf "85.5"));
     mk_GradeSample "Pre Algebra" (Mock.noon_march_15_2024 + 2000000)
       (Some (FloatOf "78"))]
  /\ PyStr.contains (PyStr.lower "math") (PyStr.lower "Pre Algebra") = false.
Proof.
  split; [|reflexivity].
  apply (class_page_grades_carry_the_canonical_course_name
           (Mock.portal Mock.grades_site Mock.noon_march_15_2024)
           (mk_BrowserContext None) "math" "pre_algebra"
           (configured_server.class_url "2203700") 14 Mock.fresh
           (mk_St [EvClosePage; EvScreenshot "grades_pre_algebra_debug.png";
                   EvWaitLoad 10000; EvGoto (configured_server.class_url "2203700");
                   EvNewPage] 4));
    vm_compute; reflexivity.
Defined.

(** C5, at the failing input.  On a portal whose grades overview shows a
    recent grade, the filter "History", which no alias resolves, makes
    [scrape_course_grades] return nothing without navigating anywhere, and
    the dispatcher answer with an empty list; with no filter at all the
    overview is opened and its grade returned. *)
Theorem unresolved_filter_returns_no_grades :
  let w := Mock.portal Mock.grades_site Mock.noon_march_15_2024 in
  let ctx := mk_BrowserContext None in
  configured_server.resolve_course "History" = None
  /\ configured_server.scrape_course_grades w ctx (Some "History") 14 Mock.fresh
     = (Ok [], mk_St [EvClosePage; EvNewPage] 1)
  /\ fst (configured_server.call_tool Mock.config w
            (mk_ToolRequest "get_course_grades" (mk_Arguments None (Some "History")))
            Mock.fresh)
     = Ok (mk_ToolResponse true (Some (GradesData (Some "History") [])) None)
  /\ fst (configured_server.scrape_course_grades w ctx None 14 Mock.fresh)
     = Ok [mk_GradeSample "Overview" 63845971200000000 (Some (FloatOf "91"))]
  /\ gotos (st_history (snd (configured_server.scrape_course_grades w ctx None 14
                               Mock.fresh)))
     = [configured_server.grades_overview_url].
Proof. repeat split; vm_compute; reflexivity. Qed.

(** ** The recency filter *)

Lemma keep_assignment_spec (due : option PyDatetime.datetime) (cutoff : PyDatetime.datetime)
    (title_ course_ : string) :
  configured_server.keep_assignment due cutoff = true ->
  undated_or_recent cutoff (mk_Assignment title_ course_ due "missing" None None None).
Proof.
  unfold undated_or_recent, configured_server.keep_assignment. simpl.
  destruct due as [d|]; [|now left].
  intros H. right. exists d. split; [reflexivity|]. now apply Z.leb_le.
Qed.

Lemma assignment_of_row_kept (w : World) (cutoff : PyDatetime.datetime)
    (i : nat) (row : Locator) (s s' : St) (a : Assignment) :
  configured_server.assignment_of_row w cutoff i row s = (Ok (Some a), s') ->
  undated_or_recent cutoff a.
Proof.
  unfold configured_server.assignment_of_row. intros H.
  destruct (i =? 0)%nat; [run_inv; discriminate|].
  run_inv.
  match goal with
  | cells : list Locator |- _ =>
      destruct cells as [|c0 [|c1 [|c2 more]]]; try (run_inv; discriminate)
  end.
  run_inv.
  destruct (configured_server.keep_assignment _ cutoff) eqn:E; run_inv; [|discriminate].
  match goal with Hx : Some _ = Some _ |- _ => inversion Hx; subst; clear Hx end.
  now apply keep_assignment_spec.
Qed.

Lemma assignment_of_card_kept (w : World) (cutoff : PyDatetime.datetime)
    (i : nat) (card : Locator) (s s' : St) (a : Assignment) :
  configured_server.assignment_of_card w cutoff i card s = (Ok (Some a), s') ->
  undated_or_recent cutoff a.
Proof.
  unfold configured_server.assignment_of_card. intros H.
  run_inv.
  destruct (configured_server.keep_assignment _ cutoff) eqn:E; run_inv; [|discriminate].
  match goal with Hx : Some _ = Some _ |- _ => inversion Hx; subst; clear Hx end.
  now apply keep_assignment_spec.
Qed.

Lemma scan_card_selectors_kept (w : World) (cutoff : PyDatetime.datetime)
    (selectors : list string) :
  forall acc s l s',
    Forall (undated_or_recent cutoff) acc ->
    configured_server.scan_card_selectors w cutoff selectors acc s = (Ok l, s') ->
    Forall (undated_or_recent cutoff) l.
Proof.
  induction selectors as [|sel rest IH]; intros acc s l s' Hacc H; simpl in H.
  - run_inv. exact Hacc.
  - run_inv.
    match goal with
    | Hx : (if (0 <? ?n)%nat then _ else _) _ = _ |- _ => destruct (0 <? n)%nat
    end.
    + run_inv. eapply collect_Forall; [|exact Hacc|eassumption].
      intros. eapply assignment_of_card_kept; eauto.
    + eapply IH; eauto.
Qed.

Lemma same_ticks_run {A : Type} (m : M A) (s s' : St) (r : outcome A) :
  respects same_ticks m -> m s = (r, s') -> st_ticks s' = st_ticks s.
Proof. intros Hm H. specialize (Hm s). rewrite H in Hm. exact Hm. Qed.

Lemma scrape_missing_assignments_kept (w : World) (ctx : BrowserContext)
    (since_days : Z) (s s' : St) (l : list Assignment) :
  configured_server.scrape_missing_assignments w ctx since_days s = (Ok l, s') ->
  Forall (undated_or_recent
            (clock w (st_ticks s) - since_days * PyDatetime.MICROS_PER_DAY)) l.
Proof.
  unfold configured_server.scrape_missing_assignments. intros H. run_inv.
  match goal with
  | Hx : try_except _ _ _ = _ |- _ =>
      apply try_except_Ok in Hx; destruct Hx as [Hb | (e & s2 & _ & Hb)]
  end; [|run_inv; constructor].
  run_inv.
  match goal with
  | Hx : configured_server.wait_for_page_load _ _ _ = _ |- _ =>
      apply (same_ticks_run _ _ _ _ (wait_for_page_load_same_ticks _ _)) in Hx;
      cbn [st_ticks] in Hx
  end.
  match goal with
  | Hx : (PyDatetime.sub_days _ _, _) = (Ok _, _) |- _ =>
      inversion Hx as [[Hcut Hs]]; clear Hx; apply sub_days_Ok in Hcut;
      cbn [st_ticks] in Hcut
  end.
  match goal with Hx : st_ticks _ = st_ticks s |- _ => rewrite Hx in Hcut end.
  rewrite <- Hcut.
  match goal with
  | found : option string |- _ => destruct found as [selector|]
  end.
  - run_inv. eapply collect_Forall; [|constructor|eassumption].
    intros. eapply assignment_of_row_kept; eauto.
  - eapply scan_card_selectors_kept; [constructor|eassumption].
Qed.

Lemma scrape_course_grades_kept (w : World) (ctx : BrowserContext)
    (course_filter : option string) (since_days : Z) (s s' : St) (l : list GradeSample) :
  configured_server.scrape_course_grades w ctx course_filter since_days s = (Ok l, s') ->
  Forall (fun g => clock w (st_ticks s) - since_days * PyDatetime.MICROS_PER_DAY
                   <= gs_date g) l.
Proof.
  unfold configured_server.scrape_course_grades. intros H. run_inv.
  match goal with
  | Hx : try_except _ _ _ = _ |- _ =>
      apply try_except_Ok in Hx; destruct Hx as [Hb | (e & s2 & _ & Hb)]
  end; [|run_inv; constructor].
  run_inv.
  match goal with
  | Hx : (PyDatetime.sub_days _ _, _) = (Ok _, _) |- _ =>
      inversion Hx as [[Hcut Hs]]; clear Hx; apply sub_days_Ok in Hcut;
      cbn [st_ticks] in Hcut
  end.
  rewrite <- Hcut.
  destruct (configured_server.given course_filter) as [filter_text|].
  - destruct (configured_server.resolve_course filter_text) as [[key url]|];
      [|run_inv; constructor].
    run_inv. simpl.
    match goal with
    | Hx : configured_server.extract_grades_from_page _ _ _ _ = _ |- _ =>
        apply extract_grades_kept in Hx; eapply Forall_impl; [|exact Hx]
    end.
    intros g [_ Hg]. exact Hg.
  - run_inv. simpl.
    match goal with
    | Hx : configured_server.extract_grades_from_page _ _ _ _ = _ |- _ =>
        apply extract_grades_kept in Hx; eapply Forall_impl; [|exact Hx]
    end.
    intros g [_ Hg]. exact Hg.
Qed.

Lemma get_context_same_ticks (cfg : Config) (w : World) :
  respects same_ticks (configured_server.get_context cfg w).
Proof. unfold configured_server.get_context. auto 10 with respects. Qed.

Lemma ensure_login_same_ticks (cfg : Config) (w : World) (ctx : BrowserContext) :
  respects same_ticks (configured_server.ensure_login cfg w ctx).
Proof.
  unfold configured_server.ensure_login.
  pose proof (wait_for_page_load_same_ticks w).
  pose proof (probe_indicators_respects same_ticks w).
  auto 20 with respects.
Qed.

(** C1. Whatever the portal shows, and for every look-back [since_days]
    (non-negative ones in particular), the answer of the dispatcher to
    check_missing_assignments lists only assignments with no due date or a
    due date on or after now - since_days, and its answer to
    get_course_grades lists only grades dated on or after now - since_days,
    "now" being the clock reading the scrape takes for its cutoff; a
    grade's date is a plain datetime, never absent. *)
Theorem returned_records_pass_the_recency_filter :
  forall (cfg : Config) (w : World) (request : ToolRequest) (s s' : St)
         (response : ToolResponse),
    0 <= configured_server.since_days_of (arguments request) ->
    configured_server.call_tool cfg w request s = (Ok response, s') ->
    let cutoff :=
      clock w (st_ticks s)
      - configured_server.since_days_of (arguments request) * PyDatetime.MICROS_PER_DAY in
    match data response with
    | Some (MissingData _ items) =>
        tool request = "check_missing_assignments"
        /\ Forall (undated_or_recent cutoff) items
    | Some (GradesData _ items) =>
        tool request = "get_course_grades"
        /\ Forall (fun g => cutoff <= gs_date g) items
    | _ => True
    end.
Proof.
  intros cfg w request s s' response _ H cutoff. subst cutoff.
  unfold configured_server.call_tool in H.
  apply try_except_Ok in H. destruct H as [H | (e & s1 & _ & H)];
    [|run_inv; exact I].
  destruct (String.eqb (tool request) "check_missing_assignments") eqn:E1;
    [|destruct (String.eqb (tool request) "get_course_grades") eqn:E2;
      [|destruct (String.eqb (tool request) "health"); run_inv; exact I]].
  - apply String.eqb_eq in E1. run_inv. simpl. split; [exact E1|].
    match goal with
    | Hx : configured_server.scrape_missing_assignments _ _ _ _ = _ |- _ =>
        apply scrape_missing_assignments_kept in Hx; rename Hx into Hkept
    end.
    repeat match goal with
    | Hx : configured_server.get_context _ _ _ = _ |- _ =>
        apply (same_ticks_run _ _ _ _ (get_context_same_ticks _ _)) in Hx
    | Hx : configured_server.ensure_login _ _ _ _ = _ |- _ =>
        apply (same_ticks_run _ _ _ _ (ensure_login_same_ticks _ _ _)) in Hx
    end.
    replace (st_ticks s) with (st_ticks s2) by congruence. exact Hkept.
  - apply String.eqb_eq in E2. run_inv. simpl. split; [exact E2|].
    match goal with
    | Hx : configured_server.scrape_course_grades _ _ _ _ _ = _ |- _ =>
        apply scrape_course_grades_kept in Hx; rename Hx into Hkept
    end.
    repeat match goal with
    | Hx : configured_server.get_context _ _ _ = _ |- _ =>
        apply (same_ticks_run _ _ _ _ (get_context_same_ticks _ _)) in Hx
    | Hx : configured_server.ensure_login _ _ _ _ = _ |- _ =>
        apply (same_ticks_run _ _ _ _ (ensure_login_same_ticks _ _ _)) in Hx
    end.
    replace (st_ticks s) with (st_ticks s2) by congruence. exact Hkept.
Qed.

Lemma recency_filter_witness :
  Forall (undated_or_recent (Mock.noon_march_15_2024 - 14 * PyDatetime.MICROS_PER_DAY))
    [mk_Assignment "Essay draft" "Lang Lit" (Some 63846230400000000) "missing"
                   None None None].
Proof.
  destruct (returned_records_pass_the_recency_filter Mock.config
              (Mock.portal Mock.assignments_site Mock.noon_march_15_2024)
              (mk_ToolRequest "check_missing_assignments" (mk_Arguments (Some 14) None))
              Mock.fresh
              (snd (configured_server.call_tool Mock.config
                      (Mock.portal Mock.assignments_site Mock.noon_march_15_2024)
                      (mk_ToolRequest "check_missing_assignments"
                                      (mk_Arguments (Some 14) None))
                      Mock.fresh))
              (mk_ToolResponse true
                 (Some (MissingData 1
                          [mk_Assignment "Essay draft" "Lang Lit"
                                         (Some 63846230400000000) "missing"
                                         None None None]))
                 None))
    as [_ W].
  - vm_compute. discriminate.
  - vm_compute. reflexivity.
  - exact W.
Defined.

(** ** Grades whose date cannot be read *)

Lemma combine_seq_map {T : Type} (f : nat -> T) (n start : nat) :
  combine (seq start n) (map f (seq start n)) = map (fun i => (i, f i)) (seq start n).
Proof.
  revert start. induction n as [|n IH]; intros start; simpl; [reflexivity|].
  now rewrite IH.
Qed.

Lemma In_enumerate_map {T : Type} (f : nat -> T) (n i : nat) :
  (i < n)%nat -> In (i, f i) (enumerate (map f (seq 0 n))).
Proof.
  intros Hi. unfold enumerate. rewrite length_map, length_seq, combine_seq_map.
  apply in_map_iff. exists i. split; [reflexivity|]. apply in_seq. lia.
Qed.

Section Collect.
Context {T : Type}.
Variable body : nat -> Locator -> M (option T).
Hypothesis body_only_reads : forall i x, respects only_read (body i x).

(** The loop always ends normally, keeps what was collected and only reads. *)
Lemma collect_total (xs : list (nat * Locator)) :
  forall acc s, exists l s',
    configured_server.collect body xs acc s = (Ok l, s')
    /\ incl acc l /\ only_read s s'.
Proof.
  induction xs as [|[i x] xs IH]; intros acc s; simpl.
  - exists acc, s. repeat split; [apply incl_refl | lia].
  - unfold bind, try_except. pose proof (body_only_reads i x s) as Hread.
    destruct (body i x s) as [[r|e] s1]; simpl in Hread.
    + destruct (IH (match r with Some a => acc ++ [a] | None => acc end) s1)
        as (l & s' & Hrun & Hincl & Hread').
      exists l, s'. split; [exact Hrun|]. split.
      * intros a Ha. apply Hincl. destruct r; [apply in_or_app; now left | exact Ha].
      * etransitivity; eassumption.
    + unfold ret. destruct (IH acc s1) as (l & s' & Hrun & Hincl & Hread').
      exists l, s'. split; [exact Hrun|]. split; [exact Hincl|].
      etransitivity; eassumption.
Qed.

(** A row whose body yields a record at every later reading of the page
    has that record, stamped with some later tick, in the result. *)
Lemma collect_includes (record : nat -> T) (i : nat) (x : Locator) (s0 : St) :
  (forall s1, only_read s0 s1 ->
              exists s2, body i x s1 = (Ok (Some (record (st_ticks s1))), s2)) ->
  forall xs acc s,
    In (i, x) xs -> only_read s0 s ->
    exists l s' tick,
      configured_server.collect body xs acc s = (Ok l, s')
      /\ (st_ticks s0 <= tick)%nat
      /\ In (record tick) l.
Proof.
  intros Hrow. induction xs as [|[j y] xs IH]; intros acc s Hin Hs; [contradiction|].
  simpl. destruct Hin as [Heq | Hin].
  - inversion Heq; subst j y. destruct (Hrow s Hs) as (s2 & Hbody).
    unfold bind, try_except. rewrite Hbody.
    destruct (collect_total xs (acc ++ [record (st_ticks s)]) s2)
      as (l & s' & Hrun & Hincl & _).
    exists l, s', (st_ticks s). split; [exact Hrun|]. split; [apply Hs|].
    apply Hincl, in_or_app. right. now left.
  - unfold bind, try_except. pose proof (body_only_reads j y s) as Hread.
    destruct (body j y s) as [[r|e] s1]; simpl in Hread.
    + apply IH; [exact Hin | etransitivity; eassumption].
    + unfold ret. apply IH; [exact Hin | etransitivity; eassumption].
Qed.

End Collect.

Lemma parse_grade_date_default (now_ : PyDatetime.datetime) (date_text : string) :
  first_format date_text date_formats = None ->
  parse_grade_date now_ (Some date_text) = now_.
Proof.
  intros H. unfold parse_grade_date, parse_due_date. rewrite H.
  destruct (PyStr.truthy date_text); reflexivity.
Qed.

(** C3. The row logic of the grade extraction does what is claimed: the
    row "78%", "a while ago", whose date text parses under none of the
    formats, gives a grade dated with the clock reading, which passes the
    recency filter.  But the rows are never read: the extraction first
    awaits the locator of the table, which Playwright refuses, and answers
    the exception with the empty list.  Asked for the grades of "Math" over
    14 days on the pre-algebra page that holds this row, the tool returns
    no grade at all. *)
Theorem unparsable_grade_date_row_is_never_read :
  let w := Mock.playwright_portal Mock.grades_site Mock.noon_march_15_2024 in
  let cutoff := Mock.noon_march_15_2024 - 14 * PyDatetime.MICROS_PER_DAY in
  let class_page := mk_St [EvGoto (configured_server.class_url "2203700")] 1 in
  first_format "a while ago" date_formats = None
  /\ fst (configured_server.grade_of_row w "pre_algebra" cutoff 2
            [Sel "table"; First; Sel "tr"; Nth 2] class_page)
     = Ok (Some (mk_GradeSample "Pre Algebra" (clock w 1) (Some (FloatOf "78"))))
  /\ configured_server.extract_grades_from_page w "pre_algebra" cutoff class_page
     = (Ok [], class_page)
  /\ fst (configured_server.call_tool Mock.config w
            (mk_ToolRequest "get_course_grades" (mk_Arguments (Some 14) (Some "Math")))
            Mock.fresh)
     = Ok (mk_ToolResponse true (Some (GradesData (Some "Math") [])) None).
Proof.
  vm_compute. repeat split; reflexivity.
Qed.

(** ** Login without a username field, and extraction on a page without data *)

Lemma bind_run {A B : Type} (m : M A) (k : A -> M B) (s s1 : St) (a : A) :
  m s = (Ok a, s1) -> bind m k s = k a s1.
Proof. intros H. unfold bind. now rewrite H. Qed.

Lemma bind_act_Raise {B : Type} (w : World) (e : Event) (k : unit -> M B) (s : St)
    (x : exn) :
  respond w (st_history s) e = Raise x ->
  bind (act w e) k s = (Raise x, mk_St (e :: st_history s) (st_ticks s)).
Proof. intros H. unfold bind, act. now rewrite H. Qed.


Lemma configured_wait_run (w : World) (timeout : Z) (s : St) :
  configured_server.wait_for_page_load w timeout s
  = (Ok tt, mk_St (EvWaitLoad timeout :: st_history s) (st_ticks s)).
Proof.
  unfold configured_server.wait_for_page_load, try_except, act, ret.
  destruct (respond w (st_history s) (EvWaitLoad timeout)) as [[]|e]; reflexivity.
Qed.

(** Probing the markers never fails and does nothing to the browser. *)
Lemma improved_probe_total (w : World) (indicators : list string) (s : St) :
  exists found, improved_server.probe_indicators w indicators s = (Ok found, s).
Proof.
  induction indicators as [|i rest IH]; simpl.
  - now exists false.
  - unfold bind at 1. unfold try_except, bind, count, query, ret.
    destruct (doc_count (document w (st_history s)) [Sel i]) as [n|e].
    + destruct (0 <? n)%nat; [now exists true | exact IH].
    + exact IH.
Qed.

(** When no selector of the list matches, no action is taken. *)
Lemma first_usable_none (w : World) (action : string -> Event) (selectors : list string)
    (s : St) :
  (forall sel, In sel selectors -> ~ matches (document w (st_history s)) sel) ->
  improved_server.first_usable w action selectors s = (Ok false, s).
Proof.
  induction selectors as [|sel rest IH]; intros Hno; simpl; [reflexivity|].
  unfold bind at 1. unfold try_except, bind, count, query, ret.
  destruct (doc_count (document w (st_history s)) [Sel sel]) as [[|n]|e] eqn:E.
  - cbn [Nat.ltb Nat.leb]. apply IH. intros sel' Hin. apply Hno. now right.
  - exfalso. apply (Hno sel); [now left | now exists n].
  - apply IH. intros sel' Hin. apply Hno. now right.
Qed.

Lemma first_matching_none (w : World) (selectors : list string) (s s' : St)
    (found : option string) :
  (forall sel, In sel selectors -> ~ matches (document w (st_history s)) sel) ->
  configured_server.first_matching w selectors s = (Ok found, s') ->
  found = None /\ s' = s.
Proof.
  induction selectors as [|sel rest IH]; intros Hno H; simpl in H.
  - run_inv. auto.
  - run_inv.
    match goal with
    | Hx : count _ _ _ = _ |- _ =>
        unfold count in Hx; apply query_Ok in Hx; destruct Hx as [Hc ->]
    end.
    match type of Hc with
    | _ = Ok ?a => destruct a as [|m]
    end.
    + cbn [Nat.ltb Nat.leb] in H. apply IH; [|exact H].
      intros sel' Hin. apply Hno. now right.
    + exfalso. apply (Hno sel); [now left | now exists m].
Qed.

Lemma scan_card_selectors_none (w : World) (cutoff : PyDatetime.datetime)
    (selectors : list string) (acc l : list Assignment) (s s' : St) :
  (forall sel, In sel selectors -> ~ matches (document w (st_history s)) sel) ->
  configured_server.scan_card_selectors w cutoff selectors acc s = (Ok l, s') ->
  l = acc.
Proof.
  induction selectors as [|sel rest IH]; intros Hno H; simpl in H.
  - run_inv. reflexivity.
  - run_inv.
    match goal with
    | Hx : count _ _ _ = _ |- _ =>
        unfold count in Hx; apply query_Ok in Hx; destruct Hx as [Hc ->]
    end.
    match type of Hc with
    | _ = Ok ?a => destruct a as [|m]
    end.
    + cbn [Nat.ltb Nat.leb] in H. apply IH; [|exact H].
      intros sel' Hin. apply Hno. now right.
    + exfalso. apply (Hno sel); [now left | now exists m].
Qed.

Lemma try_except_ret_total {A : Type} (m : M A) (a : A) (s s' : St) (e : exn) :
  try_except m (fun _ => ret a) s <> (Raise e, s').
Proof.
  unfold try_except, ret. destruct (m s) as [[x|x] s1]; intros H; discriminate H.
Qed.

(** On a page with no table and no card, the extraction ends normally with
    an empty list. *)
Lemma scrape_missing_assignments_without_data (w : World) (ctx : BrowserContext)
    (since_days : Z) (s : St) (page : Document) :
  (forall later, document w (later ++ st_history s) = page) ->
  (forall sel,
      In sel (configured_server.table_selectors_assignments
              ++ configured_server.card_selectors) ->
      ~ matches page sel) ->
  (forall h, respond w h EvNewPage = Ok tt) ->
  (forall h, respond w h EvClosePage = Ok tt) ->
  exists s2,
    configured_server.scrape_missing_assignments w ctx since_days s = (Ok [], s2).
Proof.
  intros Hdoc Hno Hnew Hclose. unfold configured_server.scrape_missing_assignments.
  rewrite bind_act_Ok by apply Hnew. unfold try_finally.
  match goal with
  | |- context [try_except ?body ?handler ?st] =>
      destruct (try_except body handler st) as [[l|e] s3] eqn:E
  end.
  - unfold act. rewrite Hclose. eexists.
    assert (l = []) as ->; [|reflexivity].
    apply try_except_Ok in E. destruct E as [E | (e & s4 & _ & E)]; [|run_inv; reflexivity].
    run_inv.
    match goal with
    | Hx : configured_server.wait_for_page_load _ _ _ = _ |- _ =>
        rewrite configured_wait_run in Hx; inversion Hx; subst; clear Hx
    end.
    match goal with
    | Hx : (PyDatetime.sub_days _ _, _) = (Ok _, _) |- _ =>
        inversion Hx; subst; clear Hx
    end.
    cbn [st_history st_ticks] in *.
    pose proof (Hdoc [EvScreenshot "assignments_page_debug.png"; EvWaitLoad 10000;
                      EvGoto configured_server.assignments_missing_url; EvNewPage])
      as Hpage.
    cbn [app] in Hpage.
    match goal with
    | Hx : configured_server.first_matching _ _ _ = _ |- _ =>
        apply first_matching_none in Hx;
        [destruct Hx as [-> ->]|]
    end.
    + match goal with
      | Hx : configured_server.scan_card_selectors _ _ _ _ _ = _ |- _ =>
          apply scan_card_selectors_none in Hx; [exact Hx|]
      end.
      cbn [st_history]. rewrite Hpage. intros sel Hin. apply Hno.
      apply in_or_app. now right.
    + cbn [st_history]. rewrite Hpage. intros sel Hin. apply Hno.
      apply in_or_app. now left.
  - exfalso. exact (try_except_ret_total _ _ _ _ _ E).
Qed.


Lemma guarded_list_run {T : Type} (body : M (list T)) (cleanup : M unit) (s : St) :
  (forall s1, exists s2, cleanup s1 = (Ok tt, s2)) ->
  exists l s',
    try_finally (try_except body (fun _ => ret [])) cleanup s = (Ok l, s')
    /\ (forall e s1, body s = (Raise e, s1) -> l = []).
Proof.
  intros Hc. unfold try_finally, try_except, ret.
  destruct (body s) as [[l|e] s1]; destruct (Hc s1) as (s2 & E); rewrite E.
  - exists l, s2. split; [reflexivity|]. intros e s3 H. discriminate H.
  - exists [], s2. split; [reflexivity|]. reflexivity.
Qed.

(** *** What follows when Playwright refuses to await a locator *)

Section Await.
Variable w : World.
Hypothesis Hlocators : playwright_locators w.

Lemma await_first_raises (l : Locator) (s : St) :
  await_first w l s = (Raise not_awaitable, s).
Proof. unfold await_first, bind, query. now rewrite Hlocators. Qed.

(** The grade table is found, then lost at the [await]. *)
Lemma extract_grades_without_await (course_name : string)
    (cutoff : PyDatetime.datetime) (s : St) :
  configured_server.extract_grades_from_page w course_name cutoff s = (Ok [], s).
Proof.
  unfold configured_server.extract_grades_from_page, try_except.
  unfold bind at 1.
  pose proof (first_matching_respects eq w configured_server.table_selectors_grades s)
    as Hs.
  destruct (configured_server.first_matching w
              configured_server.table_selectors_grades s) as [[[selector|]|e] s1];
    cbn [snd] in Hs; subst s1; try reflexivity.
  unfold bind at 1. rewrite await_first_raises. reflexivity.
Qed.

(** Every card is given up at its first [await]. *)
Lemma cards_without_await (cutoff : PyDatetime.datetime)
    (xs : list (nat * Locator)) (acc : list Assignment) (s : St) :
  configured_server.collect (configured_server.assignment_of_card w cutoff) xs acc s
  = (Ok acc, s).
Proof.
  revert acc. induction xs as [|[i card] xs IH]; intros acc; [reflexivity|].
  cbn [configured_server.collect]. unfold bind at 1, try_except.
  unfold configured_server.assignment_of_card. unfold bind at 1.
  rewrite await_first_raises. cbn [ret]. apply IH.
Qed.

Lemma card_layout_without_await (cutoff : PyDatetime.datetime)
    (selectors : list string) (acc items : list Assignment) (s s' : St) :
  configured_server.scan_card_selectors w cutoff selectors acc s = (Ok items, s') ->
  items = acc.
Proof.
  revert s. induction selectors as [|selector rest IH];
    cbn [configured_server.scan_card_selectors]; intros s H; run_inv; [reflexivity|].
  match goal with
  | Hx : count _ _ _ = _ |- _ => unfold count, query in Hx; inversion Hx; subst; clear Hx
  end.
  match goal with
  | Hx : (if ?b then _ else _) _ = _ |- _ => destruct b
  end; [|eapply IH; eassumption].
  run_inv. rewrite cards_without_await in H. now inversion H.
Qed.

Lemma assignments_without_await (context : BrowserContext) (since_days : Z)
    (s s' : St) (items : list Assignment) :
  configured_server.scrape_missing_assignments w context since_days s = (Ok items, s') ->
  items = [].
Proof.
  unfold configured_server.scrape_missing_assignments. intros H. run_inv.
  match goal with
  | Hx : try_except _ _ _ = _ |- _ =>
      apply try_except_Ok in Hx; destruct Hx as [Hb | (e & s2 & _ & Hb)]
  end; [|run_inv; reflexivity].
  run_inv.
  match goal with
  | found : option string |- _ => destruct found as [selector|]
  end.
  - run_inv.
    match goal with
    | Hx : await_first _ _ _ = _ |- _ => rewrite await_first_raises in Hx; discriminate Hx
    end.
  - eapply card_layout_without_await; eassumption.
Qed.

Lemma grades_without_await (context : BrowserContext) (course_filter : option string)
    (since_days : Z) (s s' : St) (items : list GradeSample) :
  configured_server.scrape_course_grades w context course_filter since_days s
  = (Ok items, s') ->
  items = [].
Proof.
  unfold configured_server.scrape_course_grades. intros H. run_inv.
  match goal with
  | Hx : try_except _ _ _ = _ |- _ =>
      apply try_except_Ok in Hx; destruct Hx as [Hb | (e & s2 & _ & Hb)]
  end; [|run_inv; reflexivity].
  run_inv.
  destruct (configured_server.given course_filter) as [filter_text|].
  - destruct (configured_server.resolve_course filter_text) as [[key url]|];
      [|run_inv; reflexivity].
    run_inv.
    match goal with
    | Hx : configured_server.extract_grades_from_page _ _ _ _ = _ |- _ =>
        rewrite extract_grades_without_await in Hx; now inversion Hx
    end.
  - run_inv.
    match goal with
    | Hx : configured_server.extract_grades_from_page _ _ _ _ = _ |- _ =>
        rewrite extract_grades_without_await in Hx; now inversion Hx
    end.
Qed.

End Await.





(** * Further properties of the servers *)

(** ** Failure containment in configured_server.py *)

Lemma try_except_ret_Ok {A : Type} (m : M A) (f : exn -> A) (s : St) :
  exists a s', try_except m (fun e => ret (f e)) s = (Ok a, s')
               /\ (m s = (Ok a, s') \/ exists e, m s = (Raise e, s') /\ a = f e).
Proof.
  unfold try_except, ret. destruct (m s) as [[a|e] s1].
  - exists a, s1. split; [reflexivity | now left].
  - exists (f e), s1. split; [reflexivity | right; now exists e].
Qed.

(** The dispatcher of configured_server.py never raises: whatever the
    browser, the portal and the request, it returns an envelope, which
    carries data and no error when it reports success, an error message and
    no data when it reports failure. *)
Theorem call_tool_always_returns_an_envelope :
  forall (cfg : Config) (w : World) (request : ToolRequest) (s : St),
  exists response s',
    configured_server.call_tool cfg w request s = (Ok response, s')
    /\ (success response = true -> data response <> None /\ error response = None)
    /\ (success response = false -> data response = None /\ error response <> None).
Proof.
  intros cfg w request s. unfold configured_server.call_tool.
  match goal with
  | |- context [try_except ?m (fun e => ret (@?f e)) s] =>
      destruct (try_except_ret_Ok m f s) as (response & s' & Hrun & Hcase)
  end.
  exists response, s'. split; [exact Hrun|]. clear Hrun.
  destruct Hcase as [Hok | (e & _ & ->)].
  - destruct (String.eqb (tool request) "check_missing_assignments");
      [|destruct (String.eqb (tool request) "get_course_grades");
        [|destruct (String.eqb (tool request) "health")]];
      run_inv; simpl; split; intros Hflag; try discriminate Hflag; split;
        try reflexivity; discriminate.
  - simpl. split; intros Hflag; try discriminate Hflag.
    split; [reflexivity | discriminate].
Qed.

Lemma snd_try_except_ret {A : Type} (m : M A) (f : exn -> A) (s : St) :
  snd (try_except m (fun e => ret (f e)) s) = snd (m s).
Proof. unfold try_except, ret. destruct (m s) as [[a|e] s1]; reflexivity. Qed.

(** Once the browser context is acquired, the two scraping tools close it
    as their last action, whether login and scraping succeeded or raised. *)
Theorem call_tool_closes_the_context_last :
  forall (cfg : Config) (w : World) (request : ToolRequest) (s s1 : St)
         (context : BrowserContext),
    tool request = "check_missing_assignments" \/ tool request = "get_course_grades" ->
    configured_server.get_context cfg w s = (Ok context, s1) ->
    exists earlier,
      st_history (snd (configured_server.call_tool cfg w request s))
      = EvCloseContext :: earlier.
Proof.
  intros cfg w request s s1 context Htool Hctx. unfold configured_server.call_tool.
  rewrite snd_try_except_ret.
  destruct Htool as [-> | ->]; cbn [String.eqb Ascii.eqb Bool.eqb];
    rewrite (bind_run _ _ _ _ _ Hctx), snd_try_finally; eexists; reflexivity.
Qed.

Lemma call_tool_closes_the_context_witness :
  exists earlier,
    st_history
      (snd (configured_server.call_tool Mock.config
              (Mock.portal Mock.assignments_site Mock.noon_march_15_2024)
              (mk_ToolRequest "check_missing_assignments" (mk_Arguments None None))
              Mock.fresh))
    = EvCloseContext :: earlier.
Proof.
  apply (call_tool_closes_the_context_last Mock.config
           (Mock.portal Mock.assignments_site Mock.noon_march_15_2024)
           (mk_ToolRequest "check_missing_assignments" (mk_Arguments None None))
           Mock.fresh
           (mk_St [EvNewContext None;
                   EvLaunch 1000 ["--disable-web-security";
                                  "--disable-features=VizDisplayCompositor"];
                   EvStart] 0)
           (mk_BrowserContext None)).
  - left. reflexivity.
  - reflexivity.
Defined.

(** A failure to acquire the browser context is answered with a failure
    envelope carrying the message of the exception; nothing is scraped and
    no context is closed. *)
Theorem call_tool_reports_session_failure :
  forall (cfg : Config) (w : World) (request : ToolRequest) (s s1 : St) (e : exn),
    tool request = "check_missing_assignments" \/ tool request = "get_course_grades" ->
    configured_server.get_context cfg w s = (Raise e, s1) ->
    configured_server.call_tool cfg w request s
    = (Ok (mk_ToolResponse false None (Some (exn_msg e))), s1).
Proof.
  intros cfg w request s s1 e Htool Hctx. unfold configured_server.call_tool, try_except.
  destruct Htool as [-> | ->]; cbn [String.eqb Ascii.eqb Bool.eqb];
    unfold bind at 1; rewrite Hctx; reflexivity.
Qed.

Lemma call_tool_reports_session_failure_witness :
  configured_server.call_tool Mock.config Mock.corrupt_state_world
    (mk_ToolRequest "get_course_grades" (mk_Arguments None None)) Mock.fresh
  = (Ok (mk_ToolResponse false None (Some "Expecting value: line 1 column 1 (char 0)")),
     mk_St [EvNewContext (Some "./state.json");
            EvLaunch 1000 ["--disable-web-security";
                           "--disable-features=VizDisplayCompositor"];
            EvStart] 0).
Proof.
  apply (call_tool_reports_session_failure Mock.config Mock.corrupt_state_world
           (mk_ToolRequest "get_course_grades" (mk_Arguments None None)) Mock.fresh
           (mk_St [EvNewContext (Some "./state.json");
                   EvLaunch 1000 ["--disable-web-security";
                                  "--disable-features=VizDisplayCompositor"];
                   EvStart] 0)
           (PyExn "JSONDecodeError" "Expecting value: line 1 column 1 (char 0)")).
  - right. reflexivity.
  - reflexivity.
Defined.

Lemma guarded_unit_run (body : M unit) (handler : exn -> M unit) (cleanup : M unit)
    (s : St) :
  (forall e s1, exists s2, handler e s1 = (Ok tt, s2)) ->
  (forall s1, exists s2, cleanup s1 = (Ok tt, s2)) ->
  exists s', try_finally (try_except body handler) cleanup s = (Ok tt, s')
             /\ snd (cleanup (snd (try_except body handler s))) = s'.
Proof.
  intros Hh Hc. unfold try_finally, try_except.
  destruct (body s) as [[[]|e] s1].
  - destruct (Hc s1) as (s2 & E). cbn [snd]. rewrite E. now exists s2.
  - destruct (Hh e s1) as (s2 & E). rewrite E. cbn [snd].
    destruct (Hc s2) as (s3 & E'). rewrite E'. now exists s3.
Qed.

(** Login in configured_server.py is fail-soft: when its page can be opened
    and closed, [ensure_login] returns normally whatever navigation, form
    filling, clicking or session saving do, and its last action closes the
    page. *)
Theorem configured_ensure_login_never_raises :
  forall (cfg : Config) (w : World) (context : BrowserContext) (s : St),
    respond w (st_history s) EvNewPage = Ok tt ->
    (forall h, respond w h EvClosePage = Ok tt) ->
    exists earlier ticks,
      configured_server.ensure_login cfg w context s
      = (Ok tt, mk_St (EvClosePage :: earlier) ticks).
Proof.
  intros cfg w context s Hnew Hclose. unfold configured_server.ensure_login.
  rewrite bind_act_Ok by exact Hnew.
  match goal with
  | |- context [try_finally (try_except ?body ?handler) ?cleanup ?st] =>
      destruct (guarded_unit_run body handler cleanup st) as (s' & Hrun & Hs')
  end.
  - intros e s1. now exists s1.
  - intros s1. unfold act. rewrite Hclose. eexists. reflexivity.
  - rewrite Hrun, <- Hs'. unfold act at 1. cbn [snd]. eexists. eexists. reflexivity.
Qed.

Lemma configured_ensure_login_witness :
  exists earlier ticks,
    configured_server.ensure_login Mock.config
      (Mock.portal (fun _ => Mock.blank_page) 0) (mk_BrowserContext None) Mock.fresh
    = (Ok tt, mk_St (EvClosePage :: earlier) ticks).
Proof.
  apply (configured_ensure_login_never_raises Mock.config
           (Mock.portal (fun _ => Mock.blank_page) 0) (mk_BrowserContext None)
           Mock.fresh);
    reflexivity.
Defined.

(** Login in improved_server.py is fail-soft as long as diagnostics work:
    when pages can be opened, captured and closed, [ensure_login] returns
    normally whatever the login form and the portal do, its last action
    closing the page. *)
Theorem improved_ensure_login_never_raises :
  forall (cfg : Config) (w : World) (context : BrowserContext) (s : St),
    respond w (st_history s) EvNewPage = Ok tt ->
    (forall h, respond w h (EvScreenshot "login_error.png") = Ok tt) ->
    (forall h, respond w h EvClosePage = Ok tt) ->
    exists earlier ticks,
      improved_server.ensure_login cfg w context s
      = (Ok tt, mk_St (EvClosePage :: earlier) ticks).
Proof.
  intros cfg w context s Hnew Hshot Hclose. unfold improved_server.ensure_login.
  rewrite bind_act_Ok by exact Hnew.
  match goal with
  | |- context [try_finally (try_except ?body ?handler) ?cleanup ?st] =>
      destruct (guarded_unit_run body handler cleanup st) as (s' & Hrun & Hs')
  end.
  - intros e s1. unfold act. rewrite Hshot. eexists. reflexivity.
  - intros s1. unfold act. rewrite Hclose. eexists. reflexivity.
  - rewrite Hrun, <- Hs'. unfold act at 1. cbn [snd]. eexists. eexists. reflexivity.
Qed.

Lemma improved_ensure_login_witness :
  exists earlier ticks,
    improved_server.ensure_login Mock.config
      (Mock.portal Mock.grades_site 0) (mk_BrowserContext None) Mock.fresh
    = (Ok tt, mk_St (EvClosePage :: earlier) ticks).
Proof.
  apply (improved_ensure_login_never_raises Mock.config
           (Mock.portal Mock.grades_site 0) (mk_BrowserContext None) Mock.fresh);
    reflexivity.
Defined.

(** The two scrapers of configured_server.py are fail-soft: when their page
    can be opened and closed they return a list, never an exception; a
    navigation failure, in particular, gives the empty list. *)
Theorem configured_scrapers_never_raise :
  forall (w : World) (context : BrowserContext) (course_filter : option string)
         (since_days : Z) (s : St),
    respond w (st_history s) EvNewPage = Ok tt ->
    (forall h, respond w h EvClosePage = Ok tt) ->
    (exists items s',
        configured_server.scrape_missing_assignments w context since_days s
        = (Ok items, s')
        /\ (forall e,
              respond w (EvNewPage :: st_history s)
                      (EvGoto configured_server.assignments_missing_url) = Raise e ->
              items = []))
    /\ (exists items s',
          configured_server.scrape_course_grades w context course_filter since_days s
          = (Ok items, s')).
Proof.
  intros w context course_filter since_days s Hnew Hclose.
  assert (Hc : forall s1, exists s2, act w EvClosePage s1 = (Ok tt, s2)).
  { intros s1. unfold act. rewrite Hclose. eexists. reflexivity. }
  split.
  - unfold configured_server.scrape_missing_assignments.
    rewrite bind_act_Ok by exact Hnew.
    match goal with
    | |- context [try_finally (try_except ?body _) ?cleanup ?st] =>
        destruct (guarded_list_run body cleanup st Hc) as (l & s' & Hrun & Hraise)
    end.
    exists l, s'. split; [exact Hrun|]. intros e Hgoto.
    eapply Hraise.
    apply (bind_act_Raise w _ _ (mk_St (EvNewPage :: st_history s) (st_ticks s)) e Hgoto).
  - unfold configured_server.scrape_course_grades.
    rewrite bind_act_Ok by exact Hnew.
    match goal with
    | |- context [try_finally (try_except ?body _) ?cleanup ?st] =>
        destruct (guarded_list_run body cleanup st Hc) as (l & s' & Hrun & _)
    end.
    exists l, s'. exact Hrun.
Qed.

Lemma configured_scrapers_witness :
  (exists items s',
      configured_server.scrape_missing_assignments
        (Mock.portal Mock.assignments_site Mock.noon_march_15_2024)
        (mk_BrowserContext None) 14 Mock.fresh
      = (Ok items, s')
      /\ (forall e,
            respond (Mock.portal Mock.assignments_site Mock.noon_march_15_2024)
                    (EvNewPage :: st_history Mock.fresh)
                    (EvGoto configured_server.assignments_missing_url) = Raise e ->
            items = []))
  /\ (exists items s',
        configured_server.scrape_course_grades
          (Mock.portal Mock.assignments_site Mock.noon_march_15_2024)
          (mk_BrowserContext None) (Some "Science") 14 Mock.fresh
        = (Ok items, s')).
Proof.
  apply (configured_scrapers_never_raise
           (Mock.portal Mock.assignments_site Mock.noon_march_15_2024)
           (mk_BrowserContext None) (Some "Science") 14 Mock.fresh);
    reflexivity.
Defined.

(** ** Probing the page *)

(** The login probe answers whether some listed marker is on the page: it
    never raises and changes nothing, a marker whose lookup fails counting
    as absent without ending the probe. *)
Theorem probe_indicators_finds_any_marker :
  forall (w : World) (indicators : list string) (s : St),
  exists found,
    configured_server.probe_indicators w indicators s = (Ok found, s)
    /\ improved_server.probe_indicators w indicators s = (Ok found, s)
    /\ (found = true <->
        exists indicator,
          In indicator indicators /\ matches (document w (st_history s)) indicator).
Proof.
  intros w indicators s. induction indicators as [|i rest IH]; simpl.
  - exists false. repeat split; try discriminate. intros (? & [] & _).
  - unfold bind at 1 3. unfold try_except, bind, count, query, ret.
    destruct (doc_count (document w (st_history s)) [Sel i]) as [[|n]|e] eqn:E;
      cbn [Nat.ltb Nat.leb].
    + destruct IH as (found & H1 & H2 & H3). exists found.
      split; [exact H1|]. split; [exact H2|]. rewrite H3. split.
      * intros (ind & Hin & Hm). exists ind. split; [now right | exact Hm].
      * intros (ind & [<- | Hin] & Hm); [|now exists ind].
        destruct Hm as [m Hm]. unfold matches in *. congruence.
    + exists true. repeat split; auto. intros _. exists i. split; [now left|].
      now exists n.
    + destruct IH as (found & H1 & H2 & H3). exists found.
      split; [exact H1|]. split; [exact H2|]. rewrite H3. split.
      * intros (ind & Hin & Hm). exists ind. split; [now right | exact Hm].
      * intros (ind & [<- | Hin] & Hm); [|now exists ind].
        destruct Hm as [m Hm]. congruence.
Qed.

(** The search for the data container returns the first listed selector
    that matches, all the earlier ones having been counted at zero; unlike
    the login probe it is not guarded, so a lookup that fails before any
    match ends the search with that exception. *)
Theorem first_matching_returns_first_match :
  forall (w : World) (selectors : list string) (s : St),
    (forall selector s',
        configured_server.first_matching w selectors s = (Ok (Some selector), s') <->
        s' = s
        /\ exists before after,
             selectors = before ++ selector :: after
             /\ matches (document w (st_history s)) selector
             /\ Forall (fun b => doc_count (document w (st_history s)) [Sel b] = Ok 0%nat)
                       before)
    /\ (forall e s',
          configured_server.first_matching w selectors s = (Raise e, s') <->
          s' = s
          /\ exists before failing after,
               selectors = before ++ failing :: after
               /\ doc_count (document w (st_history s)) [Sel failing] = Raise e
               /\ Forall (fun b => doc_count (document w (st_history s)) [Sel b]
                                   = Ok 0%nat) before).
Proof.
  intros w selectors s. induction selectors as [|sel rest [IHok IHraise]]; simpl.
  - split.
    + intros selector s'. split; [discriminate|].
      intros (_ & [|? ?] & ? & H & _); discriminate H.
    + intros e s'. split; [discriminate|].
      intros (_ & [|? ?] & ? & ? & H & _); discriminate H.
  - unfold bind, count, query, ret.
    destruct (doc_count (document w (st_history s)) [Sel sel]) as [[|n]|x] eqn:E;
      cbn [Nat.ltb Nat.leb]; split.
    + intros selector s'. rewrite IHok. split.
      * intros (-> & before & after & -> & Hm & Hb). split; [reflexivity|].
        exists (sel :: before), after. repeat split; auto.
      * intros (-> & [|b before] & after & Heq & Hm & Hb); simpl in Heq;
          inversion Heq; subst.
        -- destruct Hm as [m Hm]. congruence.
        -- split; [reflexivity|]. exists before, after. inversion Hb; subst. auto.
    + intros e s'. rewrite IHraise. split.
      * intros (-> & before & failing & after & -> & Hf & Hb). split; [reflexivity|].
        exists (sel :: before), failing, after. repeat split; auto.
      * intros (-> & [|b before] & failing & after & Heq & Hf & Hb); simpl in Heq;
          inversion Heq; subst.
        -- congruence.
        -- split; [reflexivity|]. exists before, failing, after.
           inversion Hb; subst. auto.
    + intros selector s'. split.
      * intros H. inversion H; subst. split; [reflexivity|].
        exists [], rest. repeat split; auto. now exists n.
      * intros (-> & [|b before] & after & Heq & Hm & Hb); simpl in Heq;
          inversion Heq; subst; [reflexivity|].
        inversion Hb; subst. congruence.
    + intros e s'. split; [discriminate|].
      intros (-> & [|b before] & failing & after & Heq & Hf & Hb); simpl in Heq;
        inversion Heq; subst; [congruence|].
      inversion Hb; subst. congruence.
    + intros selector s'. split; [discriminate|].
      intros (-> & [|b before] & after & Heq & Hm & Hb); simpl in Heq;
        inversion Heq; subst.
      * destruct Hm as [m Hm]. congruence.
      * inversion Hb; subst. congruence.
    + intros e s'. split.
      * intros H. inversion H; subst. split; [reflexivity|].
        exists [], sel, rest. repeat split; auto.
      * intros (-> & [|b before] & failing & after & Heq & Hf & Hb); simpl in Heq;
          inversion Heq; subst; [congruence|].
        inversion Hb; subst. congruence.
Qed.

(** ** The alias table *)

Lemma find_course_key_In (mapping : list (string * string)) (filter value : string) :
  configured_server.find_course_key mapping filter = Some value ->
  exists key, In (key, value) mapping.
Proof.
  induction mapping as [|[k v] mapping IH]; simpl; [discriminate|].
  destruct (PyStr.contains _ _).
  - intros H; inversion H; subst. exists k. now left.
  - intros H. destruct (IH H) as [key Hin]. exists key. now right.
Qed.

(** Every alias of the table leads to a class that has its page: the
    filter fails to resolve exactly when no alias key occurs in it, never
    because a class page is missing. *)
Theorem every_alias_has_a_class_page :
  forall filter,
    (configured_server.resolve_course filter = None <->
     configured_server.find_course_key configured_server.course_mapping filter = None)
    /\ (forall key url,
          configured_server.resolve_course filter = Some (key, url) ->
          configured_server.find_course_key configured_server.course_mapping filter
          = Some key
          /\ In (key, url) configured_server.classes).
Proof.
  intros filter. unfold configured_server.resolve_course.
  destruct (configured_server.find_course_key configured_server.course_mapping filter)
    as [key|] eqn:E.
  - destruct (find_course_key_In _ _ _ E) as [alias Hin].
    assert (Hkey : exists url, PyStr.truthy key = true
                               /\ configured_server.dict_get configured_server.classes key
                                  = Some url
                               /\ In (key, url) configured_server.classes).
    { simpl in Hin.
      repeat (destruct Hin as [Hin | Hin];
              [inversion Hin; subst; eexists; split; [reflexivity|];
               split; [vm_compute; reflexivity | simpl; tauto]|]).
      contradiction. }
    destruct Hkey as (url & Ht & Hurl & Hclass). rewrite Ht, Hurl. split.
    + split; discriminate.
    + intros key' url' H. inversion H; subst. auto.
  - split; [tauto|]. discriminate.
Qed.

Lemma lower_char_idempotent (c : ascii) :
  PyStr.lower_char (PyStr.lower_char c) = PyStr.lower_char c.
Proof.
  destruct c as [[] [] [] [] [] [] [] []]; reflexivity.
Qed.

Lemma lower_idempotent (s : string) : PyStr.lower (PyStr.lower s) = PyStr.lower s.
Proof.
  induction s as [|c s IH]; simpl; [reflexivity|].
  now rewrite lower_char_idempotent, IH.
Qed.

(** Alias resolution does not see the case of the filter: two filters with
    the same lower-cased text resolve alike, and a filter resolves as its
    lower-cased form does. *)
Theorem alias_resolution_ignores_case :
  forall (mapping : list (string * string)) (filter : string),
    (forall other,
        PyStr.lower other = PyStr.lower filter ->
        configured_server.find_course_key mapping other
        = configured_server.find_course_key mapping filter)
    /\ configured_server.find_course_key mapping (PyStr.lower filter)
       = configured_server.find_course_key mapping filter.
Proof.
  intros mapping filter.
  assert (H : forall other, PyStr.lower other = PyStr.lower filter ->
                            configured_server.find_course_key mapping other
                            = configured_server.find_course_key mapping filter).
  { intros other Heq. induction mapping as [|[k v] mapping IH]; simpl; [reflexivity|].
    now rewrite Heq, IH. }
  split; [exact H|]. apply H, lower_idempotent.
Qed.

Lemma string_app_assoc (a b c : string) :
  ((a ++ b) ++ c)%string = (a ++ b ++ c)%string.
Proof. induction a as [|x a IH]; simpl; [reflexivity | now rewrite IH]. Qed.

Lemma occurs_in_trans (a b c : string) :
  occurs_in a b -> occurs_in b c -> occurs_in a c.
Proof.
  intros (p1 & q1 & ->) (p2 & q2 & ->).
  exists (p2 ++ p1)%string, (q1 ++ q2)%string.
  now rewrite !string_app_assoc.
Qed.

(** An entry listed after an entry whose key occurs in its own key never
    decides a resolution. *)
Lemma find_course_key_shadowed (before after : list (string * string))
    (k1 v1 k2 v2 filter : string) :
  In (k1, v1) before ->
  occurs_in (PyStr.lower k1) (PyStr.lower k2) ->
  configured_server.find_course_key (before ++ (k2, v2) :: after) filter
  = configured_server.find_course_key (before ++ after) filter.
Proof.
  intros Hin Hocc. induction before as [|[k v] before IH]; [contradiction|].
  simpl. destruct (PyStr.contains (PyStr.lower k) (PyStr.lower filter)) eqn:E;
    [reflexivity|].
  destruct Hin as [Heq | Hin].
  - inversion Heq; subst k v. clear IH.
    assert (Hk2 : PyStr.contains (PyStr.lower k2) (PyStr.lower filter) = false).
    { apply contains_false_spec. intros H2. apply contains_false_spec in E.
      apply E. eapply occurs_in_trans; eassumption. }
    induction before as [|[k v] before IH]; simpl.
    + now rewrite Hk2.
    + now rewrite IH.
  - now apply IH.
Qed.

(** Three entries of the alias table are dead: "language" and "literature"
    come after "lang" and "lit", "pre-algebra" after "algebra", which occur
    in them; resolution is the same without them. *)
Theorem alias_table_has_three_dead_entries :
  forall filter,
    configured_server.find_course_key configured_server.course_mapping filter
    = configured_server.find_course_key core_aliases filter.
Proof.
  intros filter. unfold configured_server.course_mapping, core_aliases.
  change (configured_server.find_course_key
            ([("individuals", "individuals_and_societies");
              ("societies", "individuals_and_societies");
              ("lang", "lang_lit"); ("lit", "lang_lit")]
             ++ ("language", "lang_lit")
                :: [("literature", "lang_lit"); ("science", "science");
                    ("spanish", "spanish_2"); ("math", "pre_algebra");
                    ("algebra", "pre_algebra"); ("pre-algebra", "pre_algebra")])
            filter
          = configured_server.find_course_key
              [("individuals", "individuals_and_societies");
               ("societies", "individuals_and_societies");
               ("lang", "lang_lit"); ("lit", "lang_lit");
               ("science", "science"); ("spanish", "spanish_2");
               ("math", "pre_algebra"); ("algebra", "pre_algebra")]
              filter).
  rewrite (find_course_key_shadowed _ _ "lang" "lang_lit");
    [|simpl; tauto | exists "", "uage"; reflexivity].
  change (configured_server.find_course_key
            ([("individuals", "individuals_and_societies");
              ("societies", "individuals_and_societies");
              ("lang", "lang_lit"); ("lit", "lang_lit")]
             ++ ("literature", "lang_lit")
                :: [("science", "science"); ("spanish", "spanish_2");
                    ("math", "pre_algebra"); ("algebra", "pre_algebra");
                    ("pre-algebra", "pre_algebra")])
            filter
          = configured_server.find_course_key
              [("individuals", "individuals_and_societies");
               ("societies", "individuals_and_societies");
               ("lang", "lang_lit"); ("lit", "lang_lit");
               ("science", "science"); ("spanish", "spanish_2");
               ("math", "pre_algebra"); ("algebra", "pre_algebra")]
              filter).
  rewrite (find_course_key_shadowed _ _ "lit" "lang_lit");
    [|simpl; tauto | exists "", "erature"; reflexivity].
  change (configured_server.find_course_key
            ([("individuals", "individuals_and_societies");
              ("societies", "individuals_and_societies");
              ("lang", "lang_lit"); ("lit", "lang_lit");
              ("science", "science"); ("spanish", "spanish_2");
              ("math", "pre_algebra"); ("algebra", "pre_algebra")]
             ++ ("pre-algebra", "pre_algebra") :: [])
            filter
          = configured_server.find_course_key
              [("individuals", "individuals_and_societies");
               ("societies", "individuals_and_societies");
               ("lang", "lang_lit"); ("lit", "lang_lit");
               ("science", "science"); ("spanish", "spanish_2");
               ("math", "pre_algebra"); ("algebra", "pre_algebra")]
              filter).
  rewrite (find_course_key_shadowed _ _ "algebra" "pre_algebra");
    [|simpl; tauto | exists "pre-", ""; reflexivity].
  reflexivity.
Qed.

(** ** Grades without a course filter *)

(** With no course filter, or an empty one, the one navigation of the grade
    scrape is to the grades overview, and every grade it returns is filed
    under the course name "Overview", whatever course the row belongs to. *)
Theorem unfiltered_grades_are_filed_under_overview :
  forall (w : World) (context : BrowserContext) (course_filter : option string)
         (since_days : Z) (cutoff : PyDatetime.datetime) (s : St),
    course_filter = None \/ course_filter = Some "" ->
    respond w (st_history s) EvNewPage = Ok tt ->
    PyDatetime.sub_days (clock w (st_ticks s)) since_days = Ok cutoff ->
    gotos (st_history (snd (configured_server.scrape_course_grades w context
                              course_filter since_days s)))
    = configured_server.grades_overview_url :: gotos (st_history s)
    /\ forall items s',
         configured_server.scrape_course_grades w context course_filter since_days s
         = (Ok items, s') ->
         Forall (fun g => gs_course g = "Overview") items.
Proof.
  intros w context course_filter since_days cutoff s Hfilter Hpage Hcut.
  assert (Hgiven : configured_server.given course_filter = None)
    by (destruct Hfilter as [-> | ->]; reflexivity).
  split.
  - unfold configured_server.scrape_course_grades.
    rewrite (bind_act_Ok _ _ _ _ Hpage), snd_try_finally.
    rewrite same_gotos_eq by auto with respects.
    rewrite try_except_same_gotos by auto with respects.
    rewrite bind_now. cbn [st_ticks st_history]. rewrite (bind_lift_Ok _ _ _ _ Hcut).
    rewrite Hgiven. rewrite goto_then; [reflexivity|].
    intros u. pose proof (wait_for_page_load_same_gotos w).
    pose proof (extract_grades_same_gotos w).
    auto 10 with respects.
  - intros items s' Hrun. unfold configured_server.scrape_course_grades in Hrun.
    rewrite Hgiven in Hrun. run_inv.
    match goal with
    | Hx : try_except _ _ _ = _ |- _ =>
        apply try_except_Ok in Hx; destruct Hx as [Hb | (e & s2 & _ & Hb)]
    end; [|run_inv; constructor].
    run_inv. simpl.
    match goal with
    | Hx : configured_server.extract_grades_from_page _ _ _ _ = _ |- _ =>
        apply extract_grades_kept in Hx; eapply Forall_impl; [|exact Hx]
    end.
    intros g [Hg _]. exact Hg.
Qed.

Lemma unfiltered_grades_witness :
  gotos (st_history (snd (configured_server.scrape_course_grades
                            (Mock.portal Mock.grades_site Mock.noon_march_15_2024)
                            (mk_BrowserContext None) (Some "") 14 Mock.fresh)))
  = [configured_server.grades_overview_url]
  /\ Forall (fun g => gs_course g = "Overview")
       [mk_GradeSample "Overview" 63845971200000000 (Some (FloatOf "91"))].
Proof.
  destruct (unfiltered_grades_are_filed_under_overview
              (Mock.portal Mock.grades_site Mock.noon_march_15_2024)
              (mk_BrowserContext None) (Some "") 14
              (Mock.noon_march_15_2024 - 14 * PyDatetime.MICROS_PER_DAY) Mock.fresh)
    as [Hgoto Hitems].
  - right. reflexivity.
  - reflexivity.
  - reflexivity.
  - split; [exact Hgoto|].
    apply (Hitems _ (mk_St [EvClosePage; EvScreenshot "grades_overview_debug.png";
                            EvWaitLoad 10000;
                            EvGoto configured_server.grades_overview_url; EvNewPage] 2)).
    vm_compute. reflexivity.
Defined.

(** ** server.py *)

(** In server.py too the context is closed last once acquired; but nothing
    there contains a failure: an exception of the login reaches the caller
    of the handler, after the context is closed. *)
Theorem server_handler_closes_context_and_propagates :
  forall (cfg : Config) (w : World) (name : string) (args : Arguments_) (s s1 : St)
         (context : BrowserContext),
    name = "check_missing_assignments" \/ name = "get_course_grades" ->
    server.get_context cfg w s = (Ok context, s1) ->
    (exists earlier,
        st_history (snd (server.handle_call_tool cfg w name args s))
        = EvCloseContext :: earlier)
    /\ (forall e s2,
          server.ensure_login cfg w context s1 = (Raise e, s2) ->
          respond w (st_history s2) EvCloseContext = Ok tt ->
          server.handle_call_tool cfg w name args s
          = (Raise e, mk_St (EvCloseContext :: st_history s2) (st_ticks s2))).
Proof.
  intros cfg w name args s s1 context Hname Hctx. unfold server.handle_call_tool.
  destruct Hname as [-> | ->]; cbn [String.eqb Ascii.eqb Bool.eqb];
    rewrite (bind_run _ _ _ _ _ Hctx).
  - split.
    + rewrite snd_try_finally. eexists. reflexivity.
    + intros e s2 Hlogin Hclose. unfold try_finally, bind at 1. rewrite Hlogin.
      unfold act. rewrite Hclose. reflexivity.
  - split.
    + rewrite snd_try_finally. eexists. reflexivity.
    + intros e s2 Hlogin Hclose. unfold try_finally, bind at 1. rewrite Hlogin.
      unfold act. rewrite Hclose. reflexivity.
Qed.

Lemma server_handler_witness :
  exists earlier,
    st_history (snd (server.handle_call_tool Mock.config
                       (Mock.portal Mock.assignments_site Mock.noon_march_15_2024)
                       "get_course_grades" (mk_Arguments None None) Mock.fresh))
    = EvCloseContext :: earlier.
Proof.
  apply (server_handler_closes_context_and_propagates Mock.config
           (Mock.portal Mock.assignments_site Mock.noon_march_15_2024)
           "get_course_grades" (mk_Arguments None None) Mock.fresh
           (mk_St [EvNewContext None; EvLaunch 0 []; EvStart] 0)
           (mk_BrowserContext None)).
  - right. reflexivity.
  - reflexivity.
Defined.

Lemma server_assignment_rows_kept (w : World) (rows : Locator)
    (cutoff : PyDatetime.datetime) (indices : list nat) :
  forall items s l s',
    Forall (fun a => status a = "missing" /\ undated_or_recent cutoff a) items ->
    server.assignment_rows w rows cutoff indices items s = (Ok l, s') ->
    Forall (fun a => status a = "missing" /\ undated_or_recent cutoff a) l.
Proof.
  induction indices as [|i rest IH]; intros items s l s' Hitems H; simpl in H.
  - run_inv. exact Hitems.
  - run_inv. cbv zeta in H. eapply IH; [|exact H].
    match goal with
    | |- Forall _ (if ?keep then _ else _) => destruct keep eqn:Hkeep
    end; [|exact Hitems].
    apply andb_true_iff in Hkeep. destruct Hkeep as [_ Hdue].
    apply Forall_app. split; [exact Hitems|]. constructor; [|constructor].
    split; [reflexivity|]. unfold undated_or_recent. simpl.
    destruct (server.strptime_or_none _) as [d|]; [|now left].
    right. exists d. split; [reflexivity|]. now apply Z.leb_le.
Qed.

(** The assignment scraper of server.py returns only assignments marked
    "missing" whose due date is absent or not before the cutoff, the cutoff
    being the clock reading of the call minus [since_days] days. *)
Theorem server_assignments_are_missing_and_recent :
  forall (cfg : Config) (w : World) (context : BrowserContext) (since_days : Z)
         (s s' : St) (items : list Assignment),
    server.scrape_missing_assignments cfg w context since_days s = (Ok items, s') ->
    Forall (fun a =>
              status a = "missing"
              /\ undated_or_recent
                   (clock w (st_ticks s) - since_days * PyDatetime.MICROS_PER_DAY) a)
           items.
Proof.
  intros cfg w context since_days s s' items H.
  unfold server.scrape_missing_assignments in H. run_inv.
  match goal with
  | Hx : count _ _ _ = _ |- _ =>
      unfold count in Hx; apply query_Ok in Hx; destruct Hx as [_ ->]
  end.
  run_inv.
  match goal with
  | Hx : (PyDatetime.sub_days _ _, _) = (Ok _, _) |- _ =>
      inversion Hx as [[Hcut Hs]]; clear Hx; apply sub_days_Ok in Hcut;
      cbn [st_ticks] in Hcut
  end.
  rewrite <- Hcut.
  match goal with
  | Hx : server.assignment_rows _ _ _ _ _ _ = _ |- _ =>
      apply server_assignment_rows_kept in Hx; [exact Hx | constructor]
  end.
Qed.

Lemma server_history_rows_kept (w : World) (course_filter : option string)
    (course_ : string) (rows : Locator) (cutoff : PyDatetime.datetime)
    (indices : list nat) :
  passes_filter course_filter course_ ->
  forall samples s l s',
    Forall (fun g => cutoff <= gs_date g
                     /\ passes_filter course_filter (gs_course g)
                     /\ exists text, PyStrptime.strptime text "%b %d, %Y"
                                     = Ok (gs_date g)) samples ->
    server.history_rows w course_ rows cutoff indices samples s = (Ok l, s') ->
    Forall (fun g => cutoff <= gs_date g
                     /\ passes_filter course_filter (gs_course g)
                     /\ exists text, PyStrptime.strptime text "%b %d, %Y"
                                     = Ok (gs_date g)) l.
Proof.
  intros Hcourse. induction indices as [|j rest IH]; intros samples s l s' Hs H;
    simpl in H.
  - run_inv. exact Hs.
  - run_inv.
    match goal with
    | Hx : match PyStrptime.strptime ?text _ with _ => _ end _ = _ |- _ =>
        destruct (PyStrptime.strptime text "%b %d, %Y") as [dt|e] eqn:Hparse
    end; [|eapply IH; eassumption].
    destruct (dt <? cutoff) eqn:Hold; [eapply IH; eassumption|].
    eapply IH; [|exact H].
    apply Forall_app. split; [exact Hs|]. constructor; [|constructor].
    simpl. split; [now apply Z.ltb_ge|]. split; [exact Hcourse|]. eauto.
Qed.

Lemma server_course_cards_kept (w : World) (course_filter : option string)
    (courses : Locator) (cutoff : PyDatetime.datetime) (indices : list nat) :
  forall samples s l s',
    Forall (fun g => cutoff <= gs_date g
                     /\ passes_filter course_filter (gs_course g)
                     /\ exists text, PyStrptime.strptime text "%b %d, %Y"
                                     = Ok (gs_date g)) samples ->
    server.course_cards w courses course_filter cutoff indices samples s = (Ok l, s') ->
    Forall (fun g => cutoff <= gs_date g
                     /\ passes_filter course_filter (gs_course g)
                     /\ exists text, PyStrptime.strptime text "%b %d, %Y"
                                     = Ok (gs_date g)) l.
Proof.
  induction indices as [|i rest IH]; intros samples s l s' Hs H; simpl in H.
  - run_inv. exact Hs.
  - run_inv. cbv zeta in H.
    match goal with
    | Hx : (if ?skip then _ else _) _ = _ |- _ => destruct skip eqn:Hskip
    end; [eapply IH; eassumption|].
    run_inv. eapply IH; [|exact H].
    eapply server_history_rows_kept; [|exact Hs|eassumption].
    intros f -> Htruthy. rewrite Htruthy in Hskip. cbn [andb] in Hskip.
    apply negb_false_iff in Hskip. now apply contains_spec.
Qed.

(** The grade scraper of server.py returns only grades whose date text was
    parsed as "Mon DD, YYYY" and is not before the cutoff (a row with any
    other date text is dropped, not dated "now"), from courses whose name
    contains the filter, case apart, when a non-empty filter is given. *)
Theorem server_grades_are_dated_recent_and_filtered :
  forall (cfg : Config) (w : World) (context : BrowserContext)
         (course_filter : option string) (since_days : Z) (s s' : St)
         (items : list GradeSample),
    server.scrape_course_grades cfg w context course_filter since_days s
    = (Ok items, s') ->
    Forall (fun g =>
              clock w (st_ticks s) - since_days * PyDatetime.MICROS_PER_DAY <= gs_date g
              /\ passes_filter course_filter (gs_course g)
              /\ exists text, PyStrptime.strptime text "%b %d, %Y" = Ok (gs_date g))
           items.
Proof.
  intros cfg w context course_filter since_days s s' items H.
  unfold server.scrape_course_grades in H. run_inv.
  match goal with
  | Hx : count _ _ _ = _ |- _ =>
      unfold count in Hx; apply query_Ok in Hx; destruct Hx as [_ ->]
  end.
  run_inv.
  match goal with
  | Hx : (PyDatetime.sub_days _ _, _) = (Ok _, _) |- _ =>
      inversion Hx as [[Hcut Hs]]; clear Hx; apply sub_days_Ok in Hcut;
      cbn [st_ticks] in Hcut
  end.
  rewrite <- Hcut.
  match goal with
  | Hx : server.course_cards _ _ _ _ _ _ _ = _ |- _ =>
      apply server_course_cards_kept in Hx; [exact Hx | constructor]
  end.
Qed.

Lemma server_assignments_witness :
  Forall (fun a =>
            status a = "missing"
            /\ undated_or_recent
                 (Mock.noon_march_15_2024 - 14 * PyDatetime.MICROS_PER_DAY) a)
    [mk_Assignment "Essay draft" "Lang Lit" (Some 63846230400000000) "missing"
                   None None None;
     mk_Assignment "Poster" "Spanish 2" None "missing" None None None].
Proof.
  apply (server_assignments_are_missing_and_recent Mock.config
           MockServer.assignments_portal (mk_BrowserContext None) 14 Mock.fresh
           (snd (server.scrape_missing_assignments Mock.config
                   MockServer.assignments_portal (mk_BrowserContext None) 14
                   Mock.fresh))).
  vm_compute. reflexivity.
Defined.

Lemma server_grades_witness :
  Forall (fun g =>
            Mock.noon_march_15_2024 - 14 * PyDatetime.MICROS_PER_DAY <= gs_date g
            /\ passes_filter (Some "ALGEBRA") (gs_course g)
            /\ exists text, PyStrptime.strptime text "%b %d, %Y" = Ok (gs_date g))
    [mk_GradeSample "Pre-Algebra" 63845798400000000 (Some (FloatOf "85.5"))].
Proof.
  apply (server_grades_are_dated_recent_and_filtered Mock.config
           MockServer.grades_portal (mk_BrowserContext None) (Some "ALGEBRA") 14
           Mock.fresh
           (snd (server.scrape_course_grades Mock.config MockServer.grades_portal
                   (mk_BrowserContext None) (Some "ALGEBRA") 14 Mock.fresh))).
  vm_compute. reflexivity.
Defined.

(** ** White space around a date *)

Lemma rstrip_idempotent (s : string) : PyStr.rstrip (PyStr.rstrip s) = PyStr.rstrip s.
Proof.
  induction s as [|c r IH]; [reflexivity|].
  cbn [PyStr.rstrip]. destruct (PyStr.rstrip r) as [|c' r'] eqn:E.
  - destruct (PyStr.is_space c) eqn:Hc; [reflexivity|].
    cbn [PyStr.rstrip]. now rewrite Hc.
  - cbn [PyStr.rstrip]. cbn [PyStr.rstrip] in IH. rewrite IH. reflexivity.
Qed.

Lemma lstrip_head (s : string) :
  PyStr.lstrip s = EmptyString
  \/ exists c r, PyStr.lstrip s = String c r /\ PyStr.is_space c = false.
Proof.
  induction s as [|c r IH]; [now left|].
  cbn [PyStr.lstrip]. destruct (PyStr.is_space c) eqn:Hc; [exact IH|].
  right. now exists c, r.
Qed.

Lemma lstrip_rstrip_lstrip (s : string) :
  PyStr.lstrip (PyStr.rstrip (PyStr.lstrip s)) = PyStr.rstrip (PyStr.lstrip s).
Proof.
  destruct (lstrip_head s) as [-> | (c & r & -> & Hc)]; [reflexivity|].
  cbn [PyStr.rstrip]. destruct (PyStr.rstrip r) as [|c' r'].
  - rewrite Hc. cbn [PyStr.lstrip]. now rewrite Hc.
  - cbn [PyStr.lstrip]. now rewrite Hc.
Qed.

Lemma strip_idempotent (s : string) : PyStr.strip (PyStr.strip s) = PyStr.strip s.
Proof.
  unfold PyStr.strip. now rewrite lstrip_rstrip_lstrip, rstrip_idempotent.
Qed.

(** The white space stripped is that of [str.strip]: a date cell padded
    with a no-break space and closed by a next-line character is read as the
    bare date. *)
Example padded_date_is_read :
  parse_due_date (Some (String (ascii_of_nat 160) "01/05/2024"
                        ++ String (ascii_of_nat 133) EmptyString)%string)
  = parse_due_date (Some "01/05/2024")
  /\ parse_due_date (Some "01/05/2024") = Some 63840009600000000.
Proof. vm_compute. split; reflexivity. Qed.

(** White space around the text of a date cell plays no part: the parsed
    due date, and the parsed grade date, are those of the stripped text; a
    cell holding only white space has no date. *)
Theorem date_parsing_ignores_surrounding_space :
  forall (text : string) (now_ : PyDatetime.datetime),
    parse_due_date (Some (PyStr.strip text)) = parse_due_date (Some text)
    /\ parse_grade_date now_ (Some (PyStr.strip text)) = parse_grade_date now_ (Some text)
    /\ (PyStr.strip text = EmptyString -> parse_due_date (Some text) = None).
Proof.
  intros text now_.
  assert (Hfirst : forall t, first_format (PyStr.strip t) date_formats
                             = first_format t date_formats).
  { intros t. unfold date_formats. cbn [first_format]. now rewrite strip_idempotent. }
  assert (Hempty : forall t, PyStr.strip t = EmptyString ->
                             first_format t date_formats = None).
  { intros t Ht. unfold date_formats. cbn [first_format]. rewrite Ht. reflexivity. }
  assert (Hdue : parse_due_date (Some (PyStr.strip text)) = parse_due_date (Some text)).
  { unfold parse_due_date. rewrite Hfirst.
    destruct (PyStr.strip text) as [|c r] eqn:E.
    - cbn [PyStr.truthy]. rewrite (Hempty _ E). now destruct (PyStr.truthy text).
    - cbn [PyStr.truthy]. destruct text as [|c' r']; [discriminate E | reflexivity]. }
  split; [exact Hdue|]. split.
  - unfold parse_grade_date. now rewrite Hdue.
  - intros E. unfold parse_due_date. rewrite (Hempty _ E).
    now destruct (PyStr.truthy text).
Qed.

(** ** The percentage of a grade *)

Lemma take_digits_spec (s : string) :
  forall ds rest,
    take_digits s = (ds, rest) ->
    s = (ds ++ rest)%string /\ all_chars PyStr.is_digit ds = true.
Proof.
  induction s as [|c r IH]; intros ds rest H; cbn [take_digits] in H.
  - inversion H; subst. split; reflexivity.
  - destruct (PyStr.is_digit c) eqn:Hc.
    + destruct (take_digits r) as [ds' rest'] eqn:E. inversion H; subst.
      destruct (IH _ _ eq_refl) as [-> Hall]. split; [reflexivity|].
      cbn [all_chars]. now rewrite Hc, Hall.
    + inversion H; subst. split; reflexivity.
Qed.

Lemma all_chars_app (p : ascii -> bool) (a b : string) :
  all_chars p (a ++ b) = all_chars p a && all_chars p b.
Proof.
  induction a as [|c r IH]; [reflexivity|].
  cbn [append all_chars]. now rewrite IH, andb_assoc.
Qed.

Lemma all_chars_impl (p q : ascii -> bool) (s : string) :
  (forall c, p c = true -> q c = true) ->
  all_chars p s = true -> all_chars q s = true.
Proof.
  intros Hpq. induction s as [|c r IH]; [reflexivity|].
  cbn [all_chars]. intros H. apply andb_true_iff in H. destruct H as [Hc Hr].
  now rewrite (Hpq c Hc), (IH Hr).
Qed.

Lemma strip_no_space (s : string) :
  all_chars (fun c => negb (PyStr.is_space c)) s = true -> PyStr.strip s = s.
Proof.
  intros H. unfold PyStr.strip.
  assert (Hl : PyStr.lstrip s = s).
  { destruct s as [|c r]; [reflexivity|]. cbn [all_chars] in H.
    apply andb_true_iff in H. destruct H as [Hc _]. apply negb_true_iff in Hc.
    cbn [PyStr.lstrip]. now rewrite Hc. }
  rewrite Hl. induction s as [|c r IH]; [reflexivity|].
  cbn [all_chars] in H. apply andb_true_iff in H. destruct H as [Hc Hr].
  apply negb_true_iff in Hc. cbn [PyStr.rstrip].
  rewrite IH; [|exact Hr|].
  - rewrite Hc. now destruct r.
  - destruct r as [|c' r']; [reflexivity|]. cbn [all_chars] in Hr.
    apply andb_true_iff in Hr. destruct Hr as [Hc' _]. apply negb_true_iff in Hc'.
    cbn [PyStr.lstrip]. now rewrite Hc'.
Qed.

Lemma after_digit_digits (ds rest : string) :
  all_chars PyStr.is_digit ds = true ->
  PyFloat.after_digit (ds ++ rest) = PyFloat.after_digit rest.
Proof.
  induction ds as [|c r IH]; intros H; [reflexivity|].
  cbn [all_chars] in H. apply andb_true_iff in H. destruct H as [Hc Hr].
  cbn [append PyFloat.after_digit]. rewrite Hc. now apply IH.
Qed.

Lemma after_digit_all (ds : string) :
  all_chars PyStr.is_digit ds = true -> PyFloat.after_digit ds = EmptyString.
Proof.
  intros H. induction ds as [|c r IH]; [reflexivity|].
  cbn [all_chars] in H. apply andb_true_iff in H. destruct H as [Hc Hr].
  cbn [PyFloat.after_digit]. rewrite Hc. now apply IH.
Qed.

Lemma digitpart_digits (ds : string) :
  all_chars PyStr.is_digit ds = true ->
  PyFloat.digitpart ds = match ds with EmptyString => None | _ => Some EmptyString end.
Proof.
  intros H. destruct ds as [|c r]; [reflexivity|].
  cbn [all_chars] in H. apply andb_true_iff in H. destruct H as [Hc Hr].
  unfold PyFloat.digitpart. now rewrite Hc, (after_digit_all r Hr).
Qed.

(** The shape of what [re.findall] finds first: digits, then possibly a
    point and further digits. *)
Lemma first_number_shape (text numeral : string) :
  first_number text = Some numeral ->
  occurs_in numeral text
  /\ exists c ds tail,
       numeral = String c (ds ++ tail)
       /\ PyStr.is_digit c = true
       /\ all_chars PyStr.is_digit ds = true
       /\ (tail = EmptyString
           \/ exists frac, tail = String "." frac
                            /\ all_chars PyStr.is_digit frac = true).
Proof.
  induction text as [|c r IH]; cbn [first_number]; [discriminate|].
  destruct (PyStr.is_digit c) eqn:Hc.
  - cbn [take_digits]. rewrite Hc.
    destruct (take_digits r) as [ds rest] eqn:E.
    destruct (take_digits_spec _ _ _ E) as [-> Hds].
    assert (Hplain : forall post,
               occurs_in (String c ds) (String c (ds ++ post))
               /\ exists c0 ds0 tail,
                    String c ds = String c0 (ds0 ++ tail)
                    /\ PyStr.is_digit c0 = true
                    /\ all_chars PyStr.is_digit ds0 = true
                    /\ (tail = EmptyString
                        \/ exists frac, tail = String "." frac
                                         /\ all_chars PyStr.is_digit frac = true)).
    { intros post. split.
      - exists EmptyString, post. reflexivity.
      - exists c, ds, EmptyString. split.
        + f_equal. clear. induction ds as [|x ds IH]; [reflexivity|].
          cbn [append]. now rewrite <- IH.
        + auto. }
    destruct rest as [|a rest']; [intros H; inversion H; subst; apply Hplain|].
    destruct (ascii_dec a ".") as [-> | Hne].
    + destruct (take_digits rest') as [frac rest''] eqn:E'.
      destruct (take_digits_spec _ _ _ E') as [-> Hfrac].
      intros H. inversion H; subst. split.
      * exists EmptyString, rest''. cbn [append]. f_equal.
        rewrite string_app_assoc. reflexivity.
      * exists c, ds, (String "." frac). repeat split; auto.
        right. now exists frac.
    + intros H.
      assert (Hn : numeral = String c ds).
      { destruct a as [[] [] [] [] [] [] [] []]; try (now inversion H);
          exfalso; apply Hne; reflexivity. }
      subst numeral. apply Hplain.
  - intros H. destruct (IH H) as [(before & after & ->) Hshape]. split; [|exact Hshape].
    exists (String c before), after. reflexivity.
Qed.

Lemma numeral_is_literal (c : ascii) (ds tail : string) :
  PyStr.is_digit c = true ->
  all_chars PyStr.is_digit ds = true ->
  (tail = EmptyString
   \/ exists frac, tail = String "." frac /\ all_chars PyStr.is_digit frac = true) ->
  PyFloat.is_literal (String c (ds ++ tail)) = true.
Proof.
  intros Hc Hds Htail. unfold PyFloat.is_literal.
  assert (Hnospace : all_chars (fun x => negb (PyStr.is_space x)) (String c (ds ++ tail))
                     = true).
  { assert (Hd : forall x, PyStr.is_digit x = true -> negb (PyStr.is_space x) = true).
    { intros x Hx. destruct x as [[] [] [] [] [] [] [] []]; try discriminate Hx;
        reflexivity. }
    cbn [all_chars]. rewrite (Hd c Hc), all_chars_app.
    rewrite (all_chars_impl _ _ _ Hd Hds). cbn [andb].
    destruct Htail as [-> | (frac & -> & Hfrac)]; [reflexivity|].
    cbn [all_chars]. now rewrite (all_chars_impl _ _ _ Hd Hfrac). }
  rewrite (strip_no_space _ Hnospace).
  assert (Hnum : PyFloat.number (String c (ds ++ tail)) = Some EmptyString).
  { unfold PyFloat.number, PyFloat.digitpart at 1. rewrite Hc.
    rewrite (after_digit_digits _ _ Hds).
    destruct Htail as [-> | (frac & -> & Hfrac)]; [reflexivity|].
    cbn [PyFloat.after_digit Ascii.eqb Bool.eqb].
    change (PyStr.is_digit ".") with false. cbn iota.
    rewrite (digitpart_digits _ Hfrac). now destruct frac. }
  destruct c as [[] [] [] [] [] [] [] []]; try discriminate Hc;
    cbn [PyFloat.sign]; cbn [PyFloat.sign] in Hnum; rewrite Hnum; reflexivity.
Qed.

(** A grade text has a percentage exactly when it holds a decimal digit;
    the percentage is then read from a numeral that occurs in the text and
    that [float] always accepts, so that the conversion cannot fail. *)
Theorem grade_percent_is_read_from_the_first_number :
  forall text,
    (parse_grade_percent text = None <->
     all_chars (fun c => negb (PyStr.is_digit c)) text = true)
    /\ (forall numeral,
          parse_grade_percent text = Some (FloatOf numeral) ->
          occurs_in numeral text /\ PyFloat.of_text numeral = Ok (FloatOf numeral)).
Proof.
  intros text. split.
  - unfold parse_grade_percent.
    assert (H : first_number text = None
                <-> all_chars (fun c => negb (PyStr.is_digit c)) text = true).
    { induction text as [|c r IH]; cbn [first_number all_chars]; [tauto|].
      destruct (PyStr.is_digit c) eqn:Hc; cbn [negb andb]; [|exact IH].
      split; [|discriminate].
      destruct (first_number (String c r)) as [n|] eqn:E.
      - cbn [first_number] in E. rewrite Hc in E. rewrite E. discriminate.
      - cbn [first_number] in E. rewrite Hc in E. rewrite E. 
        destruct (take_digits (String c r)) as [ip rest].
        destruct rest as [|a rest']; [discriminate E|].
        destruct a as [[] [] [] [] [] [] [] []]; try discriminate E;
          destruct (take_digits rest'); discriminate E. }
    destruct text as [|c r]; [cbn; tauto|]. cbn [PyStr.truthy].
    rewrite <- H. destruct (first_number (String c r)); split; intros; congruence.
  - intros numeral H. unfold parse_grade_percent in H.
    destruct (PyStr.truthy text); [|discriminate H].
    destruct (first_number text) as [n|] eqn:E; [|discriminate H].
    inversion H; subst n.
    destruct (first_number_shape _ _ E) as (Hocc & c & ds & tail & -> & Hc & Hds & Htail).
    split; [exact Hocc|].
    pose proof (numeral_is_literal c ds tail Hc Hds Htail) as Hlit.
    unfold PyFloat.of_text. rewrite Hlit. f_equal. f_equal.
    unfold PyFloat.is_literal in Hlit.
    apply strip_no_space.
    assert (Hd : forall x, PyStr.is_digit x = true -> negb (PyStr.is_space x) = true).
    { intros x Hx. destruct x as [[] [] [] [] [] [] [] []]; try discriminate Hx;
        reflexivity. }
    cbn [all_chars]. rewrite (Hd c Hc), all_chars_app.
    rewrite (all_chars_impl _ _ _ Hd Hds). cbn [andb].
    destruct Htail as [-> | (frac & -> & Hfrac)]; [reflexivity|].
    cbn [all_chars]. now rewrite (all_chars_impl _ _ _ Hd Hfrac).
Qed.

(** ** Bounds of the grade extraction *)

Lemma first_matching_stays (w : World) (selectors : list string) (s : St) :
  snd (configured_server.first_matching w selectors s) = s.
Proof.
  symmetry. apply (first_matching_respects eq w selectors s).
Qed.

(** Grades are read from a table only: on a page where no table selector
    matches, the extraction returns the empty list and leaves the browser
    and the clock untouched. *)
Theorem grades_need_a_table :
  forall (w : World) (course_name : string) (cutoff : PyDatetime.datetime) (s : St),
    (forall sel, In sel configured_server.table_selectors_grades ->
                 ~ matches (document w (st_history s)) sel) ->
    configured_server.extract_grades_from_page w course_name cutoff s = (Ok [], s).
Proof.
  intros w course_name cutoff s Hno.
  unfold configured_server.extract_grades_from_page, try_except, bind.
  pose proof (first_matching_stays w configured_server.table_selectors_grades s) as Hs.
  destruct (configured_server.first_matching w configured_server.table_selectors_grades s)
    as [[found|e] s1] eqn:E; cbn [snd] in Hs; subst s1.
  - destruct (first_matching_none _ _ _ _ _ Hno E) as [-> _]. reflexivity.
  - reflexivity.
Qed.

Lemma grades_need_a_table_witness :
  configured_server.extract_grades_from_page (static_portal Mock.blank_page 0)
    "science" 0 Mock.fresh
  = (Ok [], Mock.fresh).
Proof.
  apply (grades_need_a_table (static_portal Mock.blank_page 0) "science" 0 Mock.fresh).
  intros sel _ [n H]. discriminate H.
Defined.

Lemma collect_length {T : Type} (body : nat -> Locator -> M (option T)) :
  (forall x s r s', body 0%nat x s = (Ok r, s') -> r = None) ->
  forall xs acc s l s',
    configured_server.collect body xs acc s = (Ok l, s') ->
    (List.length l
     <= List.length acc
        + List.length (filter (fun ix => negb (fst ix =? 0)%nat) xs))%nat.
Proof.
  intros Hheader. induction xs as [|[i x] xs IH]; intros acc s l s' H; simpl in H.
  - run_inv. simpl. lia.
  - run_inv. apply IH in H. cbn [filter fst].
    match goal with
    | Hx : try_except _ _ _ = _ |- _ =>
        apply try_except_Ok in Hx; destruct Hx as [Hb | (e & s2 & _ & Hb)]
    end.
    + destruct i as [|i'].
      * apply Hheader in Hb. subst. cbn [Nat.eqb negb]. exact H.
      * cbn [Nat.eqb negb List.length].
        match type of H with
        | context [match ?r with _ => _ end] => destruct r
        end; [rewrite length_app in H; simpl in H|]; lia.
    + run_inv. destruct (negb (i =? 0)%nat); simpl; lia.
Qed.

Lemma data_rows_count {T : Type} (f : nat -> T) (n : nat) :
  List.length (filter (fun ix => negb (fst ix =? 0)%nat) (enumerate (map f (seq 0 n))))
  = pred n.
Proof.
  unfold enumerate. rewrite length_map, length_seq, combine_seq_map.
  destruct n as [|n]; [reflexivity|]. cbn [seq map filter fst Nat.eqb negb pred].
  assert (H : forall a, (1 <= a)%nat ->
                         List.length
                           (filter (fun ix : nat * T => negb (fst ix =? 0)%nat)
                                   (map (fun i => (i, f i)) (seq a n))) = n).
  { clear. induction n as [|n IH]; intros a Ha; [reflexivity|].
    cbn [seq map filter fst]. destruct a as [|a']; [lia|].
    cbn [Nat.eqb negb List.length]. f_equal. apply IH. lia. }
  apply H. lia.
Qed.

(** The first row of the grade table is a header and never yields a grade,
    each other row at most one: a table of [n] rows gives at most [n - 1]
    grades. *)
Theorem grade_table_gives_at_most_one_grade_per_data_row :
  forall (w : World) (course_name : string) (cutoff : PyDatetime.datetime)
         (s s' : St) (items : list GradeSample) (selector : string) (n : nat),
    configured_server.first_matching w configured_server.table_selectors_grades s
    = (Ok (Some selector), s) ->
    doc_count (document w (st_history s)) [Sel selector; First; Sel "tr"] = Ok n ->
    configured_server.extract_grades_from_page w course_name cutoff s = (Ok items, s') ->
    (List.length items <= pred n)%nat.
Proof.
  intros w course_name cutoff s s' items selector n Hfound Hrows H.
  unfold configured_server.extract_grades_from_page in H.
  apply try_except_Ok in H. destruct H as [H | (e & s1 & _ & H)];
    [|run_inv; simpl; lia].
  apply bind_Ok in H. destruct H as (found & s1 & Hf & H). cbv beta in H.
  rewrite Hfound in Hf. inversion Hf; subst found s1. clear Hf.
  apply bind_Ok in H. destruct H as (table & s1 & Ht & H). cbv beta in H.
  unfold await_first in Ht. apply bind_Ok in Ht. destruct Ht as (u & s2 & Hq & Ht).
  apply query_Ok in Hq. destruct Hq as [_ ->]. apply ret_Ok in Ht.
  destruct Ht as [-> ->].
  apply bind_Ok in H. destruct H as (rows & s1 & Ha & H). cbv beta in H.
  unfold all in Ha. apply bind_Ok in Ha. destruct Ha as (k & s2 & Hq & Ha).
  unfold count in Hq. apply query_Ok in Hq. destruct Hq as [Hk ->].
  apply ret_Ok in Ha. destruct Ha as [-> ->].
  cbn [app] in Hk. rewrite Hrows in Hk. inversion Hk; subst k.
  apply collect_length in H.
  - rewrite data_rows_count in H. simpl in H. exact H.
  - intros x s0 r s0' Hrow. unfold configured_server.grade_of_row in Hrow.
    cbn [Nat.eqb] in Hrow. apply ret_Ok in Hrow. tauto.
Qed.

Lemma grade_table_bound_witness :
  Nat.le
    (List.length [mk_GradeSample "Pre Algebra" 63845798400000000 (Some (FloatOf "85.5"));
                  mk_GradeSample "Pre Algebra" (Mock.noon_march_15_2024 + 2000000)
                                 (Some (FloatOf "78"))])
    (pred 4).
Proof.
  apply (grade_table_gives_at_most_one_grade_per_data_row
           (Mock.portal Mock.grades_site Mock.noon_march_15_2024) "pre_algebra"
           (Mock.noon_march_15_2024 - 14 * PyDatetime.MICROS_PER_DAY)
           (mk_St [EvGoto (configured_server.class_url "2203700")] 1)
           (mk_St [EvGoto (configured_server.class_url "2203700")] 4)
           _ "table" 4);
    vm_compute; reflexivity.
Defined.

(** ** When the session is saved *)

Lemma configured_probe_total (w : World) (indicators : list string) (s : St) :
  exists found, configured_server.probe_indicators w indicators s = (Ok found, s).
Proof.
  induction indicators as [|i rest IH]; simpl.
  - now exists false.
  - unfold bind at 1. unfold try_except, bind, count, query, ret.
    destruct (doc_count (document w (st_history s)) [Sel i]) as [n|e].
    + destruct (0 <? n)%nat; [now exists true | exact IH].
    + exact IH.
Qed.

Lemma snd_bind_act {B : Type} (w : World) (e : Event) (k : unit -> M B) (s : St) :
  snd (bind (act w e) k s)
  = match respond w (st_history s) e with
    | Ok _ => snd (k tt (mk_St (e :: st_history s) (st_ticks s)))
    | Raise _ => mk_St (e :: st_history s) (st_ticks s)
    end.
Proof.
  unfold bind, act. destruct (respond w (st_history s) e) as [[]|x]; reflexivity.
Qed.

(** The events of [l] that come on top of the history [h]. *)
Ltac events_above l h :=
  match l with
  | h => constr:(@nil Event)
  | ?e :: ?r => let p := events_above r h in constr:(e :: p)
  end.

Ltac close_login_branch s :=
  cbn [snd st_history st_ticks];
  match goal with
  | |- exists new, ?l = new ++ st_history s /\ _ =>
      let p := events_above l (st_history s) in
      exists p; split;
      [reflexivity
      |intros path Hin;
       first [reflexivity
             |exfalso; simpl in Hin;
              repeat (destruct Hin as [Hin | Hin]; [discriminate Hin|]);
              exact Hin]]
  end.

(** In configured_server.py the session file is written only at the very
    end of a complete login: when [ensure_login] has asked for the session
    to be saved, it had seen no logged-in marker and the browser had
    accepted, in this order, the navigation to the portal, the username,
    its submission, the password and its submission; the save is followed
    only by the closing of the page. *)
Theorem session_is_saved_only_after_a_full_login :
  forall (cfg : Config) (w : World) (context : BrowserContext) (s : St),
  exists new,
    st_history (snd (configured_server.ensure_login cfg w context s))
    = new ++ st_history s
    /\ forall path,
         In (EvStorageState path) new ->
         new = [EvClosePage; EvStorageState (STATE_PATH cfg); EvWaitLoad 15000;
                EvClick "input[type='submit']";
                EvFill "input[name='passwd']" (PASSWORD cfg); EvWaitLoad 5000;
                EvClick "input[type='submit']";
                EvFill "input[name='loginfmt']" (USERNAME cfg); EvWaitLoad 10000;
                EvGoto (PORTAL_BASE_URL cfg); EvNewPage].
Proof.
  intros cfg w context s. unfold configured_server.ensure_login.
  rewrite snd_bind_act.
  destruct (respond w (st_history s) EvNewPage) as [[]|e0]; [|close_login_branch s].
  rewrite snd_try_finally. unfold act at 1. cbn [snd st_history].
  rewrite (snd_try_except_ret _ (fun _ => tt)).
  rewrite snd_bind_act. cbn [st_history st_ticks].
  destruct (respond w _ (EvGoto _)) as [[]|e1]; [|close_login_branch s].
  rewrite (bind_run _ _ _ _ _ (configured_wait_run _ _ _)). cbn [st_history st_ticks].
  match goal with
  | |- context [bind (configured_server.probe_indicators w ?inds) _ ?st] =>
      destruct (configured_probe_total w inds st) as [found Hfound]
  end.
  rewrite (bind_run _ _ _ _ _ Hfound). destruct found.
  { unfold act. close_login_branch s. }
  rewrite snd_bind_act. cbn [st_history st_ticks].
  destruct (respond w _ (EvFill _ _)) as [[]|e2]; [|close_login_branch s].
  rewrite snd_bind_act. cbn [st_history st_ticks].
  destruct (respond w _ (EvClick _)) as [[]|e3]; [|close_login_branch s].
  rewrite (bind_run _ _ _ _ _ (configured_wait_run _ _ _)). cbn [st_history st_ticks].
  rewrite snd_bind_act. cbn [st_history st_ticks].
  destruct (respond w _ (EvFill _ _)) as [[]|e4]; [|close_login_branch s].
  rewrite snd_bind_act. cbn [st_history st_ticks].
  destruct (respond w _ (EvClick _)) as [[]|e5]; [|close_login_branch s].
  rewrite (bind_run _ _ _ _ _ (configured_wait_run _ _ _)). cbn [st_history st_ticks].
  unfold act. close_login_branch s.
Qed.

Lemma full_login_example :
  st_history (snd (configured_server.ensure_login Mock.config
                     (Mock.portal (fun _ => Mock.blank_page) 0) (mk_BrowserContext None)
                     Mock.fresh))
  = [EvClosePage; EvStorageState "./state.json"; EvWaitLoad 15000;
     EvClick "input[type='submit']"; EvFill "input[name='passwd']" (Some "secret");
     EvWaitLoad 5000; EvClick "input[type='submit']";
     EvFill "input[name='loginfmt']" (Some "parent"); EvWaitLoad 10000;
     EvGoto "https://portal.example.edu"; EvNewPage].
Proof. vm_compute. reflexivity. Qed.

Section Keeps.
Variable P : St -> Prop.

Lemma keeps_ret {A : Type} (a : A) : keeps P (ret a).
Proof. intros s H. exact H. Qed.

Lemma keeps_bind_result {A B : Type} (Q : A -> Prop) (m : M A) (k : A -> M B) :
  keeps P m ->
  (forall s a s1, P s -> m s = (Ok a, s1) -> Q a) ->
  (forall a, Q a -> keeps P (k a)) ->
  keeps P (bind m k).
Proof.
  intros Hm HQ Hk s Hs. unfold bind. specialize (Hm s Hs).
  destruct (m s) as [[a|e] s1] eqn:E; cbn [snd] in *; [|exact Hm].
  apply (Hk a); [eapply HQ; eassumption | exact Hm].
Qed.

Lemma keeps_bind {A B : Type} (m : M A) (k : A -> M B) :
  keeps P m -> (forall a, keeps P (k a)) -> keeps P (bind m k).
Proof.
  intros Hm Hk. apply (keeps_bind_result (fun _ => True)); auto.
Qed.

Lemma keeps_try_except {A : Type} (m : M A) (h : exn -> M A) :
  keeps P m -> (forall e, keeps P (h e)) -> keeps P (try_except m h).
Proof.
  intros Hm Hh s Hs. unfold try_except. specialize (Hm s Hs).
  destruct (m s) as [[a|e] s1]; cbn [snd] in *; [exact Hm|]. now apply Hh.
Qed.

Lemma keeps_try_finally {A : Type} (m : M A) (c : M unit) :
  keeps P m -> keeps P c -> keeps P (try_finally m c).
Proof.
  intros Hm Hc s Hs. rewrite snd_try_finally. apply Hc, Hm, Hs.
Qed.

Lemma keeps_if {A : Type} (b : bool) (m1 m2 : M A) :
  keeps P m1 -> keeps P m2 -> keeps P (if b then m1 else m2).
Proof. destruct b; auto. Qed.

Lemma keeps_query {A : Type} (w : World) (q : Document -> outcome A) :
  keeps P (query w q).
Proof. intros s H. exact H. Qed.

End Keeps.

Lemma act_keeps_unsaved (w : World) (h0 : list Event) (e : Event) :
  is_save e = false -> keeps (unsaved_since h0) (act w e).
Proof.
  intros He s (later & Hh & Hl). exists (e :: later). cbn [snd act st_history].
  split; [now rewrite Hh | now constructor].
Qed.

Lemma improved_probe_keeps (P : St -> Prop) (w : World) (indicators : list string) :
  keeps P (improved_server.probe_indicators w indicators).
Proof.
  intros s Hs. destruct (improved_probe_total w indicators s) as [found E].
  now rewrite E.
Qed.

Lemma first_usable_keeps_unsaved (w : World) (h0 : list Event)
    (action : string -> Event) (selectors : list string) :
  (forall sel, is_save (action sel) = false) ->
  keeps (unsaved_since h0) (improved_server.first_usable w action selectors).
Proof.
  intros Haction. induction selectors as [|sel rest IH]; cbn [improved_server.first_usable].
  - apply keeps_ret.
  - apply keeps_bind.
    + apply keeps_try_except; [|intros; apply keeps_ret].
      apply keeps_bind; [apply keeps_query|]. intros n. apply keeps_if; [|apply keeps_ret].
      apply keeps_bind; [now apply act_keeps_unsaved | intros; apply keeps_ret].
    + intros done. apply keeps_if; [apply keeps_ret | exact IH].
Qed.

Lemma improved_wait_keeps_unsaved (w : World) (h0 : list Event) (timeout : Z) :
  keeps (unsaved_since h0) (improved_server.wait_for_page_load w timeout).
Proof.
  apply keeps_try_except; [now apply act_keeps_unsaved | intros; apply keeps_ret].
Qed.

(** The password step of improved_server.py fails soft like the username
    step: on a page with no password field under any candidate selector,
    whether or not a username was entered, [ensure_login] returns normally
    and never asks for the session to be saved.  The browser is assumed able
    to open, capture and close pages. *)
Theorem login_without_password_field_saves_nothing :
  forall (cfg : Config) (w : World) (context : BrowserContext) (s : St)
         (page : Document),
    (forall later, document w (later ++ st_history s) = page) ->
    (forall sel, In sel improved_server.password_selectors -> ~ matches page sel) ->
    respond w (st_history s) EvNewPage = Ok tt ->
    (forall h, respond w h (EvScreenshot "login_error.png") = Ok tt) ->
    (forall h, respond w h EvClosePage = Ok tt) ->
    exists later s',
      improved_server.ensure_login cfg w context s = (Ok tt, s')
      /\ st_history s' = later ++ st_history s
      /\ Forall (fun e => is_save e = false) later.
Proof.
  intros cfg w context s page Hpage Hpass Hnew Hshot Hclose.
  assert (Hkeeps : keeps (unsaved_since (st_history s))
                         (improved_server.ensure_login cfg w context)).
  { unfold improved_server.ensure_login.
    apply keeps_bind; [now apply act_keeps_unsaved | intros _].
    apply keeps_try_finally; [|now apply act_keeps_unsaved].
    apply keeps_try_except; [|intros; now apply act_keeps_unsaved].
    apply keeps_bind; [now apply act_keeps_unsaved | intros _].
    apply keeps_bind; [apply improved_wait_keeps_unsaved | intros _].
    apply keeps_bind; [apply improved_probe_keeps | intros logged_in].
    apply keeps_if; [now apply act_keeps_unsaved|].
    apply keeps_bind; [now apply act_keeps_unsaved | intros _].
    apply keeps_bind; [now apply first_usable_keeps_unsaved | intros username_filled].
    apply keeps_if.
    { apply keeps_bind; [now apply act_keeps_unsaved | intros _].
      now apply act_keeps_unsaved. }
    apply keeps_bind; [now apply first_usable_keeps_unsaved | intros next_clicked].
    apply keeps_bind;
      [apply keeps_if; [now apply act_keeps_unsaved | apply keeps_ret] | intros _].
    apply keeps_bind; [apply improved_wait_keeps_unsaved | intros _].
    apply keeps_bind; [now apply act_keeps_unsaved | intros _].
    apply (keeps_bind_result _ (fun filled => filled = false)).
    - now apply first_usable_keeps_unsaved.
    - intros s0 filled s1 (later & Hh & _) Hrun.
      rewrite first_usable_none in Hrun; [now inversion Hrun|].
      rewrite Hh, Hpage. exact Hpass.
    - intros filled ->. cbn [negb].
      apply keeps_bind; [now apply act_keeps_unsaved | intros _].
      now apply act_keeps_unsaved. }
  assert (Hstart : unsaved_since (st_history s) s) by (exists []; split; auto).
  specialize (Hkeeps s Hstart). destruct Hkeeps as (later & Hh & Hl).
  unfold improved_server.ensure_login in *.
  rewrite bind_act_Ok in * by exact Hnew.
  match goal with
  | |- context [try_finally (try_except ?body ?handler) ?cleanup ?st] =>
      destruct (guarded_unit_run body handler cleanup st) as (s' & Hrun & _)
  end.
  - intros e s1. unfold act. rewrite Hshot. eexists. reflexivity.
  - intros s1. unfold act. rewrite Hclose. eexists. reflexivity.
  - rewrite Hrun in Hh. cbn [snd] in Hh. exists later, s'. rewrite Hrun. auto.
Qed.

Lemma login_without_password_field_witness :
  exists later s',
    improved_server.ensure_login Mock.config
      (static_portal (Mock.table_page "input[name='loginfmt']" []) 0)
      (mk_BrowserContext None) Mock.fresh = (Ok tt, s')
    /\ st_history s' = later ++ st_history Mock.fresh
    /\ Forall (fun e => is_save e = false) later.
Proof.
  apply (login_without_password_field_saves_nothing Mock.config
           (static_portal (Mock.table_page "input[name='loginfmt']" []) 0)
           (mk_BrowserContext None) Mock.fresh
           (Mock.table_page "input[name='loginfmt']" [])).
  - reflexivity.
  - intros sel Hin [n H]. simpl in Hin.
    repeat (destruct Hin as [<- | Hin]; [discriminate H|]). exact Hin.
  - reflexivity.
  - reflexivity.
  - reflexivity.
Defined.

(** ** What the scraping tools answer through Playwright *)

(** Through Playwright the missing-assignments tool never reports an
    assignment: the table layout is given up when the table locator is
    awaited, every card when its first field is, so that each successful
    answer carries the count 0 and no item, whatever the page shows. *)
Theorem missing_assignments_tool_reports_nothing :
  forall (cfg : Config) (w : World) (request : ToolRequest) (s s' : St)
         (response : ToolResponse),
    playwright_locators w ->
    tool request = "check_missing_assignments" ->
    configured_server.call_tool cfg w request s = (Ok response, s') ->
    success response = true ->
    data response = Some (MissingData 0 []).
Proof.
  intros cfg w request s s' response Hlocators Htool H Hsuccess.
  unfold configured_server.call_tool in H. rewrite Htool in H.
  change (String.eqb "check_missing_assignments" "check_missing_assignments")
    with true in H.
  cbv iota in H.
  apply try_except_Ok in H. destruct H as [H | (e & s1 & _ & H)].
  - run_inv.
    match goal with
    | Hx : configured_server.scrape_missing_assignments _ _ _ _ = _ |- _ =>
        apply (assignments_without_await w Hlocators) in Hx; subst
    end.
    reflexivity.
  - run_inv. discriminate Hsuccess.
Qed.

Lemma missing_assignments_tool_witness :
  playwright_locators
    (Mock.playwright_portal Mock.assignments_site Mock.noon_march_15_2024)
  /\ exists response s',
       configured_server.call_tool Mock.config
         (Mock.playwright_portal Mock.assignments_site Mock.noon_march_15_2024)
         (mk_ToolRequest "check_missing_assignments" (mk_Arguments (Some 14) None))
         Mock.fresh
       = (Ok response, s')
       /\ success response = true
       /\ data response = Some (MissingData 0 []).
Proof.
  split; [intros history l; reflexivity|].
  eexists. eexists. split; [vm_compute; reflexivity|]. split; [reflexivity|].
  apply (missing_assignments_tool_reports_nothing Mock.config
           (Mock.playwright_portal Mock.assignments_site Mock.noon_march_15_2024)
           (mk_ToolRequest "check_missing_assignments" (mk_Arguments (Some 14) None))
           Mock.fresh
           (snd (configured_server.call_tool Mock.config
                   (Mock.playwright_portal Mock.assignments_site
                      Mock.noon_march_15_2024)
                   (mk_ToolRequest "check_missing_assignments"
                      (mk_Arguments (Some 14) None))
                   Mock.fresh))).
  - intros history l. reflexivity.
  - reflexivity.
  - vm_compute. reflexivity.
  - reflexivity.
Defined.

(** Through Playwright the grades tool never reports a grade either: each
    successful answer repeats the course filter of the request with an
    empty list of items, whatever the filter and the page. *)
Theorem course_grades_tool_reports_nothing :
  forall (cfg : Config) (w : World) (request : ToolRequest) (s s' : St)
         (response : ToolResponse),
    playwright_locators w ->
    tool request = "get_course_grades" ->
    configured_server.call_tool cfg w request s = (Ok response, s') ->
    success response = true ->
    data response = Some (GradesData (arg_course (arguments request)) []).
Proof.
  intros cfg w request s s' response Hlocators Htool H Hsuccess.
  unfold configured_server.call_tool in H. rewrite Htool in H.
  change (String.eqb "get_course_grades" "check_missing_assignments") with false in H.
  change (String.eqb "get_course_grades" "get_course_grades") with true in H.
  cbv iota in H.
  apply try_except_Ok in H. destruct H as [H | (e & s1 & _ & H)].
  - run_inv.
    match goal with
    | Hx : configured_server.scrape_course_grades _ _ _ _ _ = _ |- _ =>
        apply (grades_without_await w Hlocators) in Hx; subst
    end.
    reflexivity.
  - run_inv. discriminate Hsuccess.
Qed.

Lemma course_grades_tool_witness :
  playwright_locators (Mock.playwright_portal Mock.grades_site Mock.noon_march_15_2024)
  /\ exists response s',
       configured_server.call_tool Mock.config
         (Mock.playwright_portal Mock.grades_site Mock.noon_march_15_2024)
         (mk_ToolRequest "get_course_grades" (mk_Arguments (Some 14) None))
         Mock.fresh
       = (Ok response, s')
       /\ success response = true
       /\ data response = Some (GradesData None []).
Proof.
  split; [intros history l; reflexivity|].
  eexists. eexists. split; [vm_compute; reflexivity|]. split; [reflexivity|].
  apply (course_grades_tool_reports_nothing Mock.config
           (Mock.playwright_portal Mock.grades_site Mock.noon_march_15_2024)
           (mk_ToolRequest "get_course_grades" (mk_Arguments (Some 14) None))
           Mock.fresh
           (snd (configured_server.call_tool Mock.config
                   (Mock.playwright_portal Mock.grades_site Mock.noon_march_15_2024)
                   (mk_ToolRequest "get_course_grades" (mk_Arguments (Some 14) None))
                   Mock.fresh))).
  - intros history l. reflexivity.
  - reflexivity.
  - vm_compute. reflexivity.
  - reflexivity.
Defined.
